(** * trendygenie-admin: the data-access layer, the pagination hook and the
    slug and retry helpers, embedded in Rocq.

    The TypeScript sources are embedded shallowly.  The JavaScript numbers
    that are counts, page indices, row offsets or delays are modelled by
    [Z]; the amounts of the payments, which have cents and are added up, are
    binary64 floating-point numbers, [float], with the operations of the
    machine.  Quotients by zero ([Infinity], [NaN]) of the former are outside
    the model, so statements about [Math.ceil(a / b)] carry [b >= 1].
    Strings that the slug helper inspects are lists of UTF-16 code units; all
    other strings are [string]. *)

From Stdlib Require Import PrimFloat FloatAxioms.
From Stdlib Require Import ZArith NArith Lia List Bool.
From stdpp Require Import gmap strings list pretty.

Local Open Scope Z_scope.

(** Decimal amounts such as 1.1 stand for the nearest binary64 number, as
    they do in the sources. *)
#[local] Set Warnings "-inexact-float".

(** ** Status enums (types/business.ts, types/service.ts, types/company.ts,
    types/transaction.ts, types/user.ts, types/legalPage.ts) *)

Module Status.

(** [export type BusinessStatus = 'pending' | 'active' | 'rejected' |
    'suspended' | 'removed' | 'deleted';] *)
Inductive BusinessStatus :=
| BPending | BActive | BRejected | BSuspended | BRemoved | BDeleted.

(** [export type ServiceStatus = 'pending' | 'active' | 'rejected' |
    'suspended' | 'deleted' | 'requestDeletion';] *)
Inductive ServiceStatus :=
| SPending | SActive | SRejected | SSuspended | SDeleted | SRequestDeletion.

(** [export type CompanyStatus = 'pending' | 'approved' | 'rejected' |
    'suspended';] *)
Inductive CompanyStatus :=
| CPending | CApproved | CRejected | CSuspended.

(** [export type TransactionStatus = 'pending' | 'completed' | 'failed' |
    'refunded' | 'cancelled' | 'processing';] *)
Inductive TransactionStatus :=
| TPending | TCompleted | TFailed | TRefunded | TCancelled | TProcessing.

(** [export type UserType = 'customer' | 'provider' | 'admin';] *)
Inductive UserType := Customer | Provider | Admin.

(** [export type LegalPageType = 'terms' | 'privacy' | 'refund' | 'cookie' |
    'other';] *)
Inductive LegalPageType := Terms | Privacy | Refund | Cookie | Other.

(** [export type PaymentProvider = 'stripe' | 'paypal' | ...] *)
Inductive PaymentProvider :=
| Stripe | Paypal | Cash | BankTransfer | Square | Razorpay | Flutterwave
| Mpesa | GooglePay | ApplePay.

(** The members of the unions are string literals: these are the strings. *)
Definition business_literal (s : BusinessStatus) : string :=
  match s with
  | BPending => "pending" | BActive => "active" | BRejected => "rejected"
  | BSuspended => "suspended" | BRemoved => "removed" | BDeleted => "deleted"
  end.

Definition service_literal (s : ServiceStatus) : string :=
  match s with
  | SPending => "pending" | SActive => "active" | SRejected => "rejected"
  | SSuspended => "suspended" | SDeleted => "deleted"
  | SRequestDeletion => "requestDeletion"
  end.

Definition company_literal (s : CompanyStatus) : string :=
  match s with
  | CPending => "pending" | CApproved => "approved" | CRejected => "rejected"
  | CSuspended => "suspended"
  end.

Definition transaction_literal (s : TransactionStatus) : string :=
  match s with
  | TPending => "pending" | TCompleted => "completed" | TFailed => "failed"
  | TRefunded => "refunded" | TCancelled => "cancelled"
  | TProcessing => "processing"
  end.

Definition userType_literal (t : UserType) : string :=
  match t with
  | Customer => "customer" | Provider => "provider" | Admin => "admin"
  end.

Definition legalPageType_literal (t : LegalPageType) : string :=
  match t with
  | Terms => "terms" | Privacy => "privacy" | Refund => "refund"
  | Cookie => "cookie" | Other => "other"
  end.

Definition paymentProvider_literal (p : PaymentProvider) : string :=
  match p with
  | Stripe => "stripe" | Paypal => "paypal" | Cash => "cash"
  | BankTransfer => "bank_transfer" | Square => "square"
  | Razorpay => "razorpay" | Flutterwave => "flutterwave" | Mpesa => "mpesa"
  | GooglePay => "google_pay" | ApplePay => "apple_pay"
  end.

(** A string is a value of the union when it is one of its literals. *)
Definition isBusinessStatus (s : string) : Prop :=
  exists b, business_literal b = s.
Definition isServiceStatus (s : string) : Prop :=
  exists b, service_literal b = s.
Definition isCompanyStatus (s : string) : Prop :=
  exists b, company_literal b = s.
Definition isTransactionStatus (s : string) : Prop :=
  exists b, transaction_literal b = s.

End Status.

(** ** Numbers *)

(** [Math.ceil(a / b)] on integers, for [b <> 0]. *)
Definition ceil_div (a b : Z) : Z := - ((- a) / b).

(** [x ?? d] on an optional number. *)
Definition nullish (x : option Z) (d : Z) : Z :=
  match x with Some v => v | None => d end.

(** ** Slug generation (services/legalPageService.ts, [generateSlug]) *)

Module Slug.

(** A UTF-16 code unit. *)
Definition unit16 := N.
Definition jsstring := list N.

Local Open Scope N_scope.

Definition between (lo hi c : N) : bool := (lo <=? c) && (c <=? hi).

Definition is_upper (c : N) : bool := between 0x41 0x5A c.
Definition is_lower (c : N) : bool := between 0x61 0x7A c.
Definition is_digit (c : N) : bool := between 0x30 0x39 c.
Definition underscore : N := 0x5F.
Definition hyphen : N := 0x2D.
Definition is_hyphen (c : N) : bool := c =? hyphen.

(** The class [\w] of a regular expression without the [i] and [u] flags:
    [A-Za-z0-9_]. *)
Definition is_word (c : N) : bool :=
  is_upper c || is_lower c || is_digit c || (c =? underscore).

(** The class [\s], which is also what [trim] strips: WhiteSpace and
    LineTerminator of ECMA-262. *)
Definition is_space (c : N) : bool :=
  between 0x09 0x0D c || (c =? 0x20) || (c =? 0xA0) || (c =? 0x1680)
  || between 0x2000 0x200A c || (c =? 0x2028) || (c =? 0x2029)
  || (c =? 0x202F) || (c =? 0x205F) || (c =? 0x3000) || (c =? 0xFEFF).

(** [String.prototype.toLowerCase].  The Unicode lower-case mapping sends
    [A-Z] to [a-z]; the only other code points with an ASCII letter in their
    image are U+0130 (to [i] followed by U+0307) and U+212A, the Kelvin sign
    (to [k]).  Every other code unit is mapped by Unicode to code units
    outside ASCII and outside [\s]; they are kept as they are here, which
    [generateSlug] cannot tell apart since its first [replace] deletes them
    and their images alike. *)
Definition toLowerCase1 (c : N) : list N :=
  if is_upper c then [c + 0x20]
  else if c =? 0x130 then [0x69; 0x307]
  else if c =? 0x212A then [0x6B]
  else [c].

Definition toLowerCase (s : jsstring) : jsstring :=
  flat_map toLowerCase1 s.

Fixpoint dropWhile (p : N -> bool) (s : jsstring) : jsstring :=
  match s with
  | [] => []
  | c :: s' => if p c then dropWhile p s' else s
  end.

(** [String.prototype.trim] *)
Definition trim (s : jsstring) : jsstring :=
  rev (dropWhile is_space (rev (dropWhile is_space s))).

(** [.replace(/[^\w\s-]/g, '')] *)
Definition keeps (c : N) : bool := is_word c || is_space c || is_hyphen c.
Definition removeSpecial (s : jsstring) : jsstring := List.filter keeps s.

(** [.replace(/p+/g, r)] for a character class [p]: every maximal run of
    [p] becomes one [r].  [inRun] tells that the previous unit was in [p]. *)
Fixpoint replaceRuns (p : N -> bool) (r : N) (inRun : bool) (s : jsstring)
  : jsstring :=
  match s with
  | [] => []
  | c :: s' =>
      if p c then
        if inRun then replaceRuns p r true s'
        else r :: replaceRuns p r true s'
      else c :: replaceRuns p r false s'
  end.

(** [export function generateSlug(title: string): string] *)
Definition generateSlug (title : jsstring) : jsstring :=
  replaceRuns is_hyphen hyphen false
    (replaceRuns is_space hyphen false
       (removeSpecial (trim (toLowerCase title)))).

(** ASCII text as code units, to write examples. *)
Definition of_string (s : string) : jsstring :=
  List.map (fun a => N.of_nat (Ascii.nat_of_ascii a)) (String.list_ascii_of_string s).

(** What the slug consists of. *)
Definition slug_unit (c : N) : bool :=
  is_lower c || is_digit c || (c =? underscore) || is_hyphen c.

Fixpoint double_hyphen (s : jsstring) : bool :=
  match s with
  | c :: (d :: _) as s' => (is_hyphen c && is_hyphen d) || double_hyphen s'
  | _ => false
  end.

Definition starts_with_hyphen (s : jsstring) : bool :=
  match s with
  | c :: _ => is_hyphen c
  | [] => false
  end.

End Slug.

(** ** The pagination hook (hooks/usePagination.ts) *)

Module Pagination.

Definition DEFAULT_PAGE : Z := 1.
Definition DEFAULT_PAGE_SIZE : Z := 10.

(** [UsePaginationOptions]: each field is optional. *)
Record Options := {
  initialPage : option Z;
  initialPageSize : option Z;
  initialTotal : option Z;
}.

(** One instance of the hook: the three [useState] cells, and the two
    options that [resetPagination] closes over, after the defaults of the
    destructuring have been applied. *)
Record Hook := {
  page : Z;
  pageSize : Z;
  total : Z;
  optPage : Z;
  optPageSize : Z;
}.

(** The first render: [useState(initialPage)], [useState(initialPageSize)],
    [useState(initialTotal)]. *)
Definition usePagination (options : Options) : Hook :=
  let initialPage := nullish (initialPage options) DEFAULT_PAGE in
  let initialPageSize := nullish (initialPageSize options) DEFAULT_PAGE_SIZE in
  let initialTotal := nullish (initialTotal options) 0 in
  {| page := initialPage; pageSize := initialPageSize; total := initialTotal;
     optPage := initialPage; optPageSize := initialPageSize |}.

(** [Math.max(1, Math.ceil(total / pageSize))] *)
Definition totalPages (h : Hook) : Z :=
  Z.max 1 (ceil_div (total h) (pageSize h)).

(** [(page - 1) * pageSize] *)
Definition offset (h : Hook) : Z := (page h - 1) * pageSize h.

Definition canGoNext (h : Hook) : bool := page h <? totalPages h.
Definition canGoPrev (h : Hook) : bool := page h >? 1.

(** [for (let i = lo; i <= hi; i++) pages.push(i)] *)
Definition pushRange (lo hi : Z) : list Z := seqZ lo (hi - lo + 1).

Definition maxVisiblePages : Z := 5.

Definition pageNumbers (h : Hook) : list Z :=
  if totalPages h <=? maxVisiblePages then
    pushRange 1 (totalPages h)
  else
    let start := Z.max 1 (page h - maxVisiblePages / 2) in
    let end_ := Z.min (totalPages h) (start + maxVisiblePages - 1) in
    let start :=
      if end_ - start <? maxVisiblePages - 1
      then Z.max 1 (end_ - maxVisiblePages + 1)
      else start in
    pushRange start end_.

Definition withPage (h : Hook) (p : Z) : Hook :=
  {| page := p; pageSize := pageSize h; total := total h;
     optPage := optPage h; optPageSize := optPageSize h |}.

(** Each callback is one transition from the rendered state. *)
Definition setPage (h : Hook) (newPage : Z) : Hook :=
  let boundedPage := Z.max 1 (Z.min newPage (totalPages h)) in
  withPage h boundedPage.

Definition setPageSize (h : Hook) (newPageSize : Z) : Hook :=
  {| page := 1; pageSize := newPageSize; total := total h;
     optPage := optPage h; optPageSize := optPageSize h |}.

Definition setTotal (h : Hook) (newTotal : Z) : Hook :=
  let newTotalPages := Z.max 1 (ceil_div newTotal (pageSize h)) in
  {| page := if page h >? newTotalPages then newTotalPages else page h;
     pageSize := pageSize h; total := newTotal;
     optPage := optPage h; optPageSize := optPageSize h |}.

Definition nextPage (h : Hook) : Hook :=
  if canGoNext h then withPage h (page h + 1) else h.

Definition prevPage (h : Hook) : Hook :=
  if canGoPrev h then withPage h (page h - 1) else h.

Definition firstPage (h : Hook) : Hook := withPage h 1.

Definition lastPage (h : Hook) : Hook := withPage h (totalPages h).

Definition resetPagination (h : Hook) : Hook :=
  {| page := optPage h; pageSize := optPageSize h; total := total h;
     optPage := optPage h; optPageSize := optPageSize h |}.

(** The invariant of the hook. *)
Definition inBounds (h : Hook) : Prop := 1 <= page h <= totalPages h.

(** The operations the hook returns. *)
Inductive Op :=
| SetPage (newPage : Z) | SetPageSize (newPageSize : Z) | SetTotal (newTotal : Z)
| NextPage | PrevPage | FirstPage | LastPage | ResetPagination.

Definition apply (h : Hook) (o : Op) : Hook :=
  match o with
  | SetPage p => setPage h p
  | SetPageSize n => setPageSize h n
  | SetTotal t => setTotal h t
  | NextPage => nextPage h
  | PrevPage => prevPage h
  | FirstPage => firstPage h
  | LastPage => lastPage h
  | ResetPagination => resetPagination h
  end.

(** The arguments under which the new state still has [pageSize >= 1], and,
    for [resetPagination], under which the initial page is a page of the
    current total. *)
Definition admissible (h : Hook) (o : Op) : Prop :=
  match o with
  | SetPageSize n => 1 <= n
  | ResetPagination =>
      1 <= optPageSize h
      /\ 1 <= optPage h <= Z.max 1 (ceil_div (total h) (optPageSize h))
  | _ => True
  end.

(** Each element is the one before plus one. *)
Definition consecutive (l : list Z) : Prop :=
  forall (i : nat) (x y : Z),
    l !! i = Some x -> l !! S i = Some y -> y = x + 1.

End Pagination.


(** ** JavaScript values, the remote store's requests and answers *)

(** What a [catch] clause receives: an [Error] object, of which the code
    reads the message, or any other thrown value. *)
Inductive Thrown :=
| ErrorObject (message : string)
| NonError (shown : string).

(** How an awaited promise settles. *)
Inductive Outcome (A : Type) :=
| Returned (a : A)
| Threw (e : Thrown).
Arguments Returned {A} a.
Arguments Threw {A} e.

(** Equality of two binary64 numbers as values (one [NaN], and [0] apart
    from [-0]), decided by the machine's comparison of their bits. *)
#[global] Instance float_eq_dec : EqDecision float :=
  fun x y =>
    match Leibniz.eqb x y as b return Leibniz.eqb x y = b -> Decision (x = y)
    with
    | true => fun E => left (proj1 (FloatAxioms.Leibniz.eqb_spec x y) E)
    | false => fun E =>
        right (fun H =>
                 Bool.diff_true_false
                   (eq_trans
                      (eq_sym (proj2 (FloatAxioms.Leibniz.eqb_spec x y) H)) E))
    end eq_refl.

(** A JSON column value: a number is a JavaScript number.  Arrays and objects
    are kept as their text. *)
Inductive Value :=
| VNull
| VBool (b : bool)
| VNum (n : float)
| VStr (s : string)
| VJson (text : string).

#[global] Instance Value_eq_dec : EqDecision Value.
Proof. solve_decision. Defined.

(** A row of a table, and the object literal given to [insert] or [update]:
    column name to value. *)
Abbreviation Row := (gmap string Value).

(** [ApiError] (types/common.ts): [message], optional [code] and [status]. *)
Record ApiError := {
  message : string;
  code : option string;
  status : option Z;
}.

(** The error object of a PostgREST answer; the code reads [message] and
    [code]. *)
Record PostgrestError := {
  pg_message : string;
  pg_code : string;
}.

(** The error object of an auth answer: [code] and [status] may be
    undefined. *)
Record AuthError := {
  auth_message : string;
  auth_code : option string;
  auth_status : option Z;
}.

(** Filters of the query builder that the services use. *)
Inductive Filter :=
| FEq (column : string) (v : Value)
| FNeq (column : string) (v : Value)
| FGte (column : string) (v : Value)
| FLte (column : string) (v : Value)
| FOr (expression : string).

(** What [from(table)] is followed by. *)
Inductive Verb :=
| Select (columns : string) (countExact : bool) (head : bool)
| Insert (values : Row)
| Update (values : Row)
| Delete.

(** A built query: the state of the builder when it is awaited. *)
Record Query := {
  table : string;
  verb : Verb;
  filters : list Filter;
  ordering : option (string * bool);
  window : option (Z * Z);
  returning : option string;
}.

Module Builder.

(** [supabase.from(t).select(columns, { count: 'exact', head })],
    [.insert(values)], [.update(values)], [.delete()] *)
Definition from (t : string) (v : Verb) : Query :=
  {| table := t; verb := v; filters := []; ordering := None; window := None;
     returning := None |}.

Definition addFilter (f : Filter) (q : Query) : Query :=
  {| table := table q; verb := verb q; filters := filters q ++ [f];
     ordering := ordering q; window := window q; returning := returning q |}.

Definition eq (column : string) (v : Value) := addFilter (FEq column v).
Definition neq (column : string) (v : Value) := addFilter (FNeq column v).
Definition gte (column : string) (v : Value) := addFilter (FGte column v).
Definition lte (column : string) (v : Value) := addFilter (FLte column v).
Definition or (expression : string) := addFilter (FOr expression).

(** [.order(column, { ascending })] *)
Definition order (column : string) (ascending : bool) (q : Query) : Query :=
  {| table := table q; verb := verb q; filters := filters q;
     ordering := Some (column, ascending); window := window q;
     returning := returning q |}.

(** [.range(lo, hi)]: rows [lo] to [hi], both included. *)
Definition range (lo hi : Z) (q : Query) : Query :=
  {| table := table q; verb := verb q; filters := filters q;
     ordering := ordering q; window := Some (lo, hi);
     returning := returning q |}.

(** [.select(columns)] after [insert] or [update]; [.select()] is
    [.select('*')]. *)
Definition select (columns : string) (q : Query) : Query :=
  {| table := table q; verb := verb q; filters := filters q;
     ordering := ordering q; window := window q;
     returning := Some columns |}.

End Builder.

(** What the server answers to an awaited query: the matching rows, with
    their number when [count: 'exact'] was asked, or an error. *)
Inductive ServerAnswer :=
| Rows (rows : list Row) (count : option Z)
| Refused (error : PostgrestError).

(** What the client library hands to the program: [{ data, error, count }]
    with either [error] or the rest. *)
Inductive PostgrestResponse :=
| PgData (data : option (list Row)) (count : option Z)
| PgError (error : PostgrestError).

(** The answer to a query ended by [.single()]: one row or an error. *)
Inductive PostgrestSingleResponse :=
| SingleData (data : Row)
| SingleError (error : PostgrestError).

Record AuthUser := { authId : string }.

Record Session := {
  access_token : string;
  refresh_token : string;
  expires_at : option Z;
}.

(** The answer of [signInWithPassword] and of [signUp]:
    [{ data: { user, session }, error }]. *)
Record AuthResponse := {
  authUser : option AuthUser;
  authSession : option Session;
  authError : option AuthError;
}.

(** The answer of [auth.getSession()]: [{ data: { session }, error }]. *)
Record SessionAnswer := {
  currentSession : option Session;
  sessionFailure : option AuthError;
}.

(** The answer of [auth.getUser()]: [{ data: { user }, error }]. *)
Record UserAnswer := {
  currentUser : option AuthUser;
  userFailure : option AuthError;
}.

(** What the functions ask of the outside, in order, each request with how
    it settled. *)
Inductive Event :=
| EvQuery (q : Query) (answer : Outcome ServerAnswer)
| EvSingle (q : Query) (answer : Outcome PostgrestSingleResponse)
| EvSignIn (email password : string) (answer : Outcome AuthResponse)
| EvSignUp (email password : string) (metadata : Row)
    (answer : Outcome AuthResponse)
| EvSignOut (answer : Outcome (option AuthError))
| EvGetSession (answer : Outcome SessionAnswer)
| EvGetUser (answer : Outcome UserAnswer)
| EvTimeout (ms : Z).

(** The remote store as the client library shows it.  [W] is the state of
    everything outside the function: the tables, the sessions, the clock. *)
Class Postgrest (W : Type) := {
  (** [await query] *)
  pgAwait : Query -> W -> Outcome ServerAnswer * W;
  (** [await query.single()] *)
  pgSingle : Query -> W -> Outcome PostgrestSingleResponse * W;
  (** [new Date().toISOString()] *)
  isoNow : W -> string * W;
}.

Class Auth (W : Type) := {
  signInWithPassword : string -> string -> W -> Outcome AuthResponse * W;
  signUp : string -> string -> Row -> W -> Outcome AuthResponse * W;
  authSignOut : W -> Outcome (option AuthError) * W;
  authGetSession : W -> Outcome SessionAnswer * W;
  authGetUser : W -> Outcome UserAnswer * W;
}.

Class Timers (W : Type) := {
  (** the world after [setTimeout(resolve, ms)] has fired *)
  elapse : Z -> W -> W;
  (** whether a timer of [ms] fires before the request now pending settles *)
  firesFirst : Z -> W -> bool;
}.

(** ** Asynchronous functions: state, exceptions and a trace *)

Record Run (W A : Type) := mkRun {
  out : Outcome A;
  world : W;
  trace : list Event;
}.
Arguments mkRun {W A} out world trace.
Arguments out {W A} r.
Arguments world {W A} r.
Arguments trace {W A} r.

Definition Async (W A : Type) : Type := W -> Run W A.

Section AsyncMonad.
Context {W : Type}.

Definition pure {A} (a : A) : Async W A := fun w => mkRun (Returned a) w [].

Definition throw {A} (e : Thrown) : Async W A := fun w => mkRun (Threw e) w [].

Definition bind {A B} (m : Async W A) (k : A -> Async W B) : Async W B :=
  fun w =>
    let r := m w in
    match out r with
    | Returned a =>
        let r' := k a (world r) in
        mkRun (out r') (world r') (trace r ++ trace r')
    | Threw e => mkRun (Threw e) (world r) (trace r)
    end.

(** [try { body } catch (err) { handler }] *)
Definition tryCatch {A} (body : Async W A) (handler : Thrown -> Async W A)
  : Async W A :=
  fun w =>
    let r := body w in
    match out r with
    | Returned a => r
    | Threw e =>
        let r' := handler e (world r) in
        mkRun (out r') (world r') (trace r ++ trace r')
    end.

(** A request to the outside, with the event it leaves in the trace. *)
Definition perform {A} (ev : Outcome A -> Event) (f : W -> Outcome A * W)
  : Async W A :=
  fun w => let '(o, w') := f w in mkRun o w' [ev o].

(** A read of the outside that leaves no event. *)
Definition observe {A} (f : W -> A * W) : Async W A :=
  fun w => let '(a, w') := f w in mkRun (Returned a) w' [].

End AsyncMonad.

#[global] Instance Async_ret {W} : MRet (Async W) := fun A a => pure a.
#[global] Instance Async_bind {W} : MBind (Async W) := fun A B k m => bind m k.

(** [err instanceof Error ? err.message : fallback] *)
Definition messageOr (err : Thrown) (fallback : string) : string :=
  match err with
  | ErrorObject m => m
  | NonError _ => fallback
  end.

(** [{ message: error.message, code: error.code }] *)
Definition apiError (error : PostgrestError) : ApiError :=
  {| message := pg_message error; code := Some (pg_code error); status := None |}.

(** [{ message: authError.message, code: authError.code,
      status: authError.status }] *)
Definition apiAuthError (error : AuthError) : ApiError :=
  {| message := auth_message error; code := auth_code error;
     status := auth_status error |}.

(** [{ message: m }] *)
Definition plainError (m : string) : ApiError :=
  {| message := m; code := None; status := None |}.

(** The response shape of the services: the interfaces [BusinessResponse],
    [BusinessesResponse], [BusinessStatsResponse], ... are one nullable
    payload (named [business], [data], [stats], ... there) and one nullable
    [error]. *)
Record Reply (P : Type) := mkReply {
  payload : option P;
  error : option ApiError;
}.
Arguments mkReply {P} payload error.
Arguments payload {P} r.
Arguments error {P} r.

(** The response of the delete functions: [{ error: ApiError | null }]. *)
Record DeleteReply := mkDeleteReply {
  deleteError : option ApiError;
}.

(** [PaginatedResponse<T>] (types/common.ts); [data] is the answer's [data]
    under a cast. *)
Record Paginated := {
  pgRows : option (list Row);
  pgTotal : Z;
  pgPage : Z;
  pgPageSize : Z;
  pgTotalPages : Z;
}.

Inductive SortOrder := Asc | Desc.

(** The paging and sorting fields that every [...QueryParams] adds to its
    filters; all optional. *)
Record Paging := {
  page : option Z;
  pageSize : option Z;
  sortBy : option string;
  sortOrder : option SortOrder;
}.

(** [if (s)] on an optional string: defined and not empty. *)
Definition truthy (s : option string) : option string :=
  match s with
  | Some "" => None
  | other => other
  end.

Definition isAsc (o : SortOrder) : bool :=
  match o with Asc => true | Desc => false end.


(** The client library leaves [data] null when the request carries no body
    back: a [head] request, or a mutation without [.select()].  Otherwise
    [data] is the array of rows. *)
Definition bodyless (q : Query) : bool :=
  match verb q with
  | Select _ _ head => head
  | _ => match returning q with None => true | Some _ => false end
  end.

Definition handed (q : Query) (a : ServerAnswer) : PostgrestResponse :=
  match a with
  | Rows rows count => PgData (if bodyless q then None else Some rows) count
  | Refused error => PgError error
  end.

Definition settle {A B} (f : A -> B) (o : Outcome A) : Outcome B :=
  match o with
  | Returned a => Returned (f a)
  | Threw e => Threw e
  end.

Section Awaiting.
Context {W : Type} `{!Postgrest W}.

(** [await query] *)
Definition await (q : Query) : Async W PostgrestResponse :=
  fun w =>
    let '(o, w') := pgAwait q w in
    mkRun (settle (handed q) o) w' [EvQuery q o].

(** [await query.single()] *)
Definition awaitSingle (q : Query) : Async W PostgrestSingleResponse :=
  perform (EvSingle q) (pgSingle q).

(** [new Date().toISOString()] *)
Definition now : Async W string := observe isoNow.

(** [try { body } catch (err) { return { payload: null, error: { message:
    err instanceof Error ? err.message : fallback } } }], the frame of every
    service function. *)
Definition guarded {P} (fallback : string) (body : Async W (Reply P))
  : Async W (Reply P) :=
  tryCatch body
    (fun err => mret (mkReply None (Some (plainError (messageOr err fallback))))).

(** The same frame around a delete function. *)
Definition guardedDelete (fallback : string) (body : Async W DeleteReply)
  : Async W DeleteReply :=
  tryCatch body
    (fun err => mret (mkDeleteReply (Some (plainError (messageOr err fallback))))).

(** [.select('*', { count: 'exact', head: true })] on a table *)
Definition countAll (t : string) : Query :=
  Builder.from t (Select "*" true true).

End Awaiting.

(** ** services/businessService.ts *)

Module BusinessService.
Import Status.

Definition DEFAULT_PAGE_SIZE : Z := 10.

(** [BusinessFilters] and [BusinessQueryParams] (types/business.ts) *)
Record BusinessFilters := {
  status : option BusinessStatus;
  categoryId : option string;
  companyId : option string;
  search : option string;
}.

Record BusinessQueryParams := {
  filter : BusinessFilters;
  paging : Paging;
}.

(** [BusinessStats] *)
Record BusinessStats := {
  total : Z;
  active : Z;
  pending : Z;
  suspended : Z;
  rejected : Z;
}.

(** The select list with the joined company, category and subcategory. *)
Definition joined : string :=
  "*, company:companies!company_id(*), category:categories!category_id(*), subcategory:subcategories!subcategory_id(*)".

(** The count queries of [getBusinessStats], in order. *)
Definition statsQueries : list Query :=
  [ countAll "businesses";
    Builder.eq "status" (VStr "active") (countAll "businesses");
    Builder.eq "status" (VStr "pending") (countAll "businesses");
    Builder.eq "status" (VStr "suspended") (countAll "businesses");
    Builder.eq "status" (VStr "rejected") (countAll "businesses") ].

Section Functions.
Context {W : Type} `{!Postgrest W}.

Definition getBusinesses (params : BusinessQueryParams)
  : Async W (Reply Paginated) :=
  guarded "Failed to fetch businesses" (
    let page := nullish (page (paging params)) 1 in
    let pageSize := nullish (pageSize (paging params)) DEFAULT_PAGE_SIZE in
    let sortBy := default "created_at" (sortBy (paging params)) in
    let sortOrder := default Desc (sortOrder (paging params)) in
    let offset := (page - 1) * pageSize in
    let query := Builder.from "businesses" (Select joined true false) in
    let query :=
      match status (filter params) with
      | Some st => Builder.eq "status" (VStr (business_literal st)) query
      | None => query
      end in
    let query :=
      match truthy (categoryId (filter params)) with
      | Some c => Builder.eq "category_id" (VStr c) query
      | None => query
      end in
    let query :=
      match truthy (companyId (filter params)) with
      | Some c => Builder.eq "company_id" (VStr c) query
      | None => query
      end in
    let query :=
      match truthy (search (filter params)) with
      | Some s =>
          Builder.or ("name.ilike.%" +:+ s +:+ "%,address.ilike.%" +:+ s
                      +:+ "%,contact_email.ilike.%" +:+ s +:+ "%") query
      | None => query
      end in
    let query := Builder.order sortBy (isAsc sortOrder) query in
    let query := Builder.range offset (offset + pageSize - 1) query in
    r ← await query;
    match r with
    | PgError error => mret (mkReply None (Some (apiError error)))
    | PgData data count =>
        let total := nullish count 0 in
        let totalPages := ceil_div total pageSize in
        mret (mkReply
                (Some {| pgRows := data; pgTotal := total; pgPage := page;
                         pgPageSize := pageSize; pgTotalPages := totalPages |})
                None)
    end).

Definition getBusinessById (id : string) : Async W (Reply Row) :=
  guarded "Failed to fetch business" (
    r ← awaitSingle
          (Builder.eq "id" (VStr id)
             (Builder.from "businesses" (Select joined false false)));
    match r with
    | SingleError error => mret (mkReply None (Some (apiError error)))
    | SingleData data => mret (mkReply (Some data) None)
    end).

Definition updateBusinessStatus (id : string) (st : BusinessStatus)
  : Async W (Reply Row) :=
  guarded "Failed to update business status" (
    updated_at ← now;
    r ← awaitSingle
          (Builder.select joined
             (Builder.eq "id" (VStr id)
                (Builder.from "businesses"
                   (Update (<["status" := VStr (business_literal st)]>
                              (<["updated_at" := VStr updated_at]> ∅))))));
    match r with
    | SingleError error => mret (mkReply None (Some (apiError error)))
    | SingleData data => mret (mkReply (Some data) None)
    end).

Definition deleteBusiness (id : string) : Async W DeleteReply :=
  guardedDelete "Failed to delete business" (
    r ← await (Builder.eq "id" (VStr id) (Builder.from "businesses" Delete));
    match r with
    | PgError error => mret (mkDeleteReply (Some (apiError error)))
    | PgData _ _ => mret (mkDeleteReply None)
    end).

Definition getBusinessStats : Async W (Reply BusinessStats) :=
  guarded "Failed to fetch business stats" (
    r ← await (countAll "businesses");
    match r with
    | PgError totalError => mret (mkReply None (Some (apiError totalError)))
    | PgData _ total =>
    r ← await (Builder.eq "status" (VStr "active") (countAll "businesses"));
    match r with
    | PgError activeError => mret (mkReply None (Some (apiError activeError)))
    | PgData _ active =>
    r ← await (Builder.eq "status" (VStr "pending") (countAll "businesses"));
    match r with
    | PgError pendingError => mret (mkReply None (Some (apiError pendingError)))
    | PgData _ pending =>
    r ← await (Builder.eq "status" (VStr "suspended") (countAll "businesses"));
    match r with
    | PgError suspendedError =>
        mret (mkReply None (Some (apiError suspendedError)))
    | PgData _ suspended =>
    r ← await (Builder.eq "status" (VStr "rejected") (countAll "businesses"));
    match r with
    | PgError rejectedError =>
        mret (mkReply None (Some (apiError rejectedError)))
    | PgData _ rejected =>
        mret (mkReply
                (Some {| total := nullish total 0;
                         active := nullish active 0;
                         pending := nullish pending 0;
                         suspended := nullish suspended 0;
                         rejected := nullish rejected 0 |})
                None)
    end end end end end).

End Functions.
End BusinessService.


(** ** services/authService.ts *)

Module AuthService.
Import Status.

(** [CreateUserInput] (types/user.ts) *)
Record CreateUserInput := {
  email : string;
  password : string;
  full_name : string;
  user_type : UserType;
}.

(** The [session] of a [SessionResponse]. *)
Record SessionInfo := {
  accessToken : string;
  refreshToken : string;
  expiresAt : Z;
}.

(** [SessionResponse] *)
Record SessionResponse := {
  session : option SessionInfo;
  user : option Row;
  sessionError : option ApiError;
}.

Definition denied (e : ApiError) : SessionResponse :=
  {| session := None; user := None; sessionError := Some e |}.

(** [supabase.from('users').select('*').eq('id', id)], the profile of an
    authenticated user. *)
Definition profileQuery (id : string) : Query :=
  Builder.eq "id" (VStr id) (Builder.from "users" (Select "*" false false)).

(** The object given to [insert] by [register]. *)
Definition profileOf (id : string) (input : CreateUserInput) : Row :=
  <["id" := VStr id]>
  (<["email" := VStr (email input)]>
  (<["full_name" := VStr (full_name input)]>
  (<["user_type" := VStr (userType_literal (user_type input))]>
  (<["is_active" := VBool true]>
  (<["is_email_verified" := VBool false]>
  (<["is_phone_verified" := VBool false]> ∅)))))).

Definition accessDenied : string := "Access denied. Admin privileges required.".

Section Functions.
Context {W : Type} `{!Postgrest W} `{!Auth W} `{!Timers W}.

(** [Promise.race([Promise.resolve(thenable), timer])]: the request is made
    in any case; when the timer fires first the race rejects with the
    time-out error. *)
Definition withTimeout {A} (thenable : Async W A) (timeoutMs : Z) : Async W A :=
  fun w =>
    let r := thenable w in
    if firesFirst timeoutMs w then
      mkRun (Threw (ErrorObject ("Operation timed out after "
                                 +:+ pretty timeoutMs +:+ "ms")))
        (world r) (trace r)
    else r.

(** [await supabase.auth.signOut()] *)
Definition signOut : Async W (option AuthError) :=
  perform EvSignOut authSignOut.

Definition login (email password : string) : Async W SessionResponse :=
  tryCatch (
    authData ← perform (EvSignIn email password)
                 (signInWithPassword email password);
    match authError authData with
    | Some authError => mret (denied (apiAuthError authError))
    | None =>
    match authUser authData with
    | None => mret (denied (plainError "Authentication failed. Please try again."))
    | Some authenticated =>
    r ← awaitSingle (profileQuery (authId authenticated));
    match r with
    | SingleError userError =>
        signOut;;
        mret (denied {| message := "Failed to verify user profile.";
                        code := Some (pg_code userError);
                        status := None |})
    | SingleData userData =>
        if bool_decide (userData !! "user_type" ≠ Some (VStr "admin")) then
          signOut;;
          mret (denied (plainError accessDenied))
        else
          mret {| session :=
                    match authSession authData with
                    | Some s =>
                        Some {| accessToken := access_token s;
                                refreshToken := refresh_token s;
                                expiresAt := nullish (expires_at s) 0 |}
                    | None => None
                    end;
                  user := Some userData;
                  sessionError := None |}
    end end end)
  (fun err => mret (denied (plainError (messageOr err "An unexpected error occurred")))).

Definition getCurrentUser : Async W (Reply Row) :=
  guarded "Failed to get current user" (
    sessionResult ← withTimeout (perform EvGetSession authGetSession) 8000;
    match sessionFailure sessionResult with
    | Some sessionError =>
        mret (mkReply None
                (Some {| message := auth_message sessionError;
                         code := auth_code sessionError; status := None |}))
    | None =>
    match currentSession sessionResult with
    | None => mret (mkReply None None)
    | Some _ =>
    userResult ← withTimeout (perform EvGetUser authGetUser) 8000;
    match userFailure userResult, currentUser userResult with
    | Some authError, _ =>
        mret (mkReply None
                (Some {| message := auth_message authError;
                         code := auth_code authError; status := None |}))
    | None, None => mret (mkReply None None)
    | None, Some authenticated =>
    r ← withTimeout (awaitSingle (profileQuery (authId authenticated))) 8000;
    match r with
    | SingleError userError => mret (mkReply None (Some (apiError userError)))
    | SingleData userData =>
        if bool_decide (userData !! "user_type" ≠ Some (VStr "admin")) then
          mret (mkReply None (Some (plainError accessDenied)))
        else
          mret (mkReply (Some userData) None)
    end end end end).

Definition logout : Async W DeleteReply :=
  guardedDelete "Failed to logout" (
    r ← signOut;
    match r with
    | Some error =>
        mret (mkDeleteReply
                (Some {| message := auth_message error;
                         code := auth_code error; status := None |}))
    | None => mret (mkDeleteReply None)
    end).

Definition register (input : CreateUserInput) : Async W (Reply Row) :=
  guarded "Registration failed" (
    let metadata : Row :=
      <["full_name" := VStr (full_name input)]>
        (<["user_type" := VStr (userType_literal (user_type input))]> ∅) in
    authData ← perform (EvSignUp (email input) (password input) metadata)
                 (signUp (email input) (password input) metadata);
    match authError authData with
    | Some authError => mret (mkReply None (Some (apiAuthError authError)))
    | None =>
    match authUser authData with
    | None => mret (mkReply None (Some (plainError "Registration failed. Please try again.")))
    | Some created =>
    r ← awaitSingle
          (Builder.select "*"
             (Builder.from "users" (Insert (profileOf (authId created) input))));
    match r with
    | SingleError userError => mret (mkReply None (Some (apiError userError)))
    | SingleData userData => mret (mkReply (Some userData) None)
    end end end).

End Functions.
End AuthService.

(** ** services/serviceService.ts *)

Module ServiceService.
Import Status.

Definition DEFAULT_PAGE_SIZE : Z := 10.

Record ServiceFilters := {
  status : option ServiceStatus;
  categoryId : option string;
  businessId : option string;
  search : option string;
}.

Record ServiceQueryParams := {
  filter : ServiceFilters;
  paging : Paging;
}.

Record ServiceStats := {
  total : Z;
  active : Z;
  pending : Z;
  suspended : Z;
  rejected : Z;
  requestDeletion : Z;
}.

Definition joined : string :=
  "*, business:businesses!business_id(*), category:categories!category_id(*), provider:users!provider_id(*)".

(** The [updateData] object of [updateServiceStatus]. *)
Definition statusUpdate (st : ServiceStatus) (updated_at : string) : Row :=
  let updateData : Row :=
    <["status" := VStr (service_literal st)]>
      (<["updated_at" := VStr updated_at]> ∅) in
  match st with
  | SActive => <["is_active" := VBool true]> updateData
  | SSuspended | SRejected | SDeleted => <["is_active" := VBool false]> updateData
  | _ => updateData
  end.

(** The columns of [statusUpdate]. *)
Definition touched (st : ServiceStatus) : list string :=
  match st with
  | SActive | SSuspended | SRejected | SDeleted =>
      ["status"; "updated_at"; "is_active"]
  | _ => ["status"; "updated_at"]
  end.

(** The count queries of [getServiceStats], in order. *)
Definition statsQueries : list Query :=
  [ countAll "services";
    Builder.eq "status" (VStr "active") (countAll "services");
    Builder.eq "status" (VStr "pending") (countAll "services");
    Builder.eq "status" (VStr "suspended") (countAll "services");
    Builder.eq "status" (VStr "rejected") (countAll "services");
    Builder.eq "status" (VStr "requestDeletion") (countAll "services") ].

Section Functions.
Context {W : Type} `{!Postgrest W}.

Definition getServices (params : ServiceQueryParams)
  : Async W (Reply Paginated) :=
  guarded "Failed to fetch services" (
    let page := nullish (page (paging params)) 1 in
    let pageSize := nullish (pageSize (paging params)) DEFAULT_PAGE_SIZE in
    let sortBy := default "created_at" (sortBy (paging params)) in
    let sortOrder := default Desc (sortOrder (paging params)) in
    let offset := (page - 1) * pageSize in
    let query := Builder.from "services" (Select joined true false) in
    let query :=
      match status (filter params) with
      | Some st => Builder.eq "status" (VStr (service_literal st)) query
      | None => query
      end in
    let query :=
      match truthy (categoryId (filter params)) with
      | Some c => Builder.eq "category_id" (VStr c) query
      | None => query
      end in
    let query :=
      match truthy (businessId (filter params)) with
      | Some b => Builder.eq "business_id" (VStr b) query
      | None => query
      end in
    let query :=
      match truthy (search (filter params)) with
      | Some s =>
          Builder.or ("title.ilike.%" +:+ s +:+ "%,description.ilike.%"
                      +:+ s +:+ "%") query
      | None => query
      end in
    let query := Builder.order sortBy (isAsc sortOrder) query in
    let query := Builder.range offset (offset + pageSize - 1) query in
    r ← await query;
    match r with
    | PgError error => mret (mkReply None (Some (apiError error)))
    | PgData data count =>
        let total := nullish count 0 in
        let totalPages := ceil_div total pageSize in
        mret (mkReply
                (Some {| pgRows := data; pgTotal := total; pgPage := page;
                         pgPageSize := pageSize; pgTotalPages := totalPages |})
                None)
    end).

Definition getServiceById (id : string) : Async W (Reply Row) :=
  guarded "Failed to fetch service" (
    r ← awaitSingle
          (Builder.eq "id" (VStr id)
             (Builder.from "services" (Select joined false false)));
    match r with
    | SingleError error => mret (mkReply None (Some (apiError error)))
    | SingleData data => mret (mkReply (Some data) None)
    end).

Definition updateServiceStatus (id : string) (st : ServiceStatus)
  : Async W (Reply Row) :=
  guarded "Failed to update service status" (
    updated_at ← now;
    let updateData := statusUpdate st updated_at in
    r ← awaitSingle
          (Builder.select joined
             (Builder.eq "id" (VStr id)
                (Builder.from "services" (Update updateData))));
    match r with
    | SingleError error => mret (mkReply None (Some (apiError error)))
    | SingleData data => mret (mkReply (Some data) None)
    end).

Definition deleteService (id : string) : Async W DeleteReply :=
  guardedDelete "Failed to delete service" (
    r ← await (Builder.eq "id" (VStr id) (Builder.from "services" Delete));
    match r with
    | PgError error => mret (mkDeleteReply (Some (apiError error)))
    | PgData _ _ => mret (mkDeleteReply None)
    end).

Definition getServiceStats : Async W (Reply ServiceStats) :=
  guarded "Failed to fetch service stats" (
    r ← await (countAll "services");
    match r with
    | PgError totalError => mret (mkReply None (Some (apiError totalError)))
    | PgData _ total =>
    r ← await (Builder.eq "status" (VStr "active") (countAll "services"));
    match r with
    | PgError activeError => mret (mkReply None (Some (apiError activeError)))
    | PgData _ active =>
    r ← await (Builder.eq "status" (VStr "pending") (countAll "services"));
    match r with
    | PgError pendingError => mret (mkReply None (Some (apiError pendingError)))
    | PgData _ pending =>
    r ← await (Builder.eq "status" (VStr "suspended") (countAll "services"));
    match r with
    | PgError suspendedError =>
        mret (mkReply None (Some (apiError suspendedError)))
    | PgData _ suspended =>
    r ← await (Builder.eq "status" (VStr "rejected") (countAll "services"));
    match r with
    | PgError rejectedError =>
        mret (mkReply None (Some (apiError rejectedError)))
    | PgData _ rejected =>
    r ← await (Builder.eq "status" (VStr "requestDeletion") (countAll "services"));
    match r with
    | PgError requestDeletionError =>
        mret (mkReply None (Some (apiError requestDeletionError)))
    | PgData _ requestDeletion =>
        mret (mkReply
                (Some {| total := nullish total 0;
                         active := nullish active 0;
                         pending := nullish pending 0;
                         suspended := nullish suspended 0;
                         rejected := nullish rejected 0;
                         requestDeletion := nullish requestDeletion 0 |})
                None)
    end end end end end end).

End Functions.
End ServiceService.

(** ** services/companyService.ts *)

Module CompanyService.
Import Status.

Definition DEFAULT_PAGE_SIZE : Z := 10.

Record CompanyFilters := {
  status : option CompanyStatus;
  categoryId : option string;
  search : option string;
}.

Record CompanyQueryParams := {
  filter : CompanyFilters;
  paging : Paging;
}.

Record CompanyStats := {
  total : Z;
  pending : Z;
  approved : Z;
  rejected : Z;
  suspended : Z;
}.

Definition joined : string :=
  "*, owner:users!owner_id(*), category:categories!category_id(*)".

(** The [updateData] object of [updateCompanyStatus]; [approved_at] is read
    from the clock only when approving. *)
Definition statusUpdate (st : CompanyStatus) (updated_at approved_at : string)
  : Row :=
  let updateData : Row :=
    <["status" := VStr (company_literal st)]>
      (<["updated_at" := VStr updated_at]> ∅) in
  let updateData :=
    match st with
    | CApproved =>
        <["is_verified" := VBool true]>
          (<["approved_at" := VStr approved_at]> updateData)
    | _ => updateData
    end in
  match st with
  | CRejected | CSuspended => <["is_verified" := VBool false]> updateData
  | _ => updateData
  end.

(** The columns of [statusUpdate]. *)
Definition touched (st : CompanyStatus) : list string :=
  match st with
  | CApproved => ["status"; "updated_at"; "approved_at"; "is_verified"]
  | CRejected | CSuspended => ["status"; "updated_at"; "is_verified"]
  | CPending => ["status"; "updated_at"]
  end.

(** The count queries of [getCompanyStats], in order. *)
Definition statsQueries : list Query :=
  [ countAll "companies";
    Builder.eq "status" (VStr "pending") (countAll "companies");
    Builder.eq "status" (VStr "approved") (countAll "companies");
    Builder.eq "status" (VStr "rejected") (countAll "companies");
    Builder.eq "status" (VStr "suspended") (countAll "companies") ].

Section Functions.
Context {W : Type} `{!Postgrest W}.

Definition getCompanies (params : CompanyQueryParams)
  : Async W (Reply Paginated) :=
  guarded "Failed to fetch companies" (
    let page := nullish (page (paging params)) 1 in
    let pageSize := nullish (pageSize (paging params)) DEFAULT_PAGE_SIZE in
    let sortBy := default "created_at" (sortBy (paging params)) in
    let sortOrder := default Desc (sortOrder (paging params)) in
    let offset := (page - 1) * pageSize in
    let query := Builder.from "companies" (Select joined true false) in
    let query :=
      match status (filter params) with
      | Some st => Builder.eq "status" (VStr (company_literal st)) query
      | None => query
      end in
    let query :=
      match truthy (categoryId (filter params)) with
      | Some c => Builder.eq "category_id" (VStr c) query
      | None => query
      end in
    let query :=
      match truthy (search (filter params)) with
      | Some s =>
          Builder.or ("name.ilike.%" +:+ s +:+ "%,registration_number.ilike.%"
                      +:+ s +:+ "%,email.ilike.%" +:+ s +:+ "%") query
      | None => query
      end in
    let query := Builder.order sortBy (isAsc sortOrder) query in
    let query := Builder.range offset (offset + pageSize - 1) query in
    r ← await query;
    match r with
    | PgError error => mret (mkReply None (Some (apiError error)))
    | PgData data count =>
        let total := nullish count 0 in
        let totalPages := ceil_div total pageSize in
        mret (mkReply
                (Some {| pgRows := data; pgTotal := total; pgPage := page;
                         pgPageSize := pageSize; pgTotalPages := totalPages |})
                None)
    end).

Definition getCompanyById (id : string) : Async W (Reply Row) :=
  guarded "Failed to fetch company" (
    r ← awaitSingle
          (Builder.eq "id" (VStr id)
             (Builder.from "companies" (Select joined false false)));
    match r with
    | SingleError error => mret (mkReply None (Some (apiError error)))
    | SingleData data => mret (mkReply (Some data) None)
    end).

Definition updateCompanyStatus (id : string) (st : CompanyStatus)
  : Async W (Reply Row) :=
  guarded "Failed to update company status" (
    updated_at ← now;
    (* the second [new Date()] is evaluated when approving only *)
    approved_at ← match st with CApproved => now | _ => mret updated_at end;
    let updateData := statusUpdate st updated_at approved_at in
    r ← awaitSingle
          (Builder.select joined
             (Builder.eq "id" (VStr id)
                (Builder.from "companies" (Update updateData))));
    match r with
    | SingleError error => mret (mkReply None (Some (apiError error)))
    | SingleData data => mret (mkReply (Some data) None)
    end).

Definition deleteCompany (id : string) : Async W DeleteReply :=
  guardedDelete "Failed to delete company" (
    r ← await (Builder.eq "id" (VStr id) (Builder.from "companies" Delete));
    match r with
    | PgError error => mret (mkDeleteReply (Some (apiError error)))
    | PgData _ _ => mret (mkDeleteReply None)
    end).

Definition getCompanyStats : Async W (Reply CompanyStats) :=
  guarded "Failed to fetch company stats" (
    r ← await (countAll "companies");
    match r with
    | PgError totalError => mret (mkReply None (Some (apiError totalError)))
    | PgData _ total =>
    r ← await (Builder.eq "status" (VStr "pending") (countAll "companies"));
    match r with
    | PgError pendingError => mret (mkReply None (Some (apiError pendingError)))
    | PgData _ pending =>
    r ← await (Builder.eq "status" (VStr "approved") (countAll "companies"));
    match r with
    | PgError approvedError =>
        mret (mkReply None (Some (apiError approvedError)))
    | PgData _ approved =>
    r ← await (Builder.eq "status" (VStr "rejected") (countAll "companies"));
    match r with
    | PgError rejectedError =>
        mret (mkReply None (Some (apiError rejectedError)))
    | PgData _ rejected =>
    r ← await (Builder.eq "status" (VStr "suspended") (countAll "companies"));
    match r with
    | PgError suspendedError =>
        mret (mkReply None (Some (apiError suspendedError)))
    | PgData _ suspended =>
        mret (mkReply
                (Some {| total := nullish total 0;
                         pending := nullish pending 0;
                         approved := nullish approved 0;
                         rejected := nullish rejected 0;
                         suspended := nullish suspended 0 |})
                None)
    end end end end end).

End Functions.
End CompanyService.


(** ** services/userService.ts *)

Module UserService.
Import Status.

Definition DEFAULT_PAGE_SIZE : Z := 10.

Record UserFilters := {
  userType : option UserType;
  isActive : option bool;
  search : option string;
}.

Record UserQueryParams := {
  filter : UserFilters;
  paging : Paging;
}.

Record UserStats := {
  total : Z;
  active : Z;
  inactive : Z;
  customers : Z;
  providers : Z;
  admins : Z;
}.

(** The count queries of [getUserStats], in order. *)
Definition statsQueries : list Query :=
  [ countAll "users";
    Builder.eq "is_active" (VBool true) (countAll "users");
    Builder.eq "user_type" (VStr "customer") (countAll "users");
    Builder.eq "user_type" (VStr "provider") (countAll "users");
    Builder.eq "user_type" (VStr "admin") (countAll "users") ].

Section Functions.
Context {W : Type} `{!Postgrest W}.

Definition getUsers (params : UserQueryParams) : Async W (Reply Paginated) :=
  guarded "Failed to fetch users" (
    let page := nullish (page (paging params)) 1 in
    let pageSize := nullish (pageSize (paging params)) DEFAULT_PAGE_SIZE in
    let sortBy := default "created_at" (sortBy (paging params)) in
    let sortOrder := default Desc (sortOrder (paging params)) in
    let offset := (page - 1) * pageSize in
    let query := Builder.from "users" (Select "*" true false) in
    let query :=
      match userType (filter params) with
      | Some t => Builder.eq "user_type" (VStr (userType_literal t)) query
      | None => query
      end in
    let query :=
      match isActive (filter params) with
      | Some b => Builder.eq "is_active" (VBool b) query
      | None => query
      end in
    let query :=
      match truthy (search (filter params)) with
      | Some s =>
          Builder.or ("full_name.ilike.%" +:+ s +:+ "%,email.ilike.%"
                      +:+ s +:+ "%") query
      | None => query
      end in
    let query := Builder.order sortBy (isAsc sortOrder) query in
    let query := Builder.range offset (offset + pageSize - 1) query in
    r ← await query;
    match r with
    | PgError error => mret (mkReply None (Some (apiError error)))
    | PgData data count =>
        let total := nullish count 0 in
        let totalPages := ceil_div total pageSize in
        mret (mkReply
                (Some {| pgRows := data; pgTotal := total; pgPage := page;
                         pgPageSize := pageSize; pgTotalPages := totalPages |})
                None)
    end).

Definition getUserById (id : string) : Async W (Reply Row) :=
  guarded "Failed to fetch user" (
    r ← awaitSingle
          (Builder.eq "id" (VStr id)
             (Builder.from "users" (Select "*" false false)));
    match r with
    | SingleError error => mret (mkReply None (Some (apiError error)))
    | SingleData data => mret (mkReply (Some data) None)
    end).

Definition updateUserStatus (id : string) (isActive : bool)
  : Async W (Reply Row) :=
  guarded "Failed to update user status" (
    updated_at ← now;
    r ← awaitSingle
          (Builder.select "*"
             (Builder.eq "id" (VStr id)
                (Builder.from "users"
                   (Update (<["is_active" := VBool isActive]>
                              (<["updated_at" := VStr updated_at]> ∅))))));
    match r with
    | SingleError error => mret (mkReply None (Some (apiError error)))
    | SingleData data => mret (mkReply (Some data) None)
    end).

Definition deleteUser (id : string) : Async W DeleteReply :=
  guardedDelete "Failed to delete user" (
    r ← await (Builder.eq "id" (VStr id) (Builder.from "users" Delete));
    match r with
    | PgError error => mret (mkDeleteReply (Some (apiError error)))
    | PgData _ _ => mret (mkDeleteReply None)
    end).

Definition getUserStats : Async W (Reply UserStats) :=
  guarded "Failed to fetch user stats" (
    r ← await (countAll "users");
    match r with
    | PgError totalError => mret (mkReply None (Some (apiError totalError)))
    | PgData _ total =>
    r ← await (Builder.eq "is_active" (VBool true) (countAll "users"));
    match r with
    | PgError activeError => mret (mkReply None (Some (apiError activeError)))
    | PgData _ active =>
    r ← await (Builder.eq "user_type" (VStr "customer") (countAll "users"));
    match r with
    | PgError customersError =>
        mret (mkReply None (Some (apiError customersError)))
    | PgData _ customers =>
    r ← await (Builder.eq "user_type" (VStr "provider") (countAll "users"));
    match r with
    | PgError providersError =>
        mret (mkReply None (Some (apiError providersError)))
    | PgData _ providers =>
    r ← await (Builder.eq "user_type" (VStr "admin") (countAll "users"));
    match r with
    | PgError adminsError => mret (mkReply None (Some (apiError adminsError)))
    | PgData _ admins =>
        mret (mkReply
                (Some {| total := nullish total 0;
                         active := nullish active 0;
                         inactive := nullish total 0 - nullish active 0;
                         customers := nullish customers 0;
                         providers := nullish providers 0;
                         admins := nullish admins 0 |})
                None)
    end end end end end).

End Functions.
End UserService.

(** ** services/transactionService.ts *)

Module TransactionService.
Import Status.

Definition DEFAULT_PAGE_SIZE : Z := 10.

Record TransactionFilters := {
  status : option TransactionStatus;
  paymentProvider : option PaymentProvider;
  dateFrom : option string;
  dateTo : option string;
  search : option string;
}.

Record TransactionQueryParams := {
  filter : TransactionFilters;
  paging : Paging;
}.

Record TransactionStats := {
  total : Z;
  totalRevenue : float;
  pending : Z;
  completed : Z;
  failed : Z;
  refunded : Z;
}.

Definition joined : string :=
  "*, customer:users!customer_id(*), business:businesses!business_id(*), order:orders!order_id(*)".

(** [n || 0] on a number: [0], [-0] and [NaN] are falsy. *)
Definition orZero (n : float) : float :=
  if is_zero n || is_nan n then 0%float else n.

(** [t.amount || 0]; the column [amount] is declared [number], and null
    stands for a missing amount. *)
Definition amountOf (t : Row) : float :=
  match t !! "amount" with
  | Some (VNum n) => orZero n
  | _ => 0%float
  end.

(** [revenueData?.reduce((sum, t) => sum + (t.amount || 0), 0) ?? 0]: the
    amounts are added from the left, in binary64. *)
Definition sumRevenue (revenueData : option (list Row)) : float :=
  match revenueData with
  | Some rows => fold_left (fun sum t => (sum + amountOf t)%float) rows 0%float
  | None => 0%float
  end.

(** One entry of the result of [getRevenueByProvider]. *)
Record ProviderRevenue := {
  provider : string;
  revenue : float;
  count : Z;
}.

(** [t.payment_provider || 'unknown'] *)
Definition providerOf (t : Row) : string :=
  match t !! "payment_provider" with
  | Some (VStr "") => "unknown"
  | Some (VStr p) => p
  | _ => "unknown"
  end.

(** The [Map] from provider to revenue and count, as its entries in
    insertion order.  [providerMap.set] keeps the place of a key that is
    already there and appends a new one. *)
Fixpoint mapSet (key : string) (v : float * Z)
  (entries : list (string * (float * Z))) : list (string * (float * Z)) :=
  match entries with
  | [] => [(key, v)]
  | (k, old) :: rest =>
      if String.eqb k key then (k, v) :: rest
      else (k, old) :: mapSet key v rest
  end.

(** [providerMap.get(provider) || { revenue: 0, count: 0 }] *)
Fixpoint mapGet (key : string) (entries : list (string * (float * Z)))
  : float * Z :=
  match entries with
  | [] => (0%float, 0)
  | (k, v) :: rest => if String.eqb k key then v else mapGet key rest
  end.

(** The body of [data?.forEach(...)], then [Array.from(providerMap.entries())]
    mapped to records. *)
Definition aggregate (data : option (list Row)) : list ProviderRevenue :=
  let providerMap :=
    fold_left
      (fun providerMap t =>
         let provider := providerOf t in
         let existing := mapGet provider providerMap in
         mapSet provider
           ((fst existing + amountOf t)%float, snd existing + 1)
           providerMap)
      (default [] data) [] in
  List.map (fun entry => {| provider := fst entry;
                            revenue := fst (snd entry);
                            count := snd (snd entry) |}) providerMap.

(** The queries of [getTransactionStats], in order: five counts, then the
    amounts of the completed payments. *)
Definition revenueQuery : Query :=
  Builder.eq "status" (VStr "completed")
    (Builder.from "payments" (Select "amount" false false)).

Definition statsQueries : list Query :=
  [ countAll "payments";
    Builder.eq "status" (VStr "pending") (countAll "payments");
    Builder.eq "status" (VStr "completed") (countAll "payments");
    Builder.eq "status" (VStr "failed") (countAll "payments");
    Builder.eq "status" (VStr "refunded") (countAll "payments");
    revenueQuery ].

Section Functions.
Context {W : Type} `{!Postgrest W}.

Definition getTransactions (params : TransactionQueryParams)
  : Async W (Reply Paginated) :=
  guarded "Failed to fetch transactions" (
    let page := nullish (page (paging params)) 1 in
    let pageSize := nullish (pageSize (paging params)) DEFAULT_PAGE_SIZE in
    let sortBy := default "created_at" (sortBy (paging params)) in
    let sortOrder := default Desc (sortOrder (paging params)) in
    let offset := (page - 1) * pageSize in
    let query := Builder.from "payments" (Select joined true false) in
    let query :=
      match status (filter params) with
      | Some st => Builder.eq "status" (VStr (transaction_literal st)) query
      | None => query
      end in
    let query :=
      match paymentProvider (filter params) with
      | Some pr =>
          Builder.eq "payment_provider" (VStr (paymentProvider_literal pr)) query
      | None => query
      end in
    let query :=
      match truthy (dateFrom (filter params)) with
      | Some d => Builder.gte "created_at" (VStr d) query
      | None => query
      end in
    let query :=
      match truthy (dateTo (filter params)) with
      | Some d => Builder.lte "created_at" (VStr d) query
      | None => query
      end in
    let query :=
      match truthy (search (filter params)) with
      | Some s =>
          Builder.or ("order_id.ilike.%" +:+ s +:+ "%,description.ilike.%"
                      +:+ s +:+ "%,provider_payment_id.ilike.%" +:+ s +:+ "%")
            query
      | None => query
      end in
    let query := Builder.order sortBy (isAsc sortOrder) query in
    let query := Builder.range offset (offset + pageSize - 1) query in
    r ← await query;
    match r with
    | PgError error => mret (mkReply None (Some (apiError error)))
    | PgData data count =>
        let total := nullish count 0 in
        let totalPages := ceil_div total pageSize in
        mret (mkReply
                (Some {| pgRows := data; pgTotal := total; pgPage := page;
                         pgPageSize := pageSize; pgTotalPages := totalPages |})
                None)
    end).

Definition getTransactionById (id : string) : Async W (Reply Row) :=
  guarded "Failed to fetch transaction" (
    r ← awaitSingle
          (Builder.eq "id" (VStr id)
             (Builder.from "payments" (Select joined false false)));
    match r with
    | SingleError error => mret (mkReply None (Some (apiError error)))
    | SingleData data => mret (mkReply (Some data) None)
    end).

Definition getTransactionStats : Async W (Reply TransactionStats) :=
  guarded "Failed to fetch transaction stats" (
    r ← await (countAll "payments");
    match r with
    | PgError totalError => mret (mkReply None (Some (apiError totalError)))
    | PgData _ total =>
    r ← await (Builder.eq "status" (VStr "pending") (countAll "payments"));
    match r with
    | PgError pendingError => mret (mkReply None (Some (apiError pendingError)))
    | PgData _ pending =>
    r ← await (Builder.eq "status" (VStr "completed") (countAll "payments"));
    match r with
    | PgError completedError =>
        mret (mkReply None (Some (apiError completedError)))
    | PgData _ completed =>
    r ← await (Builder.eq "status" (VStr "failed") (countAll "payments"));
    match r with
    | PgError failedError => mret (mkReply None (Some (apiError failedError)))
    | PgData _ failed =>
    r ← await (Builder.eq "status" (VStr "refunded") (countAll "payments"));
    match r with
    | PgError refundedError =>
        mret (mkReply None (Some (apiError refundedError)))
    | PgData _ refunded =>
    r ← await (Builder.eq "status" (VStr "completed")
                 (Builder.from "payments" (Select "amount" false false)));
    match r with
    | PgError revenueError =>
        mret (mkReply None (Some (apiError revenueError)))
    | PgData revenueData _ =>
        let totalRevenue := sumRevenue revenueData in
        mret (mkReply
                (Some {| total := nullish total 0;
                         totalRevenue := totalRevenue;
                         pending := nullish pending 0;
                         completed := nullish completed 0;
                         failed := nullish failed 0;
                         refunded := nullish refunded 0 |})
                None)
    end end end end end end).

(** [getTransactions({ dateFrom, dateTo, pageSize: 1000 })] *)
Definition getTransactionsByDateRange (dateFrom dateTo : string)
  : Async W (Reply Paginated) :=
  getTransactions
    {| filter := {| status := None; paymentProvider := None;
                    dateFrom := Some dateFrom; dateTo := Some dateTo;
                    search := None |};
       paging := {| page := None; pageSize := Some 1000; sortBy := None;
                    sortOrder := None |} |}.

Definition getRevenueByProvider : Async W (Reply (list ProviderRevenue)) :=
  guarded "Failed to fetch revenue by provider" (
    r ← await (Builder.eq "status" (VStr "completed")
                 (Builder.from "payments"
                    (Select "payment_provider, amount" false false)));
    match r with
    | PgError error => mret (mkReply None (Some (apiError error)))
    | PgData data _ =>
        let result := aggregate data in
        mret (mkReply (Some result) None)
    end).

End Functions.
End TransactionService.

(** ** services/legalPageService.ts *)

Module LegalPageService.
Import Status.

Record LegalPageFilters := {
  pageType : option LegalPageType;
  isActive : option bool;
  search : option string;
}.

(** [CreateLegalPageInput] *)
Record CreateLegalPageInput := {
  title : string;
  slug : string;
  page_type : LegalPageType;
  content : string;
}.

(** [UpdateLegalPageInput]: every field optional. *)
Record UpdateLegalPageInput := {
  newTitle : option string;
  newSlug : option string;
  newContent : option string;
  newIsActive : option bool;
}.

Definition slugTaken : string := "A legal page with this slug already exists".

(** One property of an object literal that is present when defined. *)
Definition spread (column : string) (v : option Value) (r : Row) : Row :=
  match v with
  | Some x => <[column := x]> r
  | None => r
  end.

(** [{ ...input, updated_at }] *)
Definition updateData (input : UpdateLegalPageInput) (updated_at : string)
  : Row :=
  <["updated_at" := VStr updated_at]>
    (spread "is_active" (VBool <$> newIsActive input)
    (spread "content" (VStr <$> newContent input)
    (spread "slug" (VStr <$> newSlug input)
    (spread "title" (VStr <$> newTitle input) ∅)))).

(** The object given to [insert] by [createLegalPage]. *)
Definition insertData (input : CreateLegalPageInput) : Row :=
  <["title" := VStr (title input)]>
  (<["slug" := VStr (slug input)]>
  (<["page_type" := VStr (legalPageType_literal (page_type input))]>
  (<["content" := VStr (content input)]>
  (<["is_active" := VBool true]> ∅)))).

(** The two uniqueness lookups. *)
Definition slugLookup (s : string) : Query :=
  Builder.eq "slug" (VStr s) (Builder.from "legal_pages" (Select "id" false false)).

Definition slugLookupOther (s id : string) : Query :=
  Builder.neq "id" (VStr id) (slugLookup s).

Section Functions.
Context {W : Type} `{!Postgrest W}.

Definition getLegalPages (filters : LegalPageFilters)
  : Async W (Reply (list Row)) :=
  guarded "Failed to fetch legal pages" (
    let query :=
      Builder.order "updated_at" false
        (Builder.from "legal_pages" (Select "*" false false)) in
    let query :=
      match pageType filters with
      | Some t => Builder.eq "page_type" (VStr (legalPageType_literal t)) query
      | None => query
      end in
    let query :=
      match isActive filters with
      | Some b => Builder.eq "is_active" (VBool b) query
      | None => query
      end in
    let query :=
      match truthy (search filters) with
      | Some s =>
          Builder.or ("title.ilike.%" +:+ s +:+ "%,slug.ilike.%" +:+ s +:+ "%")
            query
      | None => query
      end in
    r ← await query;
    match r with
    | PgError error => mret (mkReply None (Some (apiError error)))
    | PgData data _ => mret (mkReply data None)
    end).

Definition getLegalPageById (id : string) : Async W (Reply Row) :=
  guarded "Failed to fetch legal page" (
    r ← awaitSingle
          (Builder.eq "id" (VStr id)
             (Builder.from "legal_pages" (Select "*" false false)));
    match r with
    | SingleError error => mret (mkReply None (Some (apiError error)))
    | SingleData data => mret (mkReply (Some data) None)
    end).

Definition getLegalPageBySlug (slug : string) : Async W (Reply Row) :=
  guarded "Failed to fetch legal page" (
    r ← awaitSingle
          (Builder.eq "slug" (VStr slug)
             (Builder.from "legal_pages" (Select "*" false false)));
    match r with
    | SingleError error => mret (mkReply None (Some (apiError error)))
    | SingleData data => mret (mkReply (Some data) None)
    end).

Definition createLegalPage (input : CreateLegalPageInput)
  : Async W (Reply Row) :=
  guarded "Failed to create legal page" (
    existing ← awaitSingle (slugLookup (slug input));
    match existing with
    | SingleData _ => mret (mkReply None (Some (plainError slugTaken)))
    | SingleError _ =>
    r ← awaitSingle
          (Builder.select "*"
             (Builder.from "legal_pages" (Insert (insertData input))));
    match r with
    | SingleError error => mret (mkReply None (Some (apiError error)))
    | SingleData data => mret (mkReply (Some data) None)
    end end).

Definition updateLegalPage (id : string) (input : UpdateLegalPageInput)
  : Async W (Reply Row) :=
  guarded "Failed to update legal page" (
    let update : Async W (Reply Row) :=
      updated_at ← now;
      r ← awaitSingle
            (Builder.select "*"
               (Builder.eq "id" (VStr id)
                  (Builder.from "legal_pages"
                     (Update (updateData input updated_at)))));
      match r with
      | SingleError error => mret (mkReply None (Some (apiError error)))
      | SingleData data => mret (mkReply (Some data) None)
      end in
    match truthy (newSlug input) with
    | Some s =>
        existing ← awaitSingle (slugLookupOther s id);
        match existing with
        | SingleData _ => mret (mkReply None (Some (plainError slugTaken)))
        | SingleError _ => update
        end
    | None => update
    end).

Definition deleteLegalPage (id : string) : Async W DeleteReply :=
  guardedDelete "Failed to delete legal page" (
    r ← await (Builder.eq "id" (VStr id) (Builder.from "legal_pages" Delete));
    match r with
    | PgError error => mret (mkDeleteReply (Some (apiError error)))
    | PgData _ _ => mret (mkDeleteReply None)
    end).

End Functions.
End LegalPageService.

(** ** utils/errorHandler.ts: [retryOperation] *)

Module ErrorHandler.

Section Retry.
Context {W : Type} `{!Timers W} {T : Type}.

(** [await new Promise(resolve => setTimeout(resolve, waitTime))] *)
Definition sleep (waitTime : Z) : Async W unit :=
  fun w => mkRun (Returned tt) (elapse waitTime w) [EvTimeout waitTime].

(** [error instanceof Error ? error : new Error('Unknown error')] *)
Definition asError (error : Thrown) : Thrown :=
  match error with
  | ErrorObject m => ErrorObject m
  | NonError _ => ErrorObject "Unknown error"
  end.

(** [backoff ? delay * Math.pow(2, attempt) : delay] *)
Definition waitTime (delay : Z) (backoff : bool) (attempt : Z) : Z :=
  if backoff then delay * 2 ^ attempt else delay.

(** The [for] loop from [attempt] on; [fuel] bounds the iterations left.
    [lastError] is the variable of that name, [undefined] before the
    first failure. *)
Fixpoint retryFrom (operation : Async W T) (maxRetries delay : Z)
  (backoff : bool) (fuel : nat) (attempt : Z) (lastError : Thrown)
  : Async W T :=
  match fuel with
  | O => throw lastError
  | S fuel' =>
      if attempt <=? maxRetries then
        tryCatch operation
          (fun error =>
             let lastError := asError error in
             if attempt =? maxRetries then throw lastError
             else
               sleep (waitTime delay backoff attempt);;
               retryFrom operation maxRetries delay backoff fuel'
                 (attempt + 1) lastError)
      else throw lastError
  end.

Definition retryOperation (operation : Async W T) (maxRetries delay : Z)
  (backoff : bool) : Async W T :=
  retryFrom operation maxRetries delay backoff
    (Z.to_nat (maxRetries + 1)) 0 (NonError "undefined").

(** [failing operation wait k w errors tr w']: from attempt [k] in world
    [w], the operation is invoked once for each element of [errors] and
    throws it, and each of these failures is followed by the wait of its
    attempt; [tr] is what these invocations and waits leave in the trace and
    [w'] is the world after the last wait. *)
Fixpoint failing (operation : Async W T) (wait : Z -> Z) (k : Z) (w : W)
  (errors : list Thrown) (tr : list Event) (w' : W) : Prop :=
  match errors with
  | [] => tr = [] /\ w' = w
  | e :: errors' =>
      out (operation w) = Threw e
      /\ exists tr',
           tr = trace (operation w) ++ EvTimeout (wait k) :: tr'
           /\ failing operation wait (k + 1)
                (elapse (wait k) (world (operation w))) errors' tr' w'
  end.

End Retry.
End ErrorHandler.


(** ** The remote store as tables of rows

    The part of PostgREST that the mutations of the services rely on.  What
    the store does beyond it is left open in [Behaviour]: how it reads the
    filters [gte], [lte] and [or], what a plain select answers, which
    representation a select list yields, which columns an insert fills in,
    and which integrity constraints it enforces. *)

Module Store.

Record Db := {
  tables : gmap string (list Row);
  clock : string;
}.

Class Behaviour := {
  otherFilter : Filter -> Row -> bool;
  answerSelect : Query -> gmap string (list Row) -> ServerAnswer;
  shape : string -> Row -> Row;
  defaults : string -> list Row -> Row -> Row;
  integrity : string -> list Row -> option PostgrestError;
}.

Definition rowsOf (t : string) (db : Db) : list Row :=
  default [] (tables db !! t).

(** The answer to [.single()] when not exactly one row is concerned. *)
Definition notSingle : PostgrestError :=
  {| pg_message := "JSON object requested, multiple (or no) rows returned";
     pg_code := "PGRST116" |}.

Section Semantics.
Context `{!Behaviour}.

(** SQL comparison: a null never compares equal or different. *)
Definition satisfies (f : Filter) (r : Row) : bool :=
  match f with
  | FEq column v =>
      bool_decide (v ≠ VNull) && bool_decide (r !! column = Some v)
  | FNeq column v =>
      match r !! column with
      | Some v' =>
          bool_decide (v ≠ VNull) && bool_decide (v' ≠ VNull)
          && bool_decide (v' ≠ v)
      | None => false
      end
  | other => otherFilter other r
  end.

Definition selected (q : Query) (r : Row) : bool :=
  forallb (fun f => satisfies f r) (filters q).

(** The content of the table after the statement, and the rows the
    statement concerns. *)
Definition effect (q : Query) (rows : list Row) : list Row * list Row :=
  match verb q with
  | Select _ _ _ => (rows, List.filter (selected q) rows)
  | Insert values =>
      let r := defaults (table q) rows values in (rows ++ [r], [r])
  | Update values =>
      (List.map (fun r => if selected q r then values ∪ r else r) rows,
       List.map (fun r => values ∪ r) (List.filter (selected q) rows))
  | Delete =>
      (List.filter (fun r => negb (selected q r)) rows,
       List.filter (selected q) rows)
  end.

Definition isSelect (q : Query) : bool :=
  match verb q with Select _ _ _ => true | _ => false end.

(** The select list that shapes the rows handed back. *)
Definition columnsOf (q : Query) : string :=
  match verb q with
  | Select columns _ _ => columns
  | _ => default "*" (returning q)
  end.

Definition withTable (db : Db) (t : string) (rows : list Row) : Db :=
  {| tables := <[t := rows]> (tables db); clock := clock db |}.

(** [await query.single()]: a statement that breaks a constraint is
    refused; one that does not concern exactly one row is refused and
    rolled back. *)
Definition single (q : Query) (db : Db)
  : Outcome PostgrestSingleResponse * Db :=
  let '(rows', concerned) := effect q (rowsOf (table q) db) in
  if isSelect q then
    match concerned with
    | [r] => (Returned (SingleData (shape (columnsOf q) r)), db)
    | _ => (Returned (SingleError notSingle), db)
    end
  else
    match integrity (table q) rows' with
    | Some e => (Returned (SingleError e), db)
    | None =>
        match concerned with
        | [r] => (Returned (SingleData (shape (columnsOf q) r)),
                  withTable db (table q) rows')
        | _ => (Returned (SingleError notSingle), db)
        end
    end.

(** [await query] *)
Definition many (q : Query) (db : Db) : Outcome ServerAnswer * Db :=
  if isSelect q then (Returned (answerSelect q (tables db)), db)
  else
    let '(rows', concerned) := effect q (rowsOf (table q) db) in
    match integrity (table q) rows' with
    | Some e => (Returned (Refused e), db)
    | None =>
        (Returned (Rows (List.map (shape (columnsOf q)) concerned) None),
         withTable db (table q) rows')
    end.

#[global] Instance postgrest : Postgrest Db := {|
  pgAwait := many;
  pgSingle := single;
  isoNow := fun db => (clock db, db);
|}.

End Semantics.

(** [onlyChanges t id columns db db']: from [db] to [db'] nothing changed
    but, in table [t], the columns [columns] of rows whose [id] is [id]. *)
Definition onlyChanges (t id : string) (columns : list string) (db db' : Db)
  : Prop :=
  (forall t', t' <> t -> tables db' !! t' = tables db !! t')
  /\ Forall2
       (fun r r' : Row =>
          r' = r
          \/ (r !! "id" = Some (VStr id)
              /\ forall c : string, c ∉ columns -> r' !! c = r !! c))
       (rowsOf t db) (rowsOf t db').

(** [writes t id values db']: in [db'] every row of table [t] whose [id] is
    [id] holds the values [values]. *)
Definition writes (t id : string) (values : Row) (db' : Db) : Prop :=
  forall r' : Row,
    r' ∈ rowsOf t db' -> r' !! "id" = Some (VStr id) ->
    forall (c : string) (v : Value), values !! c = Some v -> r' !! c = Some v.

(** A row holds the slug [s]; a row is a page other than [id]. *)
Definition holdsSlug (s : string) (r : Row) : bool :=
  bool_decide (r !! "slug" = Some (VStr s)).

Definition isOther (id : string) (r : Row) : bool :=
  match r !! "id" with
  | Some v => bool_decide (v ≠ VNull) && bool_decide (v ≠ VStr id)
  | None => false
  end.

(** A store with no constraint and plain answers, to run examples on. *)
Definition freshId (t : string) (rows : list Row) : Value :=
  VStr (t +:+ "-" +:+ pretty (length rows)).

Definition plain : Behaviour := {|
  otherFilter := fun _ _ => true;
  answerSelect := fun q tabs =>
    let rows := default [] (tabs !! table q) in
    Rows rows (Some (Z.of_nat (length rows)));
  shape := fun _ r => r;
  defaults := fun t rows r =>
    match r !! "id" with
    | Some _ => r
    | None => <["id" := freshId t rows]> r
    end;
  integrity := fun _ _ => None;
|}.

(** The same store with a unique constraint on [legal_pages.slug]. *)
Definition duplicateKey : PostgrestError :=
  {| pg_message := "duplicate key value violates unique constraint";
     pg_code := "23505" |}.

Definition slugs (rows : list Row) : list (option Value) :=
  List.map (fun r : Row => r !! "slug") rows.

Definition uniqueSlug : Behaviour := {|
  otherFilter := @otherFilter plain;
  answerSelect := @answerSelect plain;
  shape := @shape plain;
  defaults := @defaults plain;
  integrity := fun t rows =>
    if bool_decide (t = "legal_pages") && negb (bool_decide (NoDup (slugs rows)))
    then Some duplicateKey else None;
|}.

End Store.

(** A scripted outside for examples: every request is answered from a fixed
    script and nothing changes. *)
Module Scripted.

Record Script := {
  onAwait : Query -> Outcome ServerAnswer;
  onSingle : Query -> Outcome PostgrestSingleResponse;
  onSignIn : Outcome AuthResponse;
  onSignUp : Outcome AuthResponse;
  onSignOut : Outcome (option AuthError);
  onGetSession : Outcome SessionAnswer;
  onGetUser : Outcome UserAnswer;
  time : string;
}.

#[global] Instance postgrest : Postgrest Script := {|
  pgAwait := fun q s => (onAwait s q, s);
  pgSingle := fun q s => (onSingle s q, s);
  isoNow := fun s => (time s, s);
|}.

#[global] Instance auth : Auth Script := {|
  signInWithPassword := fun _ _ s => (onSignIn s, s);
  signUp := fun _ _ _ s => (onSignUp s, s);
  authSignOut := fun s => (onSignOut s, s);
  authGetSession := fun s => (onGetSession s, s);
  authGetUser := fun s => (onGetUser s, s);
|}.

#[global] Instance timers : Timers Script :=
  {| elapse := fun _ s => s; firesFirst := fun _ _ => false |}.

End Scripted.


(** ** Properties of runs *)

(** The thrown value of a request that threw. *)
Definition thrownBy (ev : Event) : option Thrown :=
  match ev with
  | EvQuery _ (Threw e) | EvSingle _ (Threw e) | EvSignIn _ _ (Threw e)
  | EvSignUp _ _ _ (Threw e) | EvSignOut (Threw e)
  | EvGetSession (Threw e) | EvGetUser (Threw e) => Some e
  | _ => None
  end.

(** A reply carries exactly one of a payload and an error. *)
Definition exactlyOne {P} (r : Reply P) : Prop :=
  (is_Some (payload r) /\ error r = None)
  \/ (payload r = None /\ is_Some (error r)).

(** [m] never rejects, its reply carries exactly one of a payload and an
    error, and a request that threw [e] is answered by the error value made
    of [e] and [fallback]. *)
Definition settles {W P} (fallback : string) (m : Async W (Reply P)) : Prop :=
  forall w, exists r,
    out (m w) = Returned r
    /\ exactlyOne r
    /\ forall ev e, ev ∈ trace (m w) -> thrownBy ev = Some e ->
         r = mkReply None (Some (plainError (messageOr e fallback))).

(** The same for a delete function, whose reply has an error field only:
    null when the store accepted the request. *)
Definition settlesDelete {W} (fallback : string) (m : Async W DeleteReply)
  : Prop :=
  forall w, exists r,
    out (m w) = Returned r
    /\ (forall ev e, ev ∈ trace (m w) -> thrownBy ev = Some e ->
          r = mkDeleteReply (Some (plainError (messageOr e fallback))))
    /\ (forall q rows count, trace (m w) = [EvQuery q (Returned (Rows rows count))] ->
          r = mkDeleteReply None).

(** A run in which no request threw, unless the run itself threw, and then
    the last request is the one that did. *)
Definition wellTraced {W A} (r : Run W A) : Prop :=
  match out r with
  | Returned _ => Forall (fun ev => thrownBy ev = None) (trace r)
  | Threw e =>
      exists tr ev,
        trace r = tr ++ [ev]
        /\ Forall (fun ev => thrownBy ev = None) tr
        /\ thrownBy ev = Some e
  end.

(** [m] is well traced from every world and what it returns satisfies [Q]. *)
Definition ensures {W A} (m : Async W A) (Q : A -> Prop) : Prop :=
  forall w, wellTraced (m w) /\ forall a, out (m w) = Returned a -> Q a.

(** The awaited queries of a trace, each with its answer. *)
Definition dialogue (tr : list Event) : list (Query * Outcome ServerAnswer) :=
  omap (fun ev => match ev with EvQuery q o => Some (q, o) | _ => None end) tr.

(** The [count] of an answer with rows. *)
Definition countOf (a : Query * Outcome ServerAnswer) : option (option Z) :=
  match snd a with
  | Returned (Rows _ count) => Some count
  | _ => None
  end.

(** The error value that a failed query leads to. *)
Definition failureOf (fallback : string) (a : Query * Outcome ServerAnswer)
  : option ApiError :=
  match snd a with
  | Returned (Rows _ _) => None
  | Returned (Refused error) => Some (apiError error)
  | Threw e => Some (plainError (messageOr e fallback))
  end.

(** [m] computes the stats [fields] by the queries [queries]: it asks them in
    order and nothing else, stops at the first that fails, and replies with
    that query's error and no stats, or else with the counts, 0 for an absent
    count. *)
Definition tallies {W S} (queries : list Query) (fields : list (S -> Z))
  (fallback : string) (m : Async W (Reply S)) : Prop :=
  forall w, exists reply,
    out (m w) = Returned reply
    /\ let asked := dialogue (trace (m w)) in
       length asked = length (trace (m w))
       /\ List.map fst asked `prefix_of` queries
       /\ Forall (fun a => is_Some (countOf a)) (take (length asked - 1) asked)
       /\ error reply = last asked ≫= failureOf fallback
       /\ match error reply with
          | Some _ => payload reply = None
          | None =>
              List.map fst asked = queries
              /\ exists stats,
                   payload reply = Some stats
                   /\ List.map (fun field => field stats) fields
                      = List.map (fun a => nullish (default None (countOf a)) 0)
                          (take (length fields) asked)
          end.

(** [runs m w Φ]: the run of [m] from [w] satisfies [Φ]. *)
Definition runs {W A} (m : Async W A) (w : W)
  (Φ : Outcome A -> W -> list Event -> Prop) : Prop :=
  Φ (out (m w)) (world (m w)) (trace (m w)).

(** The count query for one status of a table. *)
Definition countStatus (t literal : string) : Query :=
  Builder.eq "status" (VStr literal) (countAll t).

(** [m] asks for one window of rows and reports the pages of the store's
    count.  It makes one request and replies: the request is a select with
    [count: 'exact'] for the rows [(page - 1) * pageSize] to
    [(page - 1) * pageSize + pageSize - 1]; when the store answers with rows,
    the reply is a payload without error, holding those rows, the page and
    the page size asked for, [total] the answer's count, 0 when absent, and
    [totalPages] the ceiling of [total / pageSize]; and a payload is replied
    to such an answer only. *)
Definition paginates {W} (paging : Paging) (defaultPageSize : Z)
  (m : Async W (Reply Paginated)) : Prop :=
  let page := nullish (page paging) 1 in
  let pageSize := nullish (pageSize paging) defaultPageSize in
  forall w, exists q o reply,
    trace (m w) = [EvQuery q o]
    /\ out (m w) = Returned reply
    /\ (exists columns, verb q = Select columns true false)
    /\ window q = Some ((page - 1) * pageSize, (page - 1) * pageSize + pageSize - 1)
    /\ (forall result, payload reply = Some result ->
          exists rows count, o = Returned (Rows rows count))
    /\ forall rows count,
         o = Returned (Rows rows count) ->
         exists result,
           reply = mkReply (Some result) None
           /\ pgRows result = Some rows
           /\ pgTotal result = nullish count 0
           /\ pgTotalPages result = ceil_div (pgTotal result) pageSize
           /\ (pgTotalPages result - 1) * pageSize < pgTotal result
              <= pgTotalPages result * pageSize
           /\ pgPage result = page
           /\ pgPageSize result = pageSize.

(** ** Example stores *)

Module Examples.

Definition business1 : Row :=
  <["id" := VStr "b1"]>
  (<["name" := VStr "Shop"]>
  (<["status" := VStr "pending"]>
  (<["updated_at" := VStr "2024-01-01T00:00:00.000Z"]> ∅))).

Definition service1 : Row :=
  <["id" := VStr "s1"]>
  (<["title" := VStr "Room"]>
  (<["status" := VStr "pending"]>
  (<["is_active" := VBool false]>
  (<["updated_at" := VStr "2024-01-01T00:00:00.000Z"]> ∅)))).

Definition company1 : Row :=
  <["id" := VStr "c1"]>
  (<["name" := VStr "Acme"]>
  (<["status" := VStr "pending"]>
  (<["is_verified" := VBool false]>
  (<["approved_at" := VNull]>
  (<["updated_at" := VStr "2024-01-01T00:00:00.000Z"]> ∅))))).

Definition terms : Row :=
  <["id" := VStr "p1"]>
  (<["title" := VStr "Terms"]>
  (<["slug" := VStr "terms"]>
  (<["content" := VStr "<p>Terms</p>"]> ∅))).

Definition untitled : Row :=
  <["id" := VStr "p2"]>
  (<["title" := VStr "Untitled"]>
  (<["slug" := VStr ""]>
  (<["content" := VStr ""]> ∅))).

Definition shop : Store.Db :=
  {| Store.tables :=
       <["businesses" := [business1]]>
       (<["services" := [service1]]>
       (<["companies" := [company1]]>
       (<["legal_pages" := [terms; untitled]]> ∅)));
     Store.clock := "2025-06-01T12:00:00.000Z" |}.

(** An outside that accepts everything: 7 rows whatever is counted, the
    row [terms] whatever single row is asked, a new account [u9]. *)
Definition agreeable : Scripted.Script :=
  {| Scripted.onAwait := fun _ => Returned (Rows [] (Some 7));
     Scripted.onSingle := fun _ => Returned (SingleData terms);
     Scripted.onSignIn :=
       Returned {| authUser := Some {| authId := "u9" |};
                   authSession := None; authError := None |};
     Scripted.onSignUp :=
       Returned {| authUser := Some {| authId := "u9" |};
                   authSession := None; authError := None |};
     Scripted.onSignOut := Returned None;
     Scripted.onGetSession :=
       Returned {| currentSession := None; sessionFailure := None |};
     Scripted.onGetUser :=
       Returned {| currentUser := None; userFailure := None |};
     Scripted.time := "2025-06-01T12:00:00.000Z" |}.

(** An outside where anybody can sign up and every inserted row is handed
    back. *)
Definition openDoor : Scripted.Script :=
  {| Scripted.onAwait := fun _ => Returned (Rows [] None);
     Scripted.onSingle := fun q =>
       match verb q with
       | Insert values => Returned (SingleData values)
       | _ => Returned (SingleError Store.notSingle)
       end;
     Scripted.onSignIn :=
       Returned {| authUser := None; authSession := None;
                   authError := Some {| auth_message := "Invalid login credentials";
                                        auth_code := Some "invalid_credentials";
                                        auth_status := Some 400 |} |};
     Scripted.onSignUp :=
       Returned {| authUser := Some {| authId := "u9" |};
                   authSession := None; authError := None |};
     Scripted.onSignOut := Returned None;
     Scripted.onGetSession :=
       Returned {| currentSession := None; sessionFailure := None |};
     Scripted.onGetUser :=
       Returned {| currentUser := None; userFailure := None |};
     Scripted.time := "2025-06-01T12:00:00.000Z" |}.

(** An outside where a customer signs in and the sign-out request fails in
    transit. *)
Definition customer : Row :=
  <["id" := VStr "u9"]> (<["user_type" := VStr "customer"]> ∅).

Definition stormy : Scripted.Script :=
  {| Scripted.onAwait := fun _ => Returned (Rows [] None);
     Scripted.onSingle := fun _ => Returned (SingleData customer);
     Scripted.onSignIn :=
       Returned {| authUser := Some {| authId := "u9" |};
                   authSession := None; authError := None |};
     Scripted.onSignUp :=
       Returned {| authUser := Some {| authId := "u9" |};
                   authSession := None; authError := None |};
     Scripted.onSignOut := Threw (ErrorObject "Failed to fetch");
     Scripted.onGetSession :=
       Returned {| currentSession :=
                     Some {| access_token := "a"; refresh_token := "r";
                             expires_at := None |};
                   sessionFailure := None |};
     Scripted.onGetUser :=
       Returned {| currentUser := Some {| authId := "u9" |};
                   userFailure := None |};
     Scripted.time := "2025-06-01T12:00:00.000Z" |}.

Definition eve : AuthService.CreateUserInput :=
  {| AuthService.email := "eve@example.com";
     AuthService.password := "Passw0rd";
     AuthService.full_name := "Eve";
     AuthService.user_type := Status.Customer |}.

(** An operation that throws a value that is not an [Error]. *)
Definition alwaysThrows : Async Scripted.Script unit :=
  throw (NonError "boom").

(** An update that supplies the empty slug and nothing else. *)
Definition emptySlug : LegalPageService.UpdateLegalPageInput :=
  {| LegalPageService.newTitle := None;
     LegalPageService.newSlug := Some "";
     LegalPageService.newContent := None;
     LegalPageService.newIsActive := None |}.

Definition renameToTerms : LegalPageService.UpdateLegalPageInput :=
  {| LegalPageService.newTitle := None;
     LegalPageService.newSlug := Some "terms";
     LegalPageService.newContent := None;
     LegalPageService.newIsActive := None |}.

Definition moreTerms : LegalPageService.CreateLegalPageInput :=
  {| LegalPageService.title := "Terms of Service";
     LegalPageService.slug := "terms";
     LegalPageService.page_type := Status.Terms;
     LegalPageService.content := "<p>More</p>" |}.

Definition blank : LegalPageService.CreateLegalPageInput :=
  {| LegalPageService.title := "Blank";
     LegalPageService.slug := "";
     LegalPageService.page_type := Status.Other;
     LegalPageService.content := "" |}.

Definition thirdPage : Paging :=
  {| page := Some 3; pageSize := Some 20; sortBy := None; sortOrder := None |}.

Definition anyBusiness : BusinessService.BusinessFilters :=
  {| BusinessService.status := None; BusinessService.categoryId := None;
     BusinessService.companyId := None; BusinessService.search := Some "shop" |}.

Definition anyService : ServiceService.ServiceFilters :=
  {| ServiceService.status := Some Status.SActive;
     ServiceService.categoryId := None; ServiceService.businessId := None;
     ServiceService.search := None |}.

Definition anyTransaction : TransactionService.TransactionFilters :=
  {| TransactionService.status := None;
     TransactionService.paymentProvider := Some Status.Stripe;
     TransactionService.dateFrom := Some "2025-01-01";
     TransactionService.dateTo := None; TransactionService.search := None |}.

Definition anyCompany : CompanyService.CompanyFilters :=
  {| CompanyService.status := Some Status.CPending;
     CompanyService.categoryId := Some ""; CompanyService.search := None |}.

Definition anyUser : UserService.UserFilters :=
  {| UserService.userType := None; UserService.isActive := Some true;
     UserService.search := None |}.

(** Three completed payments by two providers. *)
Definition payments : list Row :=
  [ <["payment_provider" := VStr "stripe"]> (<["amount" := VNum 40]> ∅);
    <["payment_provider" := VNull]> (<["amount" := VNum 5]> ∅);
    <["payment_provider" := VStr "stripe"]> (<["amount" := VNull]> ∅) ].

(** Three completed payments of cents: 0.10 in cash, then 0.20 and 0.30 by
    card. *)
Definition withCents : list Row :=
  [ <["payment_provider" := VStr "cash"]> (<["amount" := VNum 0.1]> ∅);
    <["payment_provider" := VStr "stripe"]> (<["amount" := VNum 0.2]> ∅);
    <["payment_provider" := VStr "stripe"]> (<["amount" := VNum 0.3]> ∅) ].

End Examples.

(** ** The pagination bar (components/common/Pagination.tsx) *)

Module PaginationBar.

(** The props the bar computes with. *)
Record Props := {
  page : Z;
  pageSize : Z;
  total : Z;
  totalPages : Z;
}.

(** [(number | 'ellipsis')] *)
Inductive PageItem :=
| PageNumber (n : Z)
| Ellipsis.

(** [total === 0 ? 0 : (page - 1) * pageSize + 1] *)
Definition startItem (p : Props) : Z :=
  if total p =? 0 then 0 else (page p - 1) * pageSize p + 1.

(** [Math.min(page * pageSize, total)] *)
Definition endItem (p : Props) : Z := Z.min (page p * pageSize p) (total p).

(** The page given to [onPageChange], if it is called. *)
Definition handlePrevious (p : Props) : option Z :=
  if page p >? 1 then Some (page p - 1) else None.

Definition handleNext (p : Props) : option Z :=
  if page p <? totalPages p then Some (page p + 1) else None.

Definition maxVisible : Z := 5.

Definition getPageNumbers (p : Props) : list PageItem :=
  if totalPages p <=? maxVisible then
    PageNumber <$> Pagination.pushRange 1 (totalPages p)
  else
    let pages := [PageNumber 1] in
    let pages := if page p >? 3 then pages ++ [Ellipsis] else pages in
    let start := Z.max 2 (page p - 1) in
    let end_ := Z.min (totalPages p - 1) (page p + 1) in
    let pages := pages ++ (PageNumber <$> Pagination.pushRange start end_) in
    let pages :=
      if page p <? totalPages p - 2 then pages ++ [Ellipsis] else pages in
    let pages :=
      if totalPages p >? 1 then pages ++ [PageNumber (totalPages p)]
      else pages in
    pages.

(** The items after the page [prev] show every page up to [last]: a number
    follows its predecessor directly, and an ellipsis stands where at least
    one page is left out. *)
Fixpoint marked (prev last : Z) (items : list PageItem) : Prop :=
  match items with
  | [] => prev = last
  | PageNumber n :: rest => n = prev + 1 /\ marked n last rest
  | Ellipsis :: rest =>
      match rest with
      | PageNumber n :: rest' => prev + 1 < n /\ marked n last rest'
      | _ => False
      end
  end.

End PaginationBar.

(** ** Regular expressions of the validators

    The expressions that the sources test whole strings against are
    sequences of character classes, each to be matched once or, under [+],
    one or more times, between [^] and [$].  They have no flags, so they see
    UTF-16 code units. *)

Module Regex.
Import Slug.

Inductive Piece :=
| One (class : N -> bool)
| Plus (class : N -> bool).

(** [/^pieces$/.test(s)] *)
Fixpoint matches (pieces : list Piece) (s : jsstring) {struct s} : bool :=
  match pieces, s with
  | [], [] => true
  | [], _ :: _ => false
  | _ :: _, [] => false
  | One p :: rest, c :: s' => p c && matches rest s'
  | Plus p :: rest, c :: s' =>
      p c && (matches (Plus p :: rest) s' || matches rest s')
  end.

(** The class of the one unit [c]. *)
Definition just (c : N) : N -> bool := N.eqb c.

Definition at_sign : N := 0x40.
Definition full_stop : N := 0x2E.

End Regex.

(** ** The legal page form (components/pages/legal/LegalPageModal.tsx) *)

Module LegalPageModal.
Import Slug.

(** [FormData] *)
Record FormData := {
  title : jsstring;
  slug : jsstring;
  page_type : Status.LegalPageType;
  content : jsstring;
  is_active : bool;
}.

(** [Partial<FormData>] as used for the errors: a message for [title],
    [slug] and [content]. *)
Record FormErrors := {
  titleError : option string;
  slugError : option string;
  contentError : option string;
}.

(** What [handleSave] gives to [onSave]. *)
Inductive SaveData :=
| UpdateData (title slug content : jsstring) (is_active : bool)
| CreateData (title slug : jsstring) (page_type : Status.LegalPageType)
    (content : jsstring).

(** [!s.trim()] *)
Definition blank (s : jsstring) : bool :=
  match trim s with [] => true | _ => false end.

(** The class [[a-z0-9-]]. *)
Definition slugChar (c : N) : bool := is_lower c || is_digit c || is_hyphen c.

(** [/^[a-z0-9-]+$/.test(slug)] *)
Definition slugFormat (slug : jsstring) : bool :=
  Regex.matches [Regex.Plus slugChar] slug.

(** The body of [validateForm]: the errors it sets. *)
Definition newErrors (formData : FormData) : FormErrors :=
  {| titleError :=
       if blank (title formData) then Some "Title is required" else None;
     slugError :=
       if blank (slug formData) then Some "Slug is required"
       else if negb (slugFormat (slug formData)) then
         Some "Slug can only contain lowercase letters, numbers, and hyphens"
       else None;
     contentError :=
       if blank (content formData) then Some "Content is required" else None |}.

(** [Object.keys(newErrors).length === 0] *)
Definition validateForm (formData : FormData) : bool :=
  match titleError (newErrors formData), slugError (newErrors formData),
        contentError (newErrors formData) with
  | None, None, None => true
  | _, _, _ => false
  end.

(** The effect that follows the title: with [autoGenerateSlug] on, a
    non-empty title and no page being edited, the slug becomes
    [generateSlug(title)]. *)
Definition autoSlug (autoGenerateSlug isEditing : bool) (formData : FormData)
  : FormData :=
  if autoGenerateSlug
     && match title formData with [] => false | _ => true end
     && negb isEditing
  then {| title := title formData; slug := generateSlug (title formData);
          page_type := page_type formData; content := content formData;
          is_active := is_active formData |}
  else formData.

(** [handleSave]: what [onSave] is called with, if it is called. *)
Definition handleSave (isEditing : bool) (formData : FormData)
  : option SaveData :=
  if negb (validateForm formData) then None
  else if isEditing then
    Some (UpdateData (title formData) (slug formData) (content formData)
            (is_active formData))
  else
    Some (CreateData (title formData) (slug formData) (page_type formData)
            (content formData)).

(** The slug of what is saved. *)
Definition savedSlug (d : SaveData) : jsstring :=
  match d with
  | UpdateData _ slug _ _ => slug
  | CreateData _ slug _ _ => slug
  end.

End LegalPageModal.

(** ** Validation of passwords and e-mail addresses (services/authService.ts) *)

Module AuthValidation.
Import Slug Regex.

Record PasswordValidation := {
  valid : bool;
  errors : list string;
}.

(** [errors.push(e)] under [if (c)] *)
Definition pushIf (c : bool) (e : string) (errors : list string) : list string :=
  if c then errors ++ [e] else errors.

Definition validatePassword (password : jsstring) : PasswordValidation :=
  let errors := [] in
  let errors :=
    pushIf (length password <? 8)%nat
      "Password must be at least 8 characters long" errors in
  let errors :=
    pushIf (negb (existsb is_upper password))
      "Password must contain at least one uppercase letter" errors in
  let errors :=
    pushIf (negb (existsb is_lower password))
      "Password must contain at least one lowercase letter" errors in
  let errors :=
    pushIf (negb (existsb is_digit password))
      "Password must contain at least one number" errors in
  {| valid := (length errors =? 0)%nat; errors := errors |}.

(** The class [[^\s@]]. *)
Definition plainUnit (c : N) : bool := negb (is_space c || just at_sign c).

(** [/^[^\s@]+@[^\s@]+\.[^\s@]+$/] *)
Definition emailRegex : list Piece :=
  [Plus plainUnit; One (just at_sign); Plus plainUnit; One (just full_stop);
   Plus plainUnit].

Definition validateEmail (email : jsstring) : bool := matches emailRegex email.

End AuthValidation.

(** ** Form validation (utils/errorHandler.ts) *)

Module Validators.
Import Slug Regex.

(** [validators.email] *)
Definition email (value : jsstring) : option string :=
  match value with
  | [] => None
  | _ =>
      if matches AuthValidation.emailRegex value then None
      else Some "Please enter a valid email address"
  end.

(** [validators.password] *)
Definition password (value : jsstring) : option string :=
  match value with
  | [] => None
  | _ =>
      let errors := [] in
      let errors :=
        AuthValidation.pushIf (length value <? 8)%nat "at least 8 characters"
          errors in
      let errors :=
        AuthValidation.pushIf (negb (existsb is_upper value))
          "one uppercase letter" errors in
      let errors :=
        AuthValidation.pushIf (negb (existsb is_lower value))
          "one lowercase letter" errors in
      let errors :=
        AuthValidation.pushIf (negb (existsb is_digit value)) "one number"
          errors in
      if (0 <? length errors)%nat then
        Some ("Password must contain " +:+ String.concat ", " errors)
      else None
  end.

(** [ValidationRule<T>]: [validate] receives [data[rule.field]], which is
    undefined when the field is absent. *)
Record ValidationRule := {
  field : string;
  validate : option Value -> option string;
  ruleMessage : option string;
}.

Record ValidationResult := {
  isValid : bool;
  errors : gmap string string;
}.

(** One turn of the loop of [validateForm]. *)
Definition checkRule (data : Row) (errors : gmap string string)
  (rule : ValidationRule) : gmap string string :=
  let value := data !! field rule in
  let error := validate rule value in
  match truthy error with
  | Some error => <[field rule := default error (truthy (ruleMessage rule))]> errors
  | None => errors
  end.

Definition validateForm (data : Row) (rules : list ValidationRule)
  : ValidationResult :=
  let errors := fold_left (checkRule data) rules ∅ in
  {| isValid := bool_decide (dom errors = (∅ : gset string)); errors := errors |}.

(** What a rule reports for the field [f]: nothing when it is a rule of
    another field or when it passes. *)
Definition reported (data : Row) (f : string) (rule : ValidationRule)
  : option string :=
  if bool_decide (field rule = f) then
    error ← truthy (validate rule (data !! field rule));
    Some (default error (truthy (ruleMessage rule)))
  else None.

End Validators.

(** ** The registration form (pages/RegisterPage.tsx): the password *)

Module RegisterPage.
Import Slug.

(** [PasswordRequirement]: [text] and [met]. *)
Definition getPasswordRequirements (password : jsstring)
  : list (string * bool) :=
  [ ("At least 8 characters", (8 <=? length password)%nat);
    ("One uppercase letter", existsb is_upper password);
    ("One lowercase letter", existsb is_lower password);
    ("One number", existsb is_digit password) ].

(** [passwordRequirements.every(req => req.met)] *)
Definition isPasswordValid (password : jsstring) : bool :=
  forallb snd (getPasswordRequirements password).

(** The part of [validateForm] that sets [errors.password]:
    [passwordValidation.errors[0]] is the first error. *)
Definition passwordError (password : jsstring) : option string :=
  match password with
  | [] => Some "Password is required"
  | _ =>
      let passwordValidation := AuthValidation.validatePassword password in
      if negb (AuthValidation.valid passwordValidation) then
        head (AuthValidation.errors passwordValidation)
      else None
  end.

End RegisterPage.

(** ** services/transactionService.ts: the revenue report *)

(** The payments of one provider among [rows]. *)
Definition paidBy (p : string) (rows : list Row) : list Row :=
  List.filter (fun t => String.eqb (TransactionService.providerOf t) p) rows.

(** What the provider map of [getRevenueByProvider] holds after the rows
    [rows]. *)
Definition providerMapOf (rows : list Row) : list (string * (float * Z)) :=
  fold_left
    (fun providerMap t =>
       let provider := TransactionService.providerOf t in
       let existing := TransactionService.mapGet provider providerMap in
       TransactionService.mapSet provider
         ((fst existing + TransactionService.amountOf t)%float,
          snd existing + 1)
         providerMap)
    rows [].

(** ** services/authService.ts: the session check and the listener *)

Module AuthSession.
Import AuthService.

Section Functions.
Context {W : Type} `{!Postgrest W} `{!Auth W} `{!Timers W}.

Definition getSession : Async W SessionResponse :=
  tryCatch (
    sessionResult ← perform EvGetSession authGetSession;
    match sessionFailure sessionResult with
    | Some error =>
        mret (denied {| message := auth_message error;
                        code := auth_code error; status := None |})
    | None =>
    match currentSession sessionResult with
    | None => mret {| session := None; user := None; sessionError := None |}
    | Some session =>
        r ← getCurrentUser;
        mret {| session :=
                  Some {| accessToken := access_token session;
                          refreshToken := refresh_token session;
                          expiresAt := nullish (expires_at session) 0 |};
                user := payload r;
                sessionError := error r |}
    end end)
  (fun err => mret (denied (plainError (messageOr err "Failed to get session")))).

(** The listener that [onAuthStateChange] registers.  The result is what
    [callback] is called with: [None] when it is not called. *)
Definition onAuthStateChange (event : string) (session : option Session)
  : Async W (option (option Row)) :=
  if bool_decide (event = "SIGNED_OUT")
     || match session with None => true | Some _ => false end
  then mret (Some None)
  else if bool_decide (event = "SIGNED_IN")
          || bool_decide (event = "TOKEN_REFRESHED")
  then r ← getCurrentUser; mret (Some (payload r))
  else mret None.

End Functions.
End AuthSession.

(** An outside where every timer fires before the pending request settles. *)
Module Stalled.

Record Line := { script : Scripted.Script }.

#[export] Instance postgrest : Postgrest Line := {|
  pgAwait := fun q l => (Scripted.onAwait (script l) q, l);
  pgSingle := fun q l => (Scripted.onSingle (script l) q, l);
  isoNow := fun l => (Scripted.time (script l), l);
|}.

#[export] Instance auth : Auth Line := {|
  signInWithPassword := fun _ _ l => (Scripted.onSignIn (script l), l);
  signUp := fun _ _ _ l => (Scripted.onSignUp (script l), l);
  authSignOut := fun l => (Scripted.onSignOut (script l), l);
  authGetSession := fun l => (Scripted.onGetSession (script l), l);
  authGetUser := fun l => (Scripted.onGetUser (script l), l);
|}.

#[export] Instance timers : Timers Line :=
  {| elapse := fun _ l => l; firesFirst := fun _ _ => true |}.

End Stalled.

(** The delays of the timers of a trace. *)
Definition timeouts (tr : list Event) : list Z :=
  omap (fun ev => match ev with EvTimeout ms => Some ms | _ => None end) tr.

(** The message of the time-out of [getCurrentUser]. *)
Definition timedOut : string := "Operation timed out after 8000ms".

(** ** Toasts (utils/toast.ts, constants/config.ts) *)

Module Toast.

Inductive Color := Success | Danger | Warning | Primary.

(** What [addToast] is given. *)
Record Toast := {
  title : string;
  description : string;
  color : Color;
  timeout : Z;
}.

(** [ToastOptions | string] *)
Inductive Options :=
| Text (description : string)
| Full (title : option string) (description : string) (timeout : option Z).

Definition SUCCESS_DURATION : Z := 4000.
Definition ERROR_DURATION : Z := 6000.
Definition WARNING_DURATION : Z := 5000.

(** [config.title || fallback], [config.timeout || duration] *)
Definition make (fallback : string) (c : Color) (duration : Z)
  (options : Options) : Toast :=
  match options with
  | Text description =>
      {| title := fallback; description := description; color := c;
         timeout := duration |}
  | Full title description timeout =>
      {| title := default fallback (truthy title);
         description := description; color := c;
         timeout := match timeout with
                    | Some 0 | None => duration
                    | Some ms => ms
                    end |}
  end.

Definition showSuccess : Options -> Toast := make "Success" Success SUCCESS_DURATION.
Definition showError : Options -> Toast := make "Error" Danger ERROR_DURATION.
Definition showWarning : Options -> Toast := make "Warning" Warning WARNING_DURATION.

(** [toastHelpers.auth] *)
Definition loginSuccess : Toast := showSuccess (Text "Login successful").
Definition loginError : Toast :=
  showError (Text "Invalid email or password. Please try again.").
Definition logoutSuccess : Toast := showSuccess (Text "Logged out successfully").
Definition registrationSuccess : Toast :=
  showSuccess (Text "Registration successful").
Definition registrationError : Toast :=
  showError (Text "Registration failed. Please try again.").
Definition unauthorized : Toast :=
  showError (Text "You are not authorized to perform this action.").

End Toast.

(** ** utils/errorHandler.ts: [handleApiError] *)

Module ApiErrors.

(** What [handleApiError] does to the page: it shows a toast, or arms a
    timer that sets [window.location.href]. *)
Inductive Effect :=
| ShowToast (toast : Toast.Toast)
| NavigateAfter (ms : Z) (href : string).

(** [error.status] is one of the statuses of a [case]. *)
Definition statusIn (error : ApiError) (cases : list Z) : bool :=
  match status error with
  | Some s => bool_decide (s ∈ cases)
  | None => false
  end.

Definition handleApiError (error : ApiError) (context : option string)
  : list Effect :=
  let contextPrefix :=
    match truthy context with Some c => c +:+ ": " | None => "" end in
  let shown text := ShowToast (Toast.showError (Toast.Text (contextPrefix +:+ text))) in
  if statusIn error [400] then
    [shown "Invalid request. Please check your input and try again."]
  else if statusIn error [401] then
    [ShowToast Toast.unauthorized; NavigateAfter 2000 "/login"]
  else if statusIn error [403] then
    [shown "Access denied. You don't have permission to perform this action."]
  else if statusIn error [404] then
    [shown "The requested resource was not found."]
  else if statusIn error [409] then
    [shown ("Conflict: "
            +:+ default "The resource already exists or is in use."
                  (truthy (Some (message error))))]
  else if statusIn error [422] then
    [shown ("Validation failed: "
            +:+ default "Please check your input."
                  (truthy (Some (message error))))]
  else if statusIn error [429] then
    [ShowToast (Toast.showWarning
             (Toast.Text (contextPrefix
                          +:+ "Too many requests. Please wait a moment and try again.")))]
  else if statusIn error [500; 502; 503; 504] then
    [shown "Server error. Please try again later or contact support."]
  else
    match truthy (Some (message error)) with
    | Some m => [shown m]
    | None => [shown "An unexpected error occurred. Please try again."]
    end.

(** The toasts among the effects. *)
Definition toasts (effects : list Effect) : list Toast.Toast :=
  omap (fun e => match e with ShowToast t => Some t | _ => None end) effects.

End ApiErrors.

(** ** The authentication hook (hooks/useAuth.ts) *)

Module UseAuth.

(** The three [useState] cells, and the toasts shown so far. *)
Record State := {
  user : option Row;
  loading : bool;
  error : option ApiError;
  shown : list Toast.Toast;
}.

Definition setUser (u : option Row) (s : State) : State :=
  {| user := u; loading := loading s; error := error s; shown := shown s |}.
Definition setLoading (b : bool) (s : State) : State :=
  {| user := user s; loading := b; error := error s; shown := shown s |}.
Definition setError (e : option ApiError) (s : State) : State :=
  {| user := user s; loading := loading s; error := e; shown := shown s |}.
Definition addToast (t : Toast.Toast) (s : State) : State :=
  {| user := user s; loading := loading s; error := error s;
     shown := shown s ++ [t] |}.

(** [isAuthenticated: !!user] *)
Definition isAuthenticated (s : State) : bool :=
  match user s with Some _ => true | None => false end.

Section Callbacks.
Context {W : Type} `{!Postgrest W} `{!Auth W} `{!Timers W}.

Definition login (email password : string) (s : State) : Async W (bool * State) :=
  let s := setLoading true s in
  let s := setError None s in
  tryCatch (
    r ← AuthService.login email password;
    match AuthService.sessionError r with
    | Some loginError =>
        let s := setError (Some loginError) s in
        let s := addToast Toast.loginError s in
        let s := setLoading false s in
        mret (false, s)
    | None =>
        let s := setUser (AuthService.user r) s in
        let s := addToast Toast.loginSuccess s in
        let s := setLoading false s in
        mret (true, s)
    end)
  (fun err =>
     let errorMessage := messageOr err "Login failed" in
     let s := setError (Some (plainError errorMessage)) s in
     let s := addToast Toast.loginError s in
     let s := setLoading false s in
     mret (false, s)).

(** [try { ... } catch (err) { ... } finally { setLoading(false) }] *)
Definition logout (s : State) : Async W State :=
  let s := setLoading true s in
  let s := setError None s in
  s ← tryCatch (
         r ← AuthService.logout;
         let s :=
           match deleteError r with
           | Some logoutError => setError (Some logoutError) s
           | None => addToast Toast.logoutSuccess s
           end in
         mret (setUser None s))
       (fun err =>
          mret (setError (Some (plainError (messageOr err "Logout failed"))) s));
  mret (setLoading false s).

Definition register (input : AuthService.CreateUserInput) (s : State)
  : Async W (bool * State) :=
  let s := setLoading true s in
  let s := setError None s in
  tryCatch (
    '(mkReply _ registerError) ← AuthService.register input;
    match registerError with
    | Some registerError =>
        let s := setError (Some registerError) s in
        let s := addToast Toast.registrationError s in
        let s := setLoading false s in
        mret (false, s)
    | None =>
        let s := addToast Toast.registrationSuccess s in
        let s := setLoading false s in
        mret (true, s)
    end)
  (fun err =>
     let errorMessage := messageOr err "Registration failed" in
     let s := setError (Some (plainError errorMessage)) s in
     let s := addToast Toast.registrationError s in
     let s := setLoading false s in
     mret (false, s)).

End Callbacks.
End UseAuth.

(** ** What the mutations do to the store *)

(** [removed t id db db']: from [db] to [db'] nothing changed but that the
    rows of table [t] whose [id] is [id] are gone. *)
Definition removed (t id : string) (db db' : Store.Db) : Prop :=
  (forall t', t' <> t -> Store.tables db' !! t' = Store.tables db !! t')
  /\ Store.rowsOf t db'
     = List.filter (fun r : Row => negb (bool_decide (r !! "id" = Some (VStr id))))
         (Store.rowsOf t db).

(** The rows of table [t] whose [id] is [id]. *)
Definition withId (t id : string) (db : Store.Db) : list Row :=
  List.filter (fun r : Row => bool_decide (r !! "id" = Some (VStr id)))
    (Store.rowsOf t db).

(** [deletesById t delete get]: on the store, [delete id] never rejects; when
    it replies without error, the rows of table [t] whose [id] is [id] are
    gone, nothing else has changed, and [get id] then replies with the error
    of [.single()]; when it replies with an error, the store is as it
    was. *)
Definition deletesById (t : string)
  (delete : string -> Async Store.Db DeleteReply)
  (get : string -> Async Store.Db (Reply Row)) : Prop :=
  forall (id : string) (db : Store.Db),
    let run := delete id db in
    exists reply,
      out run = Returned reply
      /\ match deleteError reply with
         | None =>
             removed t id db (world run)
             /\ withId t id (world run) = []
             /\ out (get id (world run))
                = Returned (mkReply None (Some (apiError Store.notSingle)))
         | Some _ => world run = db
         end.

(** [readOnly m]: on the store, [m] leaves the store as it is. *)
Definition readOnly {A} (m : Async Store.Db A) : Prop :=
  forall db : Store.Db, world (m db) = db.

(** The columns that [updateLegalPage] writes: those of the fields that the
    input supplies, and [updated_at]. *)
Definition present {A} (column : string) (field : option A) : list string :=
  match field with Some _ => [column] | None => [] end.

Definition supplied (input : LegalPageService.UpdateLegalPageInput)
  : list string :=
  present "title" (LegalPageService.newTitle input)
  ++ present "slug" (LegalPageService.newSlug input)
  ++ present "content" (LegalPageService.newContent input)
  ++ present "is_active" (LegalPageService.newIsActive input)
  ++ ["updated_at"].

(** ** More examples *)

Module MoreExamples.

(** The seventh of twenty pages. *)
Definition seventh : Pagination.Hook :=
  Pagination.usePagination
    {| Pagination.initialPage := Some 7; Pagination.initialPageSize := None;
       Pagination.initialTotal := Some 200 |}.

Definition seventhBar : PaginationBar.Props :=
  {| PaginationBar.page := 7; PaginationBar.pageSize := 10;
     PaginationBar.total := 195; PaginationBar.totalPages := 20 |}.

(** A form with a title only. *)
Definition draft : LegalPageModal.FormData :=
  {| LegalPageModal.title := Slug.of_string "Terms_of Service";
     LegalPageModal.slug := [];
     LegalPageModal.page_type := Status.Terms;
     LegalPageModal.content := [];
     LegalPageModal.is_active := true |}.

(** A page whose slug no page of [Examples.shop] holds. *)
Definition privacy : LegalPageService.CreateLegalPageInput :=
  {| LegalPageService.title := "Privacy Policy";
     LegalPageService.slug := "privacy";
     LegalPageService.page_type := Status.Privacy;
     LegalPageService.content := "<p>Privacy</p>" |}.

(** The outside of [Examples.agreeable] behind a stalled line. *)
Definition stalled : Stalled.Line := {| Stalled.script := Examples.agreeable |}.

(** An outside where the sign-in succeeds and the request for the profile
    fails in transit. *)
Definition severed : Scripted.Script :=
  {| Scripted.onAwait := fun _ => Returned (Rows [] None);
     Scripted.onSingle := fun _ => Threw (ErrorObject "Failed to fetch");
     Scripted.onSignIn :=
       Returned {| authUser := Some {| authId := "u9" |};
                   authSession := None; authError := None |};
     Scripted.onSignUp :=
       Returned {| authUser := None; authSession := None; authError := None |};
     Scripted.onSignOut := Returned None;
     Scripted.onGetSession :=
       Returned {| currentSession := None; sessionFailure := None |};
     Scripted.onGetUser :=
       Returned {| currentUser := None; userFailure := None |};
     Scripted.time := "2025-06-01T12:00:00.000Z" |}.

End MoreExamples.

(* ===== THEOREMS ===== *)

(** * Status enums *)

Section StatusFacts.
Import Status.

Lemma business_statuses s :
  isBusinessStatus s <->
  s ∈ ["pending"; "active"; "rejected"; "suspended"; "removed"; "deleted"].
Proof.
  split.
  - intros [b <-]. destruct b; set_solver.
  - intros H. apply list_elem_of_In in H. simpl in H.
    repeat (destruct H as [<-|H]); try contradiction;
      first [ now exists BPending | now exists BActive | now exists BRejected
            | now exists BSuspended | now exists BRemoved
            | now exists BDeleted ].
Qed.

Lemma service_statuses s :
  isServiceStatus s <->
  s ∈ ["pending"; "active"; "rejected"; "suspended"; "deleted";
       "requestDeletion"].
Proof.
  split.
  - intros [b <-]. destruct b; set_solver.
  - intros H. apply list_elem_of_In in H. simpl in H.
    repeat (destruct H as [<-|H]); try contradiction;
      first [ now exists SPending | now exists SActive | now exists SRejected
            | now exists SSuspended | now exists SDeleted
            | now exists SRequestDeletion ].
Qed.

Lemma transaction_statuses s :
  isTransactionStatus s <->
  s ∈ ["pending"; "completed"; "failed"; "refunded"; "cancelled";
       "processing"].
Proof.
  split.
  - intros [b <-]. destruct b; set_solver.
  - intros H. apply list_elem_of_In in H. simpl in H.
    repeat (destruct H as [<-|H]); try contradiction;
      first [ now exists TPending | now exists TCompleted | now exists TFailed
            | now exists TRefunded | now exists TCancelled
            | now exists TProcessing ].
Qed.

(** C5 (as stated, refuted): ['removed'] is a Business status and not a
    Service status, so the Service statuses are not the Business statuses
    with ['requestDeletion'] added. *)
Lemma service_status_lacks_removed :
  isBusinessStatus "removed"
  /\ ~ isServiceStatus "removed"
  /\ ~ (forall s, isServiceStatus s <->
                  isBusinessStatus s \/ s = "requestDeletion").
Proof.
  assert (Hb : isBusinessStatus "removed") by (now exists BRemoved).
  assert (Hs : ~ isServiceStatus "removed").
  { intros [b Hb']. destruct b; discriminate. }
  split; [exact Hb|]. split; [exact Hs|].
  intros H. apply Hs, H. now left.
Qed.

(** C5 (amended): Business status ranges over pending, active, rejected,
    suspended, removed, deleted; Service status ranges over the Business
    statuses other than removed, and requestDeletion; Transaction status
    ranges over pending, completed, failed, refunded, cancelled,
    processing. *)
Theorem status_enums :
  (forall s, isBusinessStatus s <->
     s ∈ ["pending"; "active"; "rejected"; "suspended"; "removed"; "deleted"])
  /\ (forall s, isServiceStatus s <->
        (isBusinessStatus s /\ s <> "removed") \/ s = "requestDeletion")
  /\ (forall s, isTransactionStatus s <->
        s ∈ ["pending"; "completed"; "failed"; "refunded"; "cancelled";
             "processing"]).
Proof.
  split; [apply business_statuses|]. split; [|apply transaction_statuses].
  intros s. rewrite service_statuses, business_statuses. split.
  - intros H. apply list_elem_of_In in H. simpl in H.
    repeat (destruct H as [<-|H]); try contradiction;
      first [ now right | left; split; [set_solver | discriminate] ].
  - intros [[H Hne]| ->]; [|set_solver].
    apply list_elem_of_In in H. simpl in H.
    repeat (destruct H as [<-|H]); try contradiction; set_solver.
Qed.

End StatusFacts.

(** * Numbers *)

Lemma ceil_div_spec (a b : Z) :
  0 < b -> (ceil_div a b - 1) * b < a <= ceil_div a b * b.
Proof.
  intros Hb. unfold ceil_div.
  pose proof (Z.div_mod (- a) b ltac:(lia)) as E.
  pose proof (Z.mod_pos_bound (- a) b Hb) as B.
  nia.
Qed.

Lemma ceil_div_least (a b n : Z) : 0 < b -> a <= n * b -> ceil_div a b <= n.
Proof.
  intros Hb Hn. pose proof (ceil_div_spec a b Hb) as H. nia.
Qed.

(** * The pagination hook *)

Section PaginationFacts.
Import Pagination.

Lemma totalPages_ge_1 h : 1 <= totalPages h.
Proof. unfold totalPages. lia. Qed.

Lemma pushRange_length lo hi : lo <= hi ->
  length (pushRange lo hi) = Z.to_nat (hi - lo + 1).
Proof. intros _. unfold pushRange. apply length_seqZ. Qed.

Lemma pushRange_consecutive lo hi : consecutive (pushRange lo hi).
Proof.
  unfold consecutive, pushRange. intros i x y Hx Hy.
  apply lookup_seqZ in Hx, Hy. lia.
Qed.

Lemma pushRange_bounds lo hi :
  Forall (fun n => lo <= n <= hi) (pushRange lo hi).
Proof.
  unfold pushRange. apply Forall_forall. intros x Hx.
  apply elem_of_seqZ in Hx. lia.
Qed.

Lemma pushRange_nonempty lo hi : lo <= hi -> pushRange lo hi <> [].
Proof.
  intros H E. apply (f_equal length) in E.
  rewrite pushRange_length in E by exact H. simpl in E. lia.
Qed.

(** The window that [pageNumbers] lists. *)
Lemma pageNumbers_window h :
  inBounds h ->
  exists lo hi,
    pageNumbers h = pushRange lo hi
    /\ 1 <= lo <= hi /\ hi <= totalPages h /\ hi - lo <= 4.
Proof.
  unfold inBounds, pageNumbers, maxVisiblePages. intros Hb.
  pose proof (totalPages_ge_1 h) as H1.
  change (5 / 2) with 2.
  destruct (Z.leb_spec (totalPages h) 5) as [Hle|Hgt].
  - exists 1, (totalPages h). repeat split; lia.
  - match goal with
    | |- context [pushRange ?lo ?hi] => exists lo, hi
    end.
    split; [reflexivity|].
    destruct (Z.ltb_spec
                (Z.min (totalPages h) (Z.max 1 (page h - 2) + 5 - 1)
                 - Z.max 1 (page h - 2)) (5 - 1)); lia.
Qed.

Lemma apply_inBounds h o :
  inBounds h -> 1 <= pageSize h -> admissible h o ->
  inBounds (apply h o) /\ 1 <= pageSize (apply h o).
Proof.
  unfold inBounds. intros Hb Hs Ha.
  pose proof (totalPages_ge_1 h) as H1.
  destruct o as [p|n|t| | | | |]; simpl in *.
  - unfold setPage, totalPages in *. simpl. lia.
  - unfold setPageSize, totalPages in *. simpl. lia.
  - unfold setTotal, totalPages in *. simpl.
    rewrite Z.gtb_ltb.
    destruct (Z.ltb_spec (Z.max 1 (ceil_div t (pageSize h))) (page h)); lia.
  - unfold nextPage, canGoNext.
    destruct (Z.ltb_spec (page h) (totalPages h));
      unfold totalPages in *; simpl; lia.
  - unfold prevPage, canGoPrev. rewrite Z.gtb_ltb.
    destruct (Z.ltb_spec 1 (page h)); unfold totalPages in *; simpl; lia.
  - unfold firstPage, totalPages in *. simpl. lia.
  - unfold lastPage, totalPages in *. simpl. lia.
  - unfold resetPagination, totalPages in *. simpl. lia.
Qed.

(** C9 (as stated, refuted): a hook created with [initialPage = 3] and
    [total = 100] is within bounds, stays so after [setTotal(0)], and
    [resetPagination] then puts page 3 back while there is one page. *)
Lemma resetPagination_leaves_bounds :
  let h0 := usePagination {| initialPage := Some 3; initialPageSize := None;
                             initialTotal := Some 100 |} in
  let h := setTotal h0 0 in
  inBounds h0 /\ inBounds h /\ 1 <= pageSize h
  /\ page (resetPagination h) = 3 /\ totalPages (resetPagination h) = 1
  /\ ~ inBounds (apply h ResetPagination).
Proof.
  cbv zeta. unfold inBounds. vm_compute.
  repeat split; try discriminate. intros [_ H]. now apply H.
Qed.

(** C9 (amended): with [totalPages = max(1, ceil(total / pageSize))], the
    invariant [1 <= page <= totalPages] together with [pageSize >= 1] is
    preserved by [setPage], [setPageSize] (to a size [>= 1]), [setTotal],
    [nextPage], [prevPage], [firstPage] and [lastPage], and by
    [resetPagination] when the initial page size is [>= 1] and the initial
    page is a page of the current total; under the invariant the offset is
    [>= 0] and [pageNumbers] is a non-empty list of at most 5 consecutive
    integers within [1, totalPages]. *)
Theorem pagination_invariant (h : Hook) :
  inBounds h -> 1 <= pageSize h ->
  (forall o, admissible h o ->
             inBounds (apply h o) /\ 1 <= pageSize (apply h o))
  /\ 0 <= offset h
  /\ pageNumbers h <> []
  /\ (length (pageNumbers h) <= 5)%nat
  /\ consecutive (pageNumbers h)
  /\ Forall (fun n => 1 <= n <= totalPages h) (pageNumbers h).
Proof.
  intros Hb Hs.
  split; [intros o Ha; now apply apply_inBounds|].
  split; [unfold offset, inBounds in *; nia|].
  destruct (pageNumbers_window h Hb) as (lo & hi & -> & Hlo & Hhi & Hw).
  split; [apply pushRange_nonempty; lia|].
  split; [rewrite pushRange_length by lia; lia|].
  split; [apply pushRange_consecutive|].
  eapply List.Forall_impl; [|apply pushRange_bounds]. simpl. lia.
Qed.

(** The theorem at the default hook with 42 rows. *)
Lemma pagination_invariant_witness :
  let h := setTotal (usePagination {| initialPage := None;
                                      initialPageSize := None;
                                      initialTotal := None |}) 42 in
  (forall o, admissible h o ->
             inBounds (apply h o) /\ 1 <= pageSize (apply h o))
  /\ 0 <= offset h
  /\ pageNumbers h <> []
  /\ (length (pageNumbers h) <= 5)%nat
  /\ consecutive (pageNumbers h)
  /\ Forall (fun n => 1 <= n <= totalPages h) (pageNumbers h).
Proof.
  apply pagination_invariant.
  - unfold inBounds. vm_compute. split; discriminate.
  - vm_compute. discriminate.
Defined.

End PaginationFacts.

(** * Slug generation *)

Section SlugFacts.
Import Slug.
Local Open Scope N_scope.

Ltac chars :=
  unfold slug_unit, keeps, is_word, is_space, is_hyphen, is_upper, is_lower,
    is_digit, between, underscore, hyphen in *;
  repeat rewrite ?orb_true_iff, ?andb_true_iff, ?orb_false_iff,
    ?andb_false_iff, ?N.leb_le, ?N.leb_gt, ?N.eqb_eq, ?N.eqb_neq in *;
  lia.

Lemma slug_unit_not_space c : slug_unit c = true -> is_space c = false.
Proof. intros H. chars. Qed.

Lemma slug_unit_not_upper c : slug_unit c = true -> is_upper c = false.
Proof. intros H. chars. Qed.

Lemma slug_unit_keeps c : slug_unit c = true -> keeps c = true.
Proof. intros H. chars. Qed.

Lemma hyphen_slug_unit : slug_unit hyphen = true.
Proof. reflexivity. Qed.

Lemma kept_lower_case c :
  keeps c = true -> is_upper c = false ->
  slug_unit c = true \/ is_space c = true.
Proof.
  intros Hk Hu. destruct (is_space c) eqn:Hs; [now right|left]. chars.
Qed.

Lemma toLowerCase1_no_upper c :
  Forall (fun d => is_upper d = false) (toLowerCase1 c).
Proof.
  unfold toLowerCase1.
  destruct (is_upper c) eqn:Hu.
  - constructor; [chars | constructor].
  - destruct (c =? 0x130); [repeat constructor|].
    destruct (c =? 0x212A); [repeat constructor|].
    constructor; [assumption | constructor].
Qed.

Lemma toLowerCase_no_upper s :
  Forall (fun d => is_upper d = false) (toLowerCase s).
Proof.
  unfold toLowerCase. induction s as [|c s IH]; simpl.
  - constructor.
  - apply Forall_app. split; [apply toLowerCase1_no_upper | exact IH].
Qed.

Lemma dropWhile_Forall (P : N -> Prop) p s :
  Forall P s -> Forall P (dropWhile p s).
Proof.
  induction 1 as [|c s Hc Hs IH]; simpl; [constructor|].
  destruct (p c); [exact IH | now constructor].
Qed.

Lemma trim_Forall (P : N -> Prop) s : Forall P s -> Forall P (trim s).
Proof.
  intros H. unfold trim.
  apply Forall_rev, dropWhile_Forall, Forall_rev, dropWhile_Forall, H.
Qed.

Lemma removeSpecial_units s :
  Forall (fun d => is_upper d = false) s ->
  Forall (fun d => slug_unit d = true \/ is_space d = true) (removeSpecial s).
Proof.
  unfold removeSpecial.
  induction 1 as [|c s Hc Hs IH]; simpl; [constructor|].
  destruct (keeps c) eqn:Hk; [|exact IH].
  constructor; [now apply kept_lower_case | exact IH].
Qed.

Lemma spaces_replaced b s :
  Forall (fun d => slug_unit d = true \/ is_space d = true) s ->
  Forall (fun d => slug_unit d = true) (replaceRuns is_space hyphen b s).
Proof.
  intros H. revert b.
  induction H as [|c s Hc Hs IH]; intros b; simpl; [constructor|].
  destruct (is_space c) eqn:Hsp.
  - destruct b; [apply IH|]. constructor; [apply hyphen_slug_unit | apply IH].
  - constructor; [|apply IH]. destruct Hc as [Hc|Hc]; [exact Hc | congruence].
Qed.

Lemma hyphens_replaced b s :
  Forall (fun d => slug_unit d = true) s ->
  Forall (fun d => slug_unit d = true) (replaceRuns is_hyphen hyphen b s).
Proof.
  intros H. revert b.
  induction H as [|c s Hc Hs IH]; intros b; simpl; [constructor|].
  destruct (is_hyphen c).
  - destruct b; [apply IH|]. constructor; [apply hyphen_slug_unit | apply IH].
  - constructor; [exact Hc | apply IH].
Qed.

Lemma hyphens_collapsed s :
  forall b,
    double_hyphen (replaceRuns is_hyphen hyphen b s) = false
    /\ (b = true ->
        starts_with_hyphen (replaceRuns is_hyphen hyphen b s) = false).
Proof.
  induction s as [|c s IH]; intros b; simpl; [now split|].
  destruct (is_hyphen c) eqn:Hc.
  - destruct b.
    + apply IH.
    + destruct (IH true) as [Hd Hh]. specialize (Hh eq_refl).
      split; [|discriminate].
      simpl. destruct (replaceRuns is_hyphen hyphen true s) as [|d t] eqn:E;
        [reflexivity|].
      simpl in Hh. change (is_hyphen hyphen) with true. rewrite Hh. exact Hd.
  - destruct (IH false) as [Hd _]. split.
    + simpl. destruct (replaceRuns is_hyphen hyphen false s) as [|d t] eqn:E;
        [reflexivity|].
      rewrite Hc. exact Hd.
    + intros _. simpl. exact Hc.
Qed.

Lemma toLowerCase_fixed s :
  Forall (fun d => slug_unit d = true) s -> toLowerCase s = s.
Proof.
  unfold toLowerCase.
  induction 1 as [|c s Hc Hs IH]; simpl; [reflexivity|].
  rewrite IH. unfold toLowerCase1.
  rewrite (slug_unit_not_upper c Hc).
  assert ((c =? 0x130) = false) as -> by chars.
  assert ((c =? 0x212A) = false) as -> by chars.
  reflexivity.
Qed.

Lemma dropWhile_fixed s :
  Forall (fun d => slug_unit d = true) s -> dropWhile is_space s = s.
Proof.
  destruct 1 as [|c s Hc Hs]; simpl; [reflexivity|].
  now rewrite (slug_unit_not_space c Hc).
Qed.

Lemma trim_fixed s :
  Forall (fun d => slug_unit d = true) s -> trim s = s.
Proof.
  intros H. unfold trim. rewrite (dropWhile_fixed s H).
  rewrite dropWhile_fixed by now apply Forall_rev.
  apply rev_involutive.
Qed.

Lemma removeSpecial_fixed s :
  Forall (fun d => slug_unit d = true) s -> removeSpecial s = s.
Proof.
  unfold removeSpecial.
  induction 1 as [|c s Hc Hs IH]; simpl; [reflexivity|].
  now rewrite (slug_unit_keeps c Hc), IH.
Qed.

Lemma spaces_fixed b s :
  Forall (fun d => slug_unit d = true) s ->
  replaceRuns is_space hyphen b s = s.
Proof.
  intros H. revert b.
  induction H as [|c s Hc Hs IH]; intros b; simpl; [reflexivity|].
  now rewrite (slug_unit_not_space c Hc), IH.
Qed.

Lemma hyphens_fixed s :
  forall b,
    double_hyphen s = false ->
    (b = true -> starts_with_hyphen s = false) ->
    replaceRuns is_hyphen hyphen b s = s.
Proof.
  induction s as [|c s IH]; intros b Hd Hh; simpl; [reflexivity|].
  destruct (is_hyphen c) eqn:Hc.
  - destruct b; [specialize (Hh eq_refl); simpl in Hh; congruence|].
    assert (c = hyphen) as -> by (apply N.eqb_eq; exact Hc).
    f_equal. apply IH.
    + destruct s as [|d t]; [reflexivity|].
      simpl in Hd. apply orb_false_iff in Hd. apply Hd.
    + intros _. destruct s as [|d t]; [reflexivity|].
      simpl in Hd. apply orb_false_iff in Hd. destruct Hd as [Hd _].
      change (is_hyphen hyphen) with true in Hd. simpl in Hd |- *. exact Hd.
  - f_equal. apply IH.
    + destruct s as [|d t]; [reflexivity|].
      simpl in Hd. apply orb_false_iff in Hd. apply Hd.
    + discriminate.
Qed.

Lemma generateSlug_units title :
  Forall (fun d => slug_unit d = true) (generateSlug title).
Proof.
  unfold generateSlug.
  apply hyphens_replaced, spaces_replaced, removeSpecial_units, trim_Forall,
    toLowerCase_no_upper.
Qed.

Lemma double_hyphen_spec s :
  double_hyphen s = false ->
  forall pre post, s <> pre ++ [hyphen; hyphen] ++ post.
Proof.
  intros Hd pre. revert s Hd.
  induction pre as [|a pre IH]; intros s Hd post E; subst s.
  - simpl in Hd. discriminate.
  - refine (IH (pre ++ [hyphen; hyphen] ++ post) _ post eq_refl).
    destruct pre as [|b pre]; simpl in Hd |- *;
      apply orb_false_iff in Hd; apply Hd.
Qed.

(** C10: [generateSlug] yields only lowercase letters, digits, underscores
    and hyphens, no whitespace and no two consecutive hyphens, and applying
    it to its own output changes nothing. *)
Theorem generateSlug_normalizes (title : jsstring) :
  let slug := generateSlug title in
  Forall (fun c => is_lower c || is_digit c || (c =? underscore)
                   || (c =? hyphen) = true) slug
  /\ Forall (fun c => is_space c = false) slug
  /\ (forall pre post, slug <> pre ++ [hyphen; hyphen] ++ post)
  /\ generateSlug slug = slug.
Proof.
  intros slug.
  pose proof (generateSlug_units title) as Hu. fold slug in Hu.
  assert (Hd : double_hyphen slug = false).
  { unfold slug, generateSlug. apply (hyphens_collapsed _ false). }
  split; [exact Hu|].
  split; [revert Hu; apply List.Forall_impl, slug_unit_not_space|].
  split; [now apply double_hyphen_spec|].
  unfold generateSlug.
  rewrite (toLowerCase_fixed slug Hu), (trim_fixed slug Hu),
    (removeSpecial_fixed slug Hu), (spaces_fixed false slug Hu).
  apply hyphens_fixed; [exact Hd | discriminate].
Qed.

End SlugFacts.


Example slug_example_title :
  Slug.generateSlug (Slug.of_string "  Privacy  Policy -- (2024)! ")
  = Slug.of_string "privacy-policy-2024".
Proof. vm_compute. reflexivity. Qed.

Example slug_example_leading :
  Slug.generateSlug (Slug.of_string "! a") = Slug.of_string "-a".
Proof. vm_compute. reflexivity. Qed.


(** * Stepping through a run *)

Section Stepping.
Context {W : Type}.

Lemma runs_ret {A} (a : A) (w : W) Φ :
  Φ (Returned a) w [] -> runs (mret a) w Φ.
Proof. exact (fun H => H). Qed.

Lemma runs_throw {A} (e : Thrown) (w : W) (Φ : Outcome A -> _) :
  Φ (Threw e) w [] -> runs (throw e) w Φ.
Proof. exact (fun H => H). Qed.

Lemma runs_bind {A B} (m : Async W A) (k : A -> Async W B) (w : W) Φ :
  runs m w (fun o w' tr =>
              match o with
              | Returned a => runs (k a) w' (fun o' w'' tr' => Φ o' w'' (tr ++ tr'))
              | Threw e => Φ (Threw e) w' tr
              end) ->
  runs (m ≫= k) w Φ.
Proof.
  unfold runs, mbind, Async_bind, bind. simpl.
  destruct (out (m w)); simpl; auto.
Qed.

Lemma runs_tryCatch {A} (body : Async W A) (handler : Thrown -> Async W A)
  (w : W) Φ :
  runs body w (fun o w' tr =>
                 match o with
                 | Returned a => Φ (Returned a) w' tr
                 | Threw e =>
                     runs (handler e) w' (fun o' w'' tr' => Φ o' w'' (tr ++ tr'))
                 end) ->
  runs (tryCatch body handler) w Φ.
Proof.
  unfold runs, tryCatch.
  destruct (out (body w)) eqn:E; simpl; [rewrite E|]; auto.
Qed.

Lemma runs_perform {A} (ev : Outcome A -> Event) (f : W -> Outcome A * W)
  (w : W) Φ :
  (forall o w', f w = (o, w') -> Φ o w' [ev o]) -> runs (perform ev f) w Φ.
Proof.
  unfold runs, perform. intros H. destruct (f w) as [o w'] eqn:E. simpl.
  now apply H.
Qed.

Lemma runs_observe {A} (f : W -> A * W) (w : W) Φ :
  (forall a w', f w = (a, w') -> Φ (Returned a) w' []) -> runs (observe f) w Φ.
Proof.
  unfold runs, observe. intros H. destruct (f w) as [a w'] eqn:E. simpl.
  now apply H.
Qed.

Lemma runs_await `{!Postgrest W} (q : Query) (w : W) Φ :
  (forall o w', pgAwait q w = (o, w') ->
                Φ (settle (handed q) o) w' [EvQuery q o]) ->
  runs (await q) w Φ.
Proof.
  unfold runs, await. intros H. destruct (pgAwait q w) as [o w'] eqn:E. simpl.
  now apply H.
Qed.

Lemma runs_guarded `{!Postgrest W} {P} fallback (body : Async W (Reply P))
  (w : W) Φ :
  runs body w (fun o w' tr =>
                 match o with
                 | Returned a => Φ (Returned a) w' tr
                 | Threw e =>
                     Φ (Returned (mkReply None
                                    (Some (plainError (messageOr e fallback)))))
                       w' (tr ++ [])
                 end) ->
  runs (guarded fallback body) w Φ.
Proof. intros H. apply runs_tryCatch. exact H. Qed.

End Stepping.

(** Turn a goal about [out (m w)], [world (m w)] and [trace (m w)] into one
    about [runs m w]. *)
Ltac as_runs m w :=
  pattern (out (m w)), (world (m w)), (trace (m w));
  match goal with |- ?Φ _ _ _ => change (runs m w Φ) end.

(** One step of a run; a request is split into the ways it can settle. *)
Ltac step :=
  lazymatch goal with
  | |- runs (guarded _ _) _ _ => apply runs_guarded
  | |- runs (tryCatch _ _) _ _ => apply runs_tryCatch
  | |- runs (mbind _ _) _ _ => apply runs_bind
  | |- runs (mret _) _ _ => apply runs_ret
  | |- runs (throw _) _ _ => apply runs_throw
  | |- runs (await _) _ _ =>
      let o := fresh "o" in let w' := fresh "w" in let E := fresh "E" in
      apply runs_await; intros o w' E;
      destruct o as [[?rows ?count|?refused]|?exn];
      cbn [settle handed]; cbv beta iota
  | |- runs (awaitSingle _) _ _ =>
      let o := fresh "o" in let w' := fresh "w" in let E := fresh "E" in
      apply runs_perform; intros o w' E;
      destruct o as [[?row|?refused]|?exn]; cbv beta iota
  | |- runs now _ _ =>
      let t := fresh "t" in let w' := fresh "w" in let E := fresh "E" in
      apply runs_observe; intros t w' E; cbv beta iota
  end.

(** * Every data-access function resolves to a reply *)

Section Resolving.
Context {W : Type} `{!Postgrest W}.

Lemma ensures_ret {A} (a : A) (Q : A -> Prop) :
  Q a -> ensures (mret a : Async W A) Q.
Proof.
  intros H w. split; [constructor|].
  intros b E. injection E as <-. exact H.
Qed.

Lemma ensures_bind {A B} (m : Async W A) (k : A -> Async W B)
  (R : A -> Prop) (Q : B -> Prop) :
  ensures m R -> (forall a, R a -> ensures (k a) Q) -> ensures (m ≫= k) Q.
Proof.
  intros Hm Hk w. destruct (Hm w) as [Ht Hr].
  unfold mbind, Async_bind, bind, wellTraced in *. simpl.
  destruct (out (m w)) as [a|e] eqn:E; simpl.
  - destruct (Hk a (Hr a eq_refl) (world (m w))) as [Ht' Hr'].
    unfold wellTraced in Ht'.
    split; [|exact Hr'].
    destruct (out (k a (world (m w)))) as [b|e'].
    + apply Forall_app. now split.
    + destruct Ht' as (tr & ev & -> & Hf & He).
      exists (trace (m w) ++ tr), ev.
      split; [now rewrite <- app_assoc|]. split; [|exact He].
      apply Forall_app. now split.
  - split; [exact Ht | discriminate].
Qed.

Lemma ensures_weaken {A} (m : Async W A) (Q Q' : A -> Prop) :
  ensures m Q -> (forall a, Q a -> Q' a) -> ensures m Q'.
Proof. intros H HQ w. destruct (H w) as [Ht Hr]. split; auto. Qed.

Lemma ensures_await q : ensures (await q) (fun _ => True).
Proof.
  intros w. unfold await, wellTraced.
  destruct (pgAwait q w) as [[a|e] w']; simpl; split; auto.
  exists [], (EvQuery q (Threw e)). repeat split. constructor.
Qed.

Lemma ensures_awaitSingle q : ensures (awaitSingle q) (fun _ => True).
Proof.
  intros w. unfold awaitSingle, perform, wellTraced.
  destruct (pgSingle q w) as [[a|e] w']; simpl; split; auto.
  exists [], (EvSingle q (Threw e)). repeat split. constructor.
Qed.

Lemma ensures_now : ensures (now : Async W string) (fun _ => True).
Proof.
  intros w. unfold now, observe, wellTraced.
  destruct (isoNow w) as [t w']; simpl; split; auto.
Qed.

Lemma wellTraced_thrown {A} (r : Run W A) e ev e' :
  wellTraced r -> out r = Threw e -> ev ∈ trace r -> thrownBy ev = Some e' ->
  e' = e.
Proof.
  unfold wellTraced. intros Ht E Hin Hth. rewrite E in Ht.
  destruct Ht as (tr & last & Etr & Hf & He). rewrite Etr in Hin.
  apply elem_of_app in Hin as [Hin|Hin].
  - rewrite Forall_forall in Hf. rewrite (Hf ev Hin) in Hth. discriminate.
  - apply list_elem_of_singleton in Hin as ->. congruence.
Qed.

Lemma wellTraced_returned {A} (r : Run W A) a ev e :
  wellTraced r -> out r = Returned a -> ev ∈ trace r ->
  thrownBy ev = Some e -> False.
Proof.
  unfold wellTraced. intros Ht E Hin Hth. rewrite E in Ht.
  rewrite Forall_forall in Ht. rewrite (Ht ev Hin) in Hth. discriminate.
Qed.

(** The frame [try { ... } catch] of the services turns every exception
    into an error reply. *)
Lemma guarded_settles {P} fallback (body : Async W (Reply P)) :
  ensures body exactlyOne -> settles fallback (guarded fallback body).
Proof.
  intros H w. destruct (H w) as [Ht Hr].
  unfold guarded, tryCatch. destruct (out (body w)) as [r|e] eqn:E.
  - exists r. split; [exact E|]. split; [now apply Hr|].
    intros ev e Hin Hth. exfalso. eapply wellTraced_returned; eauto.
  - simpl. eexists. split; [reflexivity|]. split.
    + right. split; [reflexivity | eexists; reflexivity].
    + intros ev e' Hin Hth. rewrite app_nil_r in Hin.
      now rewrite (wellTraced_thrown _ _ _ _ Ht E Hin Hth).
Qed.

Lemma guardedDelete_settles fallback q :
  settlesDelete fallback
    (guardedDelete fallback
       (r ← await q;
        match r with
        | PgError error => mret (mkDeleteReply (Some (apiError error)))
        | PgData _ _ => mret (mkDeleteReply None)
        end)).
Proof.
  intros w.
  unfold guardedDelete, tryCatch, await, mbind, mret, Async_bind, Async_ret,
    bind, pure.
  cbn [out world trace].
  destruct (pgAwait q w) as [[[rows count|refused]|exn] w'];
    cbn [out world trace settle handed app];
    eexists; (split; [reflexivity|]); split.
  all: try (intros ev e Hin Hth; apply list_elem_of_singleton in Hin as ->;
            cbn in Hth; first [discriminate | now injection Hth as <-]).
  all: try (intros q' rows' count' E; first [reflexivity | discriminate]).
Qed.

End Resolving.

Section Settling.
Context {W : Type} `{!Postgrest W}.

Lemma ensures_await_data q :
  ensures (await q)
    (fun r => bodyless q = false -> forall d c, r = PgData d c -> is_Some d).
Proof.
  intros w. unfold await, wellTraced.
  destruct (pgAwait q w) as [[a|e] w']; simpl; split; auto.
  - intros r E Hb d c ->. injection E as E.
    destruct a; simpl in E; [|discriminate].
    injection E as <- _. rewrite Hb. eauto.
  - exists [], (EvQuery q (Threw e)). repeat split. constructor.
  - discriminate.
Qed.

Ltac carries :=
  first [ left; split; [eexists; reflexivity | reflexivity]
        | right; split; [reflexivity | eexists; reflexivity] ].

Ltac framed :=
  apply guarded_settles; cbv zeta;
  repeat first
    [ apply ensures_ret; carries
    | eapply ensures_bind;
      [ first [ apply ensures_await | apply ensures_awaitSingle
              | apply ensures_now | apply (ensures_ret _ (fun _ => True) I) ]
      | let r := fresh "r" in
        intros r _;
        match type of r with
        | PostgrestResponse => destruct r
        | PostgrestSingleResponse => destruct r
        | _ => idtac
        end; cbv beta iota ] ].

Lemma business_settles params id st :
  settles "Failed to fetch businesses" (BusinessService.getBusinesses params)
  /\ settles "Failed to fetch business" (BusinessService.getBusinessById id)
  /\ settles "Failed to update business status"
       (BusinessService.updateBusinessStatus id st)
  /\ settles "Failed to fetch business stats" BusinessService.getBusinessStats
  /\ settlesDelete "Failed to delete business" (BusinessService.deleteBusiness id).
Proof.
  repeat split; [framed..|apply guardedDelete_settles].
Qed.

Lemma service_settles params id st :
  settles "Failed to fetch services" (ServiceService.getServices params)
  /\ settles "Failed to fetch service" (ServiceService.getServiceById id)
  /\ settles "Failed to update service status"
       (ServiceService.updateServiceStatus id st)
  /\ settles "Failed to fetch service stats" ServiceService.getServiceStats
  /\ settlesDelete "Failed to delete service" (ServiceService.deleteService id).
Proof.
  repeat split; [framed..|apply guardedDelete_settles].
Qed.

Lemma company_settles params id st :
  settles "Failed to fetch companies" (CompanyService.getCompanies params)
  /\ settles "Failed to fetch company" (CompanyService.getCompanyById id)
  /\ settles "Failed to update company status"
       (CompanyService.updateCompanyStatus id st)
  /\ settles "Failed to fetch company stats" CompanyService.getCompanyStats
  /\ settlesDelete "Failed to delete company" (CompanyService.deleteCompany id).
Proof.
  repeat split; [framed|framed|destruct st; framed|framed
                |apply guardedDelete_settles].
Qed.

Lemma user_settles params id isActive :
  settles "Failed to fetch users" (UserService.getUsers params)
  /\ settles "Failed to fetch user" (UserService.getUserById id)
  /\ settles "Failed to update user status"
       (UserService.updateUserStatus id isActive)
  /\ settles "Failed to fetch user stats" UserService.getUserStats
  /\ settlesDelete "Failed to delete user" (UserService.deleteUser id).
Proof.
  repeat split; [framed..|apply guardedDelete_settles].
Qed.

Lemma transaction_settles params id dateFrom dateTo :
  settles "Failed to fetch transactions"
    (TransactionService.getTransactions params)
  /\ settles "Failed to fetch transaction"
       (TransactionService.getTransactionById id)
  /\ settles "Failed to fetch transaction stats"
       TransactionService.getTransactionStats
  /\ settles "Failed to fetch transactions"
       (TransactionService.getTransactionsByDateRange dateFrom dateTo)
  /\ settles "Failed to fetch revenue by provider"
       TransactionService.getRevenueByProvider.
Proof. repeat split; framed. Qed.

Lemma getLegalPages_settles filters :
  settles "Failed to fetch legal pages" (LegalPageService.getLegalPages filters).
Proof.
  apply guarded_settles. cbv zeta.
  eapply ensures_bind; [apply ensures_await_data|].
  intros r Hr. destruct r as [d c|e]; cbv beta iota; apply ensures_ret.
  - left. split; [|reflexivity]. apply Hr with (c := c); [|reflexivity].
    destruct filters as [[t|] [b|] s]; simpl; destruct (truthy s); reflexivity.
  - carries.
Qed.

Lemma legalPage_settles filters id slug created updated :
  settles "Failed to fetch legal pages" (LegalPageService.getLegalPages filters)
  /\ settles "Failed to fetch legal page" (LegalPageService.getLegalPageById id)
  /\ settles "Failed to fetch legal page"
       (LegalPageService.getLegalPageBySlug slug)
  /\ settles "Failed to create legal page"
       (LegalPageService.createLegalPage created)
  /\ settles "Failed to update legal page"
       (LegalPageService.updateLegalPage id updated)
  /\ settlesDelete "Failed to delete legal page"
       (LegalPageService.deleteLegalPage id).
Proof.
  repeat split;
    [ apply getLegalPages_settles | framed | framed | framed
    | unfold LegalPageService.updateLegalPage; destruct (truthy _); framed
    | apply guardedDelete_settles ].
Qed.

(** C6 (amended): every list, get-by-id, status-update, create, update,
    stats and revenue function of the six services resolves for every input and every
    behaviour of the store, its reply carries exactly one of a non-null
    payload and a non-null error, and a request that throws is answered by
    the error value whose message is the exception's message, or the
    function's fallback text when the thrown value is not an [Error]; every
    delete function resolves likewise to a reply that has an error field
    only, which is null when the store accepted the request. *)
Theorem services_settle
  (businesses : BusinessService.BusinessQueryParams)
  (services : ServiceService.ServiceQueryParams)
  (companies : CompanyService.CompanyQueryParams)
  (users : UserService.UserQueryParams)
  (transactions : TransactionService.TransactionQueryParams)
  (pages : LegalPageService.LegalPageFilters)
  (id slug dateFrom dateTo : string)
  (business : Status.BusinessStatus) (service : Status.ServiceStatus)
  (company : Status.CompanyStatus) (isActive : bool)
  (created : LegalPageService.CreateLegalPageInput)
  (updated : LegalPageService.UpdateLegalPageInput) :
  (settles "Failed to fetch businesses" (BusinessService.getBusinesses businesses)
   /\ settles "Failed to fetch business" (BusinessService.getBusinessById id)
   /\ settles "Failed to update business status"
        (BusinessService.updateBusinessStatus id business)
   /\ settles "Failed to fetch business stats" BusinessService.getBusinessStats
   /\ settlesDelete "Failed to delete business"
        (BusinessService.deleteBusiness id))
  /\ (settles "Failed to fetch services" (ServiceService.getServices services)
      /\ settles "Failed to fetch service" (ServiceService.getServiceById id)
      /\ settles "Failed to update service status"
           (ServiceService.updateServiceStatus id service)
      /\ settles "Failed to fetch service stats" ServiceService.getServiceStats
      /\ settlesDelete "Failed to delete service"
           (ServiceService.deleteService id))
  /\ (settles "Failed to fetch companies" (CompanyService.getCompanies companies)
      /\ settles "Failed to fetch company" (CompanyService.getCompanyById id)
      /\ settles "Failed to update company status"
           (CompanyService.updateCompanyStatus id company)
      /\ settles "Failed to fetch company stats" CompanyService.getCompanyStats
      /\ settlesDelete "Failed to delete company"
           (CompanyService.deleteCompany id))
  /\ (settles "Failed to fetch users" (UserService.getUsers users)
      /\ settles "Failed to fetch user" (UserService.getUserById id)
      /\ settles "Failed to update user status"
           (UserService.updateUserStatus id isActive)
      /\ settles "Failed to fetch user stats" UserService.getUserStats
      /\ settlesDelete "Failed to delete user" (UserService.deleteUser id))
  /\ (settles "Failed to fetch transactions"
        (TransactionService.getTransactions transactions)
      /\ settles "Failed to fetch transaction"
           (TransactionService.getTransactionById id)
      /\ settles "Failed to fetch transaction stats"
           TransactionService.getTransactionStats
      /\ settles "Failed to fetch transactions"
           (TransactionService.getTransactionsByDateRange dateFrom dateTo)
      /\ settles "Failed to fetch revenue by provider"
           TransactionService.getRevenueByProvider)
  /\ (settles "Failed to fetch legal pages"
        (LegalPageService.getLegalPages pages)
      /\ settles "Failed to fetch legal page"
           (LegalPageService.getLegalPageById id)
      /\ settles "Failed to fetch legal page"
           (LegalPageService.getLegalPageBySlug slug)
      /\ settles "Failed to create legal page"
           (LegalPageService.createLegalPage created)
      /\ settles "Failed to update legal page"
           (LegalPageService.updateLegalPage id updated)
      /\ settlesDelete "Failed to delete legal page"
           (LegalPageService.deleteLegalPage id)).
Proof.
  split; [apply business_settles|].
  split; [apply service_settles|].
  split; [apply company_settles|].
  split; [apply user_settles|].
  split; [apply transaction_settles|].
  apply legalPage_settles.
Qed.

End Settling.

(** C6 (as stated, refuted): on a store that accepts the request,
    [deleteBusiness] resolves to [{ error: null }]: the reply carries neither
    a payload nor an error. *)
Lemma delete_reply_carries_neither :
  let run := @BusinessService.deleteBusiness Store.Db
               (@Store.postgrest Store.plain) "b1" Examples.shop in
  out run = Returned (mkDeleteReply None)
  /\ Store.rowsOf "businesses" (world run) = []
  /\ ~ (exists reply, out run = Returned reply /\ is_Some (deleteError reply)).
Proof.
  vm_compute. repeat split.
  intros (reply & E & e & He). injection E as <-. discriminate.
Qed.

(** * Stats by repeated count queries *)

Section Tallying.
Context {W : Type} `{!Postgrest W}.

Ltac tally :=
  repeat step;
  (eexists; split; [reflexivity|]);
  cbn [dialogue omap list_omap length take last mbind option_bind List.map
       countOf failureOf snd fst error payload Nat.sub app default nullish];
  (split; [reflexivity|]);
  (split; [eexists; reflexivity|]);
  (split; [repeat constructor; eexists; reflexivity|]);
  (split; [reflexivity|]);
  first [ reflexivity
        | split; [reflexivity|eexists; split; reflexivity] ].

Lemma business_tallies :
  tallies BusinessService.statsQueries
    [BusinessService.total; BusinessService.active; BusinessService.pending;
     BusinessService.suspended; BusinessService.rejected]
    "Failed to fetch business stats" BusinessService.getBusinessStats.
Proof.
  intros w. as_runs (@BusinessService.getBusinessStats W _) w.
  unfold BusinessService.getBusinessStats. tally.
Qed.

Lemma service_tallies :
  tallies ServiceService.statsQueries
    [ServiceService.total; ServiceService.active; ServiceService.pending;
     ServiceService.suspended; ServiceService.rejected;
     ServiceService.requestDeletion]
    "Failed to fetch service stats" ServiceService.getServiceStats.
Proof.
  intros w. as_runs (@ServiceService.getServiceStats W _) w.
  unfold ServiceService.getServiceStats. tally.
Qed.

Lemma company_tallies :
  tallies CompanyService.statsQueries
    [CompanyService.total; CompanyService.pending; CompanyService.approved;
     CompanyService.rejected; CompanyService.suspended]
    "Failed to fetch company stats" CompanyService.getCompanyStats.
Proof.
  intros w. as_runs (@CompanyService.getCompanyStats W _) w.
  unfold CompanyService.getCompanyStats. tally.
Qed.

Lemma user_tallies :
  tallies UserService.statsQueries
    [UserService.total; UserService.active; UserService.customers;
     UserService.providers; UserService.admins]
    "Failed to fetch user stats" UserService.getUserStats.
Proof.
  intros w. as_runs (@UserService.getUserStats W _) w.
  unfold UserService.getUserStats. tally.
Qed.

Lemma transaction_tallies :
  tallies TransactionService.statsQueries
    [TransactionService.total; TransactionService.pending;
     TransactionService.completed; TransactionService.failed;
     TransactionService.refunded]
    "Failed to fetch transaction stats" TransactionService.getTransactionStats.
Proof.
  intros w. as_runs (@TransactionService.getTransactionStats W _) w.
  unfold TransactionService.getTransactionStats. tally.
Qed.

(** C8 (amended): each stats operation asks one count query for the total
    and then one count query for each status its stats record reports
    (business: active, pending, suspended, rejected; service: these and
    requestDeletion; company: pending, approved, rejected, suspended;
    transaction: pending, completed, failed, refunded, followed by one query
    for the amounts of the completed payments; user: the active flag and the
    three user types), in this order and nothing else; it stops at the first
    query that fails and returns null stats with that query's error;
    otherwise it returns the counts, 0 where the store reports none. *)
Theorem stats_tally :
  tallies
    [ countAll "businesses"; countStatus "businesses" "active";
      countStatus "businesses" "pending"; countStatus "businesses" "suspended";
      countStatus "businesses" "rejected" ]
    [BusinessService.total; BusinessService.active; BusinessService.pending;
     BusinessService.suspended; BusinessService.rejected]
    "Failed to fetch business stats" BusinessService.getBusinessStats
  /\ tallies
       [ countAll "services"; countStatus "services" "active";
         countStatus "services" "pending"; countStatus "services" "suspended";
         countStatus "services" "rejected";
         countStatus "services" "requestDeletion" ]
       [ServiceService.total; ServiceService.active; ServiceService.pending;
        ServiceService.suspended; ServiceService.rejected;
        ServiceService.requestDeletion]
       "Failed to fetch service stats" ServiceService.getServiceStats
  /\ tallies
       [ countAll "companies"; countStatus "companies" "pending";
         countStatus "companies" "approved"; countStatus "companies" "rejected";
         countStatus "companies" "suspended" ]
       [CompanyService.total; CompanyService.pending; CompanyService.approved;
        CompanyService.rejected; CompanyService.suspended]
       "Failed to fetch company stats" CompanyService.getCompanyStats
  /\ tallies
       [ countAll "payments"; countStatus "payments" "pending";
         countStatus "payments" "completed"; countStatus "payments" "failed";
         countStatus "payments" "refunded"; TransactionService.revenueQuery ]
       [TransactionService.total; TransactionService.pending;
        TransactionService.completed; TransactionService.failed;
        TransactionService.refunded]
       "Failed to fetch transaction stats"
       TransactionService.getTransactionStats
  /\ tallies
       [ countAll "users";
         Builder.eq "is_active" (VBool true) (countAll "users");
         Builder.eq "user_type" (VStr "customer") (countAll "users");
         Builder.eq "user_type" (VStr "provider") (countAll "users");
         Builder.eq "user_type" (VStr "admin") (countAll "users") ]
       [UserService.total; UserService.active; UserService.customers;
        UserService.providers; UserService.admins]
       "Failed to fetch user stats" UserService.getUserStats.
Proof.
  split; [exact business_tallies|].
  split; [exact service_tallies|].
  split; [exact company_tallies|].
  split; [exact transaction_tallies|].
  exact user_tallies.
Qed.

End Tallying.

(** C8 (as stated, refuted): 'removed' and 'deleted' are Business statuses,
    and on a store that answers every query [getBusinessStats] returns its
    stats without having asked for the count of either. *)
Lemma business_stats_skip_statuses :
  let run := BusinessService.getBusinessStats Examples.agreeable in
  let asked := List.map fst (dialogue (trace run)) in
  (exists stats, out run = Returned (mkReply (Some stats) None))
  /\ length asked = 5%nat
  /\ Status.isBusinessStatus "removed"
  /\ Status.isBusinessStatus "deleted"
  /\ (countStatus "businesses" "removed" ∉ asked)
  /\ (countStatus "businesses" "deleted" ∉ asked).
Proof.
  cbv zeta.
  split; [eexists; vm_compute; reflexivity|].
  split; [vm_compute; reflexivity|].
  split; [now exists Status.BRemoved|].
  split; [now exists Status.BDeleted|].
  split; intros H; vm_compute in H;
    repeat (apply elem_of_cons in H as [H|H]; [discriminate|]);
    now apply elem_of_nil in H.
Qed.

(** * Offset and limit of the list operations *)

Section Paginating.
Context {W : Type} `{!Postgrest W}.

Ltac filtered :=
  repeat match goal with
         | |- context [match ?x with _ => _ end] =>
             lazymatch x with
             | bodyless _ => fail
             | _ => destruct x
             end
         end.

Ltac paginated :=
  cbv zeta;
  repeat step;
  (eexists _, _, _; split; [reflexivity|]; split; [reflexivity|];
   split; [eexists; filtered; reflexivity|]; split; [reflexivity|]);
  (split;
   [ intros result Epayload; cbn [payload] in Epayload;
     first [discriminate Epayload | now eexists _, _]
   | intros rows0 count0 Eo;
     first
       [ discriminate Eo
       | injection Eo as <- <-;
         eexists; (split; [reflexivity|]);
         cbn [pgRows pgTotal pgTotalPages pgPage pgPageSize];
         (split; [filtered; reflexivity|]); (split; [reflexivity|]);
         (split; [reflexivity|]); (split; [apply ceil_div_spec; lia|]);
         split; reflexivity ] ]).

Lemma getBusinesses_paginates params :
  1 <= nullish (pageSize (BusinessService.paging params)) 10 ->
  paginates (BusinessService.paging params) 10
    (BusinessService.getBusinesses params).
Proof.
  intros Hsize w. as_runs (BusinessService.getBusinesses params) w.
  unfold BusinessService.getBusinesses. paginated.
Qed.

Lemma getServices_paginates params :
  1 <= nullish (pageSize (ServiceService.paging params)) 10 ->
  paginates (ServiceService.paging params) 10
    (ServiceService.getServices params).
Proof.
  intros Hsize w. as_runs (ServiceService.getServices params) w.
  unfold ServiceService.getServices. paginated.
Qed.

Lemma getCompanies_paginates params :
  1 <= nullish (pageSize (CompanyService.paging params)) 10 ->
  paginates (CompanyService.paging params) 10
    (CompanyService.getCompanies params).
Proof.
  intros Hsize w. as_runs (CompanyService.getCompanies params) w.
  unfold CompanyService.getCompanies. paginated.
Qed.

Lemma getUsers_paginates params :
  1 <= nullish (pageSize (UserService.paging params)) 10 ->
  paginates (UserService.paging params) 10 (UserService.getUsers params).
Proof.
  intros Hsize w. as_runs (UserService.getUsers params) w.
  unfold UserService.getUsers. paginated.
Qed.

Lemma getTransactions_paginates params :
  1 <= nullish (pageSize (TransactionService.paging params)) 10 ->
  paginates (TransactionService.paging params) 10
    (TransactionService.getTransactions params).
Proof.
  intros Hsize w. as_runs (TransactionService.getTransactions params) w.
  unfold TransactionService.getTransactions. paginated.
Qed.

(** C4: for every page [>= 1] and page size [>= 1] (1 and 10 when omitted),
    [getBusinesses], [getServices] and [getTransactions], and [getCompanies]
    and [getUsers] as well, make one request, a select with [count: 'exact']
    for the rows [(page - 1) * pageSize] to
    [(page - 1) * pageSize + pageSize - 1]; to an answer with rows they reply
    with those rows and no error and report
    [totalPages = ceil(total / pageSize)], where [total] is the count of the
    store's answer, 0 when the count is absent; to any other answer they
    reply without a payload. *)
Theorem lists_paginate (paging : Paging)
  (businesses : BusinessService.BusinessFilters)
  (services : ServiceService.ServiceFilters)
  (transactions : TransactionService.TransactionFilters)
  (companies : CompanyService.CompanyFilters)
  (users : UserService.UserFilters) :
  1 <= nullish (page paging) 1 ->
  1 <= nullish (pageSize paging) 10 ->
  paginates paging 10
    (BusinessService.getBusinesses
       {| BusinessService.filter := businesses;
          BusinessService.paging := paging |})
  /\ paginates paging 10
       (ServiceService.getServices
          {| ServiceService.filter := services;
             ServiceService.paging := paging |})
  /\ paginates paging 10
       (TransactionService.getTransactions
          {| TransactionService.filter := transactions;
             TransactionService.paging := paging |})
  /\ paginates paging 10
       (CompanyService.getCompanies
          {| CompanyService.filter := companies;
             CompanyService.paging := paging |})
  /\ paginates paging 10
       (UserService.getUsers
          {| UserService.filter := users; UserService.paging := paging |}).
Proof.
  intros _ Hsize.
  split; [now apply getBusinesses_paginates|].
  split; [now apply getServices_paginates|].
  split; [now apply getTransactions_paginates|].
  split; [now apply getCompanies_paginates|].
  now apply getUsers_paginates.
Qed.

End Paginating.

(** The theorem for page 3 of size 20, against the scripted store. *)
Lemma lists_paginate_witness :
  paginates Examples.thirdPage 10
    (BusinessService.getBusinesses (W := Scripted.Script)
       {| BusinessService.filter := Examples.anyBusiness;
          BusinessService.paging := Examples.thirdPage |})
  /\ paginates Examples.thirdPage 10
       (ServiceService.getServices (W := Scripted.Script)
          {| ServiceService.filter := Examples.anyService;
             ServiceService.paging := Examples.thirdPage |})
  /\ paginates Examples.thirdPage 10
       (TransactionService.getTransactions (W := Scripted.Script)
          {| TransactionService.filter := Examples.anyTransaction;
             TransactionService.paging := Examples.thirdPage |})
  /\ paginates Examples.thirdPage 10
       (CompanyService.getCompanies (W := Scripted.Script)
          {| CompanyService.filter := Examples.anyCompany;
             CompanyService.paging := Examples.thirdPage |})
  /\ paginates Examples.thirdPage 10
       (UserService.getUsers (W := Scripted.Script)
          {| UserService.filter := Examples.anyUser;
             UserService.paging := Examples.thirdPage |}).
Proof.
  apply lists_paginate; simpl; lia.
Defined.

Example third_page_window :
  exists q o,
    trace (BusinessService.getBusinesses
             {| BusinessService.filter := Examples.anyBusiness;
                BusinessService.paging := Examples.thirdPage |}
             Examples.agreeable) = [EvQuery q o]
    /\ window q = Some (40, 59).
Proof. eexists _, _. split; vm_compute; reflexivity. Qed.

(** * The admin gate of login *)

Section Gate.
Context {W : Type} `{!Postgrest W} `{!Auth W} `{!Timers W}.
Import AuthService.

Ltac refused :=
  cbn [app]; eexists; split; [reflexivity|];
  split; [discriminate|];
  let Etr := fresh "Etr" in intros ? ? ? ? Etr; discriminate.

(** X30: [login] never rejects; it returns a non-null user only when
    the sign-in succeeded and the profile fetched for the signed-in id has
    [user_type = 'admin'], and that user is the fetched profile; when the
    fetched profile's [user_type] is not ['admin'] it calls [signOut] and
    returns a null user and a null session, with the error message 'Access
    denied. Admin privileges required.' whenever the [signOut] call
    returns. *)
Theorem login_gated (email password : string) (w : W) :
  let run := login email password w in
  exists reply,
    out run = Returned reply
    /\ (forall u, user reply = Some u ->
          u !! "user_type" = Some (VStr "admin")
          /\ exists authData uid,
               trace run = [ EvSignIn email password (Returned authData);
                             EvSingle (profileQuery uid) (Returned (SingleData u)) ]
               /\ authUser authData = Some {| authId := uid |})
    /\ (forall authData uid u tr,
          trace run = EvSignIn email password (Returned authData)
                      :: EvSingle (profileQuery uid) (Returned (SingleData u))
                      :: tr ->
          u !! "user_type" <> Some (VStr "admin") ->
          user reply = None /\ session reply = None
          /\ exists o, tr = [EvSignOut o]
             /\ forall e, o = Returned e ->
                  sessionError reply = Some (plainError accessDenied)).
Proof.
  cbv zeta. as_runs (login email password) w. unfold login, signOut.
  step. step. apply runs_perform. intros [authData|exn] w1 E1; cbv beta iota.
  2:{ step. refused. }
  destruct (authError authData) as [authError|] eqn:Eerr; [step; refused|].
  destruct (authUser authData) as [[uid]|] eqn:Euser; [|step; refused].
  step. step; cbn [authId].
  - destruct (decide (row !! "user_type" = Some (VStr "admin"))) as [Hadmin|Hnot].
    + rewrite bool_decide_eq_false_2 by (intros Hne; now apply Hne).
      step. cbn [app]. eexists. split; [reflexivity|]. split.
      * intros u Hu. injection Hu as <-. split; [exact Hadmin|].
        eexists _, _. split; [reflexivity | exact Euser].
      * intros authData0 uid0 u tr Etr Hne. injection Etr as _ _ <- _.
        contradiction.
    + rewrite bool_decide_eq_true_2 by exact Hnot.
      step. apply runs_perform. intros [e|exn] w2 E2; cbv beta iota.
      * step. cbn [app]. eexists. split; [reflexivity|].
        split; [discriminate|].
        intros authData0 uid0 u tr Etr Hne. injection Etr as _ _ _ <-.
        repeat split. eexists. split; reflexivity.
      * step. cbn [app]. eexists. split; [reflexivity|].
        split; [discriminate|].
        intros authData0 uid0 u tr Etr Hne. injection Etr as _ _ _ <-.
        repeat split. eexists. split; [reflexivity | discriminate].
  - step. apply runs_perform. intros [e|exn'] w2 E2; cbv beta iota;
      step; refused.
  - step. refused.
Qed.

Lemma runs_withTimeout {A} (thenable : Async W A) (ms : Z) (w : W) Φ :
  runs thenable w
    (fun o w' tr =>
       Φ o w' tr
       /\ Φ (Threw (ErrorObject ("Operation timed out after "
                                  +:+ pretty ms +:+ "ms"))) w' tr) ->
  runs (withTimeout thenable ms) w Φ.
Proof.
  unfold runs, withTimeout. intros [Hr Ht]. now destruct (firesFirst ms w).
Qed.

Ltac no_user :=
  cbv beta iota; try step; eexists; split; [reflexivity|]; discriminate.

(** The session check that guards the pages: a non-null user is a profile
    whose [user_type] is ['admin']. *)
Lemma getCurrentUser_gated (w : W) :
  let run := getCurrentUser w in
  exists reply,
    out run = Returned reply
    /\ forall u, payload reply = Some u ->
         u !! "user_type" = Some (VStr "admin") /\ error reply = None.
Proof.
  cbv zeta. as_runs getCurrentUser w. unfold getCurrentUser.
  step. step. apply runs_withTimeout, runs_perform.
  intros [sessionResult|exn] w1 E1; (split; [|no_user]); [|no_user].
  cbv beta iota.
  destruct (sessionFailure sessionResult); [no_user|].
  destruct (currentSession sessionResult); [|no_user].
  step. apply runs_withTimeout, runs_perform.
  intros [userResult|exn] w2 E2; (split; [|no_user]); [|no_user].
  cbv beta iota.
  destruct (userFailure userResult); [no_user|].
  destruct (currentUser userResult) as [[uid]|]; [|no_user].
  step. apply runs_withTimeout, runs_perform.
  intros [[row|refused]|exn] w3 E3; (split; [|no_user]);
    [|no_user|no_user].
  cbv beta iota.
  destruct (decide (row !! "user_type" = Some (VStr "admin"))) as [Hadmin|Hnot].
  - rewrite bool_decide_eq_false_2 by (intros Hne; now apply Hne).
    step. eexists. split; [reflexivity|]. intros u [= <-]. now split.
  - rewrite bool_decide_eq_true_2 by exact Hnot. no_user.
Qed.
(** [register] asks for the sign-up and for the insert of the profile, and
    for nothing else, whoever calls it. *)
Lemma register_asks (input : CreateUserInput) (w : W) :
  let run := register input w in
  exists reply,
    out run = Returned reply
    /\ Forall (fun ev =>
                 match ev with
                 | EvSignUp _ _ _ _ => True
                 | EvSingle q _ =>
                     exists id, verb q = Insert (profileOf id input)
                 | _ => False
                 end) (trace run).
Proof.
  cbv zeta. as_runs (register input) w. unfold register. cbv zeta.
  step. step. apply runs_perform. intros [authData|exn] w1 E1; cbv beta iota.
  2:{ eexists. split; [reflexivity|]. repeat constructor. }
  destruct (authError authData) as [authError|];
    [step; eexists; split; [reflexivity|]; repeat constructor|].
  destruct (authUser authData) as [[uid]|];
    [|step; eexists; split; [reflexivity|]; repeat constructor].
  step. step; try step; (eexists; split; [reflexivity|]);
    repeat constructor; now exists uid.
Qed.

End Gate.

(** C1: [register], called while nobody is signed in, succeeds: it asks for
    the sign-up and for the insert of the profile and for nothing else, so
    reads no session and no [user_type], and returns the created profile,
    whose [user_type] is ['customer'], with a null error. *)
Lemma register_without_admin :
  let created := AuthService.profileOf "u9" Examples.eve in
  let metadata : Row :=
    <["full_name" := VStr "Eve"]> (<["user_type" := VStr "customer"]> ∅) in
  let run := AuthService.register Examples.eve Examples.openDoor in
  out run = Returned (mkReply (Some created) None)
  /\ created !! "user_type" = Some (VStr "customer")
  /\ trace run =
       [ EvSignUp "eve@example.com" "Passw0rd" metadata
           (Scripted.onSignUp Examples.openDoor);
         EvSingle
           (Builder.select "*" (Builder.from "users" (Insert created)))
           (Returned (SingleData created)) ].
Proof.
  cbv zeta. repeat split; vm_compute; reflexivity.
Qed.

(** When the sign-out request fails in transit, [login] of a non-admin
    returns that failure's message and not 'Access denied. Admin privileges
    required.'. *)
Example login_sign_out_thrown :
  let run := AuthService.login "eve@example.com" "Passw0rd" Examples.stormy in
  out run = Returned (AuthService.denied (plainError "Failed to fetch"))
  /\ plainError "Failed to fetch" <> plainError AuthService.accessDenied.
Proof.
  cbv zeta. split; [vm_compute; reflexivity | discriminate].
Qed.

(** * The retry helper *)

Section Retrying.
Context {W : Type} `{!Timers W} {T : Type}.
Import ErrorHandler.

Lemma retryFrom_spec (operation : Async W T) (maxRetries delay : Z)
  (backoff : bool) (fuel : nat) :
  forall (attempt : Z) (lastError : Thrown) (w : W),
    0 <= attempt <= maxRetries ->
    Z.of_nat fuel = maxRetries + 1 - attempt ->
    let run := retryFrom operation maxRetries delay backoff fuel attempt
                 lastError w in
    exists errors tr w',
      failing operation (waitTime delay backoff) attempt w errors tr w'
      /\ attempt + Z.of_nat (length errors) <= maxRetries
      /\ trace run = tr ++ trace (operation w')
      /\ world run = world (operation w')
      /\ match out (operation w') with
         | Returned v => out run = Returned v
         | Threw e =>
             attempt + Z.of_nat (length errors) = maxRetries
             /\ out run = Threw (asError e)
         end.
Proof.
  induction fuel as [|fuel IH]; intros attempt lastError w Hattempt Hfuel;
    [lia|].
  cbn [retryFrom]. destruct (Z.leb_spec attempt maxRetries) as [_|]; [|lia].
  unfold tryCatch. destruct (out (operation w)) as [v|e] eqn:Eop.
  - exists [], [], w. cbn. rewrite Eop. repeat split; lia.
  - destruct (Z.eqb_spec attempt maxRetries) as [->|Hne].
    + exists [], [], w. cbn. rewrite Eop, app_nil_r. repeat split; lia.
    + destruct (IH (attempt + 1) (asError e)
                  (elapse (waitTime delay backoff attempt)
                     (world (operation w))))
        as (errors & tr & w' & Hfail & Hlen & Htr & Hw & Hout); [lia..|].
      exists (e :: errors),
        (trace (operation w)
         ++ EvTimeout (waitTime delay backoff attempt) :: tr), w'.
      split; [cbn; split; [exact Eop|]; exists tr; split; [reflexivity|exact Hfail]|].
      split; [cbn [length]; lia|].
      unfold mbind, Async_bind, bind, sleep. cbn [out world trace].
      rewrite Htr, Hw. split; [now rewrite <- !app_assoc|].
      split; [reflexivity|].
      destruct (out (operation w')); [exact Hout|].
      split; [cbn [length]; lia | apply Hout].
Qed.

(** C7 (amended): for [maxRetries >= 0], [retryOperation] invokes the
    operation at most [maxRetries + 1] times: the invocations before the last
    all threw, each followed by the wait of its attempt, [delay * 2^k] after
    attempt [k] (counted from 0) when [backoff] is true and [delay]
    otherwise; if the last invocation returns, its result is returned; if it
    throws, then [maxRetries + 1] invocations were made and what is thrown is
    its error when that is an [Error] and a new [Error('Unknown error')]
    otherwise. *)
Theorem retryOperation_spec (operation : Async W T) (maxRetries delay : Z)
  (backoff : bool) (w : W) :
  0 <= maxRetries ->
  let run := retryOperation operation maxRetries delay backoff w in
  let wait k := if backoff then delay * 2 ^ k else delay in
  exists errors tr w',
    failing operation wait 0 w errors tr w'
    /\ Z.of_nat (length errors) + 1 <= maxRetries + 1
    /\ trace run = tr ++ trace (operation w')
    /\ world run = world (operation w')
    /\ match out (operation w') with
       | Returned v => out run = Returned v
       | Threw e =>
           Z.of_nat (length errors) + 1 = maxRetries + 1
           /\ out run = Threw (match e with
                               | ErrorObject m => ErrorObject m
                               | NonError _ => ErrorObject "Unknown error"
                               end)
       end.
Proof.
  intros Hmax. cbv zeta. unfold retryOperation.
  destruct (retryFrom_spec operation maxRetries delay backoff
              (Z.to_nat (maxRetries + 1)) 0 (NonError "undefined") w)
    as (errors & tr & w' & Hfail & Hlen & Htr & Hw & Hout); [lia..|].
  exists errors, tr, w'.
  split; [exact Hfail|]. split; [lia|]. split; [exact Htr|].
  split; [exact Hw|].
  destruct (out (operation w')); [exact Hout|].
  split; [lia | apply Hout].
Qed.

End Retrying.

(** The theorem for two retries of an operation that always throws. *)
Lemma retryOperation_spec_witness :
  let operation := Examples.alwaysThrows in
  let run := ErrorHandler.retryOperation operation 2 1000 true
               Examples.agreeable in
  let wait k := if true then 1000 * 2 ^ k else 1000 in
  exists errors tr w',
    ErrorHandler.failing operation wait 0 Examples.agreeable errors tr w'
    /\ Z.of_nat (length errors) + 1 <= 2 + 1
    /\ trace run = tr ++ trace (operation w')
    /\ world run = world (operation w')
    /\ match out (operation w') with
       | Returned v => out run = Returned v
       | Threw e =>
           Z.of_nat (length errors) + 1 = 2 + 1
           /\ out run = Threw (match e with
                               | ErrorObject m => ErrorObject m
                               | NonError _ => ErrorObject "Unknown error"
                               end)
       end.
Proof.
  exact (retryOperation_spec Examples.alwaysThrows 2 1000 true
           Examples.agreeable ltac:(lia)).
Defined.

(** C7 (as stated, refuted): every invocation throws the value "boom", which
    is not an [Error]; what [retryOperation] throws is not that value but a
    new [Error('Unknown error')]; the waits are 1000 and 2000.  (With a
    negative [maxRetries] the loop is not entered and the unassigned
    [lastError] is thrown.) *)
Lemma retry_replaces_thrown_value :
  let run := ErrorHandler.retryOperation Examples.alwaysThrows 2 1000 true
               Examples.agreeable in
  let none := ErrorHandler.retryOperation Examples.alwaysThrows (-2) 1000 true
                Examples.agreeable in
  out (Examples.alwaysThrows Examples.agreeable) = Threw (NonError "boom")
  /\ out run = Threw (ErrorObject "Unknown error")
  /\ out run <> Threw (NonError "boom")
  /\ trace run = [EvTimeout 1000; EvTimeout 2000]
  /\ out none = Threw (NonError "undefined").
Proof.
  cbv zeta. repeat split; try (vm_compute; reflexivity).
  vm_compute. discriminate.
Qed.

Example retry_returns_first_success :
  let run := ErrorHandler.retryOperation (mret 5 : Async Scripted.Script Z)
               3 1000 true Examples.agreeable in
  out run = Returned 5 /\ trace run = [].
Proof. split; vm_compute; reflexivity. Qed.

(** * Mutations on the store *)

Section StoreFacts.
Context `{!Store.Behaviour}.
Import Store.

Lemma onlyChanges_refl t id columns db : onlyChanges t id columns db db.
Proof.
  split; [reflexivity|]. apply Forall2_same_length_lookup. split; [reflexivity|].
  intros i r r' Hr Hr'. left. congruence.
Qed.

Lemma rowsOf_withTable db t rows : rowsOf t (withTable db t rows) = rows.
Proof. unfold rowsOf, withTable. simpl. now rewrite lookup_insert_eq. Qed.

Lemma selected_by_id t v id r :
  selected (Builder.eq "id" (VStr id) (Builder.from t v)) r = true ->
  r !! "id" = Some (VStr id).
Proof.
  unfold selected. cbn. rewrite andb_true_r.
  intros [_ Hid%bool_decide_eq_true]%andb_true_iff. exact Hid.
Qed.

Lemma id_selected t v id r :
  r !! "id" = Some (VStr id) ->
  selected (Builder.eq "id" (VStr id) (Builder.from t v)) r = true.
Proof.
  intros Hid. unfold selected. cbn. rewrite andb_true_r.
  apply andb_true_iff. split; apply bool_decide_eq_true; [discriminate|exact Hid].
Qed.

(** An update of the rows with a given id, through [.single()]. *)
Lemma single_update t id values columns ret db :
  (forall c : string, c ∉ columns -> values !! c = None) ->
  values !! "id" = None ->
  let q := Builder.select ret
             (Builder.eq "id" (VStr id) (Builder.from t (Update values))) in
  onlyChanges t id columns db (single q db).2
  /\ forall row, (single q db).1 = Returned (SingleData row) ->
                 writes t id values (single q db).2.
Proof.
  intros Hcols Hid q. unfold single.
  change (isSelect q) with false. change (table q) with t. cbv iota.
  unfold effect. change (verb q) with (Update values). cbv iota beta.
  change (selected q) with
    (selected (Builder.eq "id" (VStr id) (Builder.from t (Update values)))).
  set (sel := selected _).
  destruct (integrity t _) as [e|]; cbn [fst snd].
  { split. { apply onlyChanges_refl. } intros row E. discriminate E. }
  destruct (List.map _ (List.filter sel (rowsOf t db))) as [|r [|r2 rest]];
    cbn [fst snd];
    [split; [apply onlyChanges_refl | intros ? E; discriminate E]| |
     split; [apply onlyChanges_refl | intros ? E; discriminate E]].
  split.
  - split.
    + intros t' Hne. unfold withTable. simpl. now rewrite lookup_insert_ne.
    + rewrite rowsOf_withTable. apply Forall2_fmap_r, Forall_Forall2_diag.
      apply Forall_forall. intros r0 _. cbv beta.
      unfold compose. destruct (sel r0) eqn:Hsel; [right|now left].
      split; [now apply selected_by_id in Hsel|].
      intros c Hc. rewrite lookup_union_r; [reflexivity | now apply Hcols].
  - intros row _ r' Hin Hr' c v Hv. rewrite rowsOf_withTable in Hin.
    apply list_elem_of_fmap in Hin as (r0 & -> & Hin).
    destruct (sel r0) eqn:Hsel.
    + now apply lookup_union_Some_l.
    + exfalso. unfold sel in Hsel. rewrite id_selected in Hsel; congruence.
Qed.

Ltac absent_column Hc :=
  repeat (rewrite lookup_insert_ne by (intros <-; apply Hc; set_solver));
  apply lookup_empty.

Lemma service_touched st t c :
  c ∉ ServiceService.touched st -> ServiceService.statusUpdate st t !! c = None.
Proof. intros Hc. destruct st; cbn in *; absent_column Hc. Qed.

Lemma company_touched st t t' c :
  c ∉ CompanyService.touched st ->
  CompanyService.statusUpdate st t t' !! c = None.
Proof. intros Hc. destruct st; cbn in *; absent_column Hc. Qed.

Lemma finish_update t id values columns ret fallback db o w' :
  (forall c : string, c ∉ columns -> values !! c = None) ->
  values !! "id" = None ->
  single (Builder.select ret
            (Builder.eq "id" (VStr id) (Builder.from t (Update values)))) db
  = (o, w') ->
  match o with
  | Returned a =>
      runs
        match a with
        | SingleData data => mret (mkReply (Some data) None)
        | SingleError error => mret (mkReply None (Some (apiError error)))
        end w'
        (fun o' w'' _ =>
           match o' with
           | Returned a0 =>
               onlyChanges t id columns db w''
               /\ forall (reply : Reply Row) (row : Row),
                    Returned a0 = Returned reply ->
                    payload reply = Some row -> writes t id values w''
           | Threw e =>
               onlyChanges t id columns db w''
               /\ forall (reply : Reply Row) (row : Row),
                    Returned (mkReply None
                                (Some (plainError (messageOr e fallback))))
                    = Returned reply ->
                    payload reply = Some row -> writes t id values w''
           end)
  | Threw e =>
      onlyChanges t id columns db w'
      /\ forall (reply : Reply Row) (row : Row),
           Returned (mkReply None (Some (plainError (messageOr e fallback))))
           = Returned reply ->
           payload reply = Some row -> writes t id values w'
  end.
Proof.
  intros Hcols Hid E.
  destruct (single_update t id values columns ret db Hcols Hid) as [Hf Hw].
  rewrite E in Hf, Hw. cbn [fst snd] in Hf, Hw.
  destruct o as [[row|refused]|exn]; [step|step|];
    (split; [exact Hf|]); intros reply row' [= <-] Hp; cbn in Hp;
    try discriminate.
  now apply (Hw row).
Qed.

Ltac on_store E :=
  cbn [isoNow pgSingle pgAwait postgrest] in E.

(** C2 (amended): on the store, for every id and status, each status
    update changes nothing but columns of the rows of its table whose id is
    the given one, and of these only [status] and [updated_at], and
    moreover: for [updateServiceStatus], [is_active] when the status is
    active, suspended, rejected or deleted; for [updateCompanyStatus],
    [approved_at] and [is_verified] when the status is approved and
    [is_verified] when it is rejected or suspended.  When the update
    succeeds, the targeted row holds the values of the update. *)
Theorem status_updates_frame (db : Db) (id : string)
  (business : Status.BusinessStatus) (service : Status.ServiceStatus)
  (company : Status.CompanyStatus) :
  (let run := BusinessService.updateBusinessStatus id business db in
   let values : Row :=
     <["status" := VStr (Status.business_literal business)]>
       (<["updated_at" := VStr (clock db)]> ∅) in
   onlyChanges "businesses" id ["status"; "updated_at"] db (world run)
   /\ forall reply row,
        out run = Returned reply -> payload reply = Some row ->
        writes "businesses" id values (world run))
  /\ (let run := ServiceService.updateServiceStatus id service db in
      let values := ServiceService.statusUpdate service (clock db) in
      onlyChanges "services" id (ServiceService.touched service) db (world run)
      /\ forall reply row,
           out run = Returned reply -> payload reply = Some row ->
           writes "services" id values (world run))
  /\ (let run := CompanyService.updateCompanyStatus id company db in
      let values := CompanyService.statusUpdate company (clock db) (clock db) in
      onlyChanges "companies" id (CompanyService.touched company) db (world run)
      /\ forall reply row,
           out run = Returned reply -> payload reply = Some row ->
           writes "companies" id values (world run)).
Proof.
  split; [|split]; cbv zeta.
  - as_runs (BusinessService.updateBusinessStatus (W := Db) id business) db.
    unfold BusinessService.updateBusinessStatus.
    step. step. apply runs_observe. intros t w' E. on_store E.
    injection E as <- <-.
    step. apply runs_perform. intros o w' E. on_store E.
    eapply finish_update; [| |exact E].
    + intros c Hc. absent_column Hc.
    + reflexivity.
  - as_runs (ServiceService.updateServiceStatus (W := Db) id service) db.
    unfold ServiceService.updateServiceStatus.
    step. step. apply runs_observe. intros t w' E. on_store E.
    injection E as <- <-. cbv zeta.
    step. apply runs_perform. intros o w' E. on_store E.
    eapply finish_update; [| |exact E].
    + intros c Hc. now apply service_touched.
    + destruct service; reflexivity.
  - as_runs (CompanyService.updateCompanyStatus (W := Db) id company) db.
    unfold CompanyService.updateCompanyStatus.
    step. step. apply runs_observe. intros t w' E. on_store E.
    injection E as <- <-.
    assert (Hnow : forall Φ,
               Φ (Returned (clock db)) db [] ->
               runs (match company with
                     | Status.CApproved => now
                     | _ => mret (clock db)
                     end : Async Db string) db Φ).
    { intros Φ HΦ. destruct company; exact HΦ. }
    step. apply Hnow. cbv zeta.
    step. apply runs_perform. intros o w' E. on_store E.
    eapply finish_update; [| |exact E].
    + intros c Hc. now apply company_touched.
    + destruct company; reflexivity.
Qed.
End StoreFacts.

(** C2 (as stated, refuted): [updateServiceStatus("s1", 'active')] also sets
    [is_active] and [updated_at] of the row, [updateBusinessStatus] also
    sets [updated_at]: more than the status field changes. *)
Lemma status_update_touches_more :
  let service := @ServiceService.updateServiceStatus Store.Db
                   (@Store.postgrest Store.plain) "s1" Status.SActive
                   Examples.shop in
  let business := @BusinessService.updateBusinessStatus Store.Db
                    (@Store.postgrest Store.plain) "b1" Status.BActive
                    Examples.shop in
  (exists r' : Row,
     Store.rowsOf "services" (world service) = [r']
     /\ r' !! "status" = Some (VStr "active")
     /\ r' !! "is_active" = Some (VBool true)
     /\ r' !! "updated_at" = Some (VStr "2025-06-01T12:00:00.000Z"))
  /\ Examples.service1 !! "is_active" = Some (VBool false)
  /\ Examples.service1 !! "updated_at" = Some (VStr "2024-01-01T00:00:00.000Z")
  /\ ~ Store.onlyChanges "services" "s1" ["status"] Examples.shop (world service)
  /\ ~ Store.onlyChanges "businesses" "b1" ["status"] Examples.shop
         (world business).
Proof.
  cbv zeta.
  split; [eexists; repeat split; vm_compute; reflexivity|].
  split; [vm_compute; reflexivity|].
  split; [vm_compute; reflexivity|].
  split; intros [_ Hrows];
    apply Forall2_cons_1 in Hrows as [[Heq|[_ Hc]] _].
  - apply (f_equal (fun m : Row => m !! "updated_at")) in Heq.
    vm_compute in Heq. discriminate.
  - assert (Hn : "updated_at" ∉ ["status"]).
    { intros Hin. apply list_elem_of_singleton in Hin. discriminate. }
    specialize (Hc "updated_at" Hn). vm_compute in Hc. discriminate.
  - apply (f_equal (fun m : Row => m !! "updated_at")) in Heq.
    vm_compute in Heq. discriminate.
  - assert (Hn : "updated_at" ∉ ["status"]).
    { intros Hin. apply list_elem_of_singleton in Hin. discriminate. }
    specialize (Hc "updated_at" Hn). vm_compute in Hc. discriminate.
Qed.

(** * Slug uniqueness of legal pages *)

Section SlugLookups.
Context {W : Type} `{!Postgrest W}.
Import LegalPageService.

Lemma run_eq {A} (r : Run W A) o w tr :
  out r = o -> world r = w -> trace r = tr -> r = mkRun o w tr.
Proof. destruct r. cbn. now intros -> -> ->. Qed.

(** Whatever the store is: a lookup that yields a row ends [createLegalPage]
    with the error, and nothing more is asked. *)
Lemma createLegalPage_taken (input : CreateLegalPageInput) (w w' : W) (r : Row) :
  pgSingle (slugLookup (slug input)) w = (Returned (SingleData r), w') ->
  createLegalPage input w
  = mkRun (Returned (mkReply None (Some (plainError slugTaken)))) w'
      [EvSingle (slugLookup (slug input)) (Returned (SingleData r))].
Proof.
  intros Hit.
  enough (runs (createLegalPage input) w
            (fun o' w'' tr' =>
               o' = Returned (mkReply None (Some (plainError slugTaken)))
               /\ w'' = w'
               /\ tr' = [EvSingle (slugLookup (slug input))
                           (Returned (SingleData r))]))
    as (Ho & Hw & Ht) by now apply run_eq.
  unfold createLegalPage. step. step.
  apply runs_perform. intros o w'' E. rewrite Hit in E. injection E as <- <-.
  step. repeat split.
Qed.

(** The same for [updateLegalPage] and a non-empty slug. *)
Lemma updateLegalPage_taken (id : string) (input : UpdateLegalPageInput)
  (s : string) (w w' : W) (r : Row) :
  newSlug input = Some s -> s <> "" ->
  pgSingle (slugLookupOther s id) w = (Returned (SingleData r), w') ->
  updateLegalPage id input w
  = mkRun (Returned (mkReply None (Some (plainError slugTaken)))) w'
      [EvSingle (slugLookupOther s id) (Returned (SingleData r))].
Proof.
  intros Hslug Hs Hit.
  enough (runs (updateLegalPage id input) w
            (fun o' w'' tr' =>
               o' = Returned (mkReply None (Some (plainError slugTaken)))
               /\ w'' = w'
               /\ tr' = [EvSingle (slugLookupOther s id)
                           (Returned (SingleData r))]))
    as (Ho & Hw & Ht) by now apply run_eq.
  unfold updateLegalPage. step. cbv zeta. rewrite Hslug.
  assert (truthy (Some s) = Some s) as ->
      by (destruct s; [contradiction|reflexivity]).
  step. apply runs_perform. intros o w'' E. rewrite Hit in E.
  injection E as <- <-.
  step. repeat split.
Qed.

End SlugLookups.

Section SlugChecks.
Context `{!Store.Behaviour}.
Import Store LegalPageService.

Lemma single_select q db :
  isSelect q = true ->
  single q db
  = (Returned
       match List.filter (selected q) (rowsOf (table q) db) with
       | [r] => SingleData (shape (columnsOf q) r)
       | _ => SingleError notSingle
       end, db).
Proof.
  intros Hsel. unfold single, effect, isSelect in *.
  destruct (verb q); try discriminate.
  destruct (List.filter _ _) as [|r [|r' rest]]; reflexivity.
Qed.

Lemma selected_slugLookup s r : selected (slugLookup s) r = holdsSlug s r.
Proof.
  unfold selected, holdsSlug. cbn. rewrite andb_true_r.
  now rewrite bool_decide_eq_true_2 by discriminate.
Qed.

Lemma selected_slugLookupOther s id r :
  selected (slugLookupOther s id) r = holdsSlug s r && isOther id r.
Proof.
  unfold selected, holdsSlug, isOther. cbn. rewrite andb_true_r.
  rewrite (bool_decide_eq_true_2 (VStr s ≠ VNull)) by discriminate.
  destruct (r !! "id"); [|reflexivity].
  now rewrite (bool_decide_eq_true_2 (VStr id ≠ VNull)) by discriminate.
Qed.

(** X31: on the store, when exactly one legal page holds the
    requested slug, [createLegalPage] asks for the lookup only, returns a null
    legalPage with the error message 'A legal page with this slug already
    exists' and leaves the store unchanged; when a non-empty slug is supplied
    and exactly one legal page other than the one being updated holds it,
    [updateLegalPage] does the same. *)
Theorem slug_uniqueness (db : Db) :
  (forall (input : CreateLegalPageInput) (r : Row),
     List.filter (holdsSlug (slug input)) (rowsOf "legal_pages" db) = [r] ->
     createLegalPage input db
     = mkRun (Returned (mkReply None (Some (plainError slugTaken)))) db
         [EvSingle (slugLookup (slug input))
            (Returned (SingleData (shape "id" r)))])
  /\ (forall (id : string) (input : UpdateLegalPageInput) (s : string) (r : Row),
        newSlug input = Some s -> s <> "" ->
        List.filter (fun r => holdsSlug s r && isOther id r)
          (rowsOf "legal_pages" db) = [r] ->
        updateLegalPage id input db
        = mkRun (Returned (mkReply None (Some (plainError slugTaken)))) db
            [EvSingle (slugLookupOther s id)
               (Returned (SingleData (shape "id" r)))]).
Proof.
  split.
  - intros input r Hone. apply createLegalPage_taken.
    cbn [pgSingle postgrest]. rewrite single_select by reflexivity.
    rewrite (List.filter_ext _ _ (selected_slugLookup (slug input))).
    change (table (slugLookup (slug input))) with "legal_pages".
    now rewrite Hone.
  - intros id input s r Hslug Hs Hone.
    apply updateLegalPage_taken; [exact Hslug | exact Hs |].
    cbn [pgSingle postgrest]. rewrite single_select by reflexivity.
    rewrite (List.filter_ext _ _ (selected_slugLookupOther s id)).
    change (table (slugLookupOther s id)) with "legal_pages".
    now rewrite Hone.
Qed.

End SlugChecks.

(** The theorem on the example store: the slug "terms" is held by the page
    [p1] only. *)
Lemma slug_uniqueness_witness :
  @LegalPageService.createLegalPage Store.Db (@Store.postgrest Store.plain)
    Examples.moreTerms Examples.shop
  = mkRun (Returned (mkReply None (Some (plainError LegalPageService.slugTaken))))
      Examples.shop
      [EvSingle (LegalPageService.slugLookup "terms")
         (Returned (SingleData Examples.terms))]
  /\ @LegalPageService.updateLegalPage Store.Db (@Store.postgrest Store.plain)
       "p2" Examples.renameToTerms Examples.shop
     = mkRun (Returned (mkReply None (Some (plainError LegalPageService.slugTaken))))
         Examples.shop
         [EvSingle (LegalPageService.slugLookupOther "terms" "p2")
            (Returned (SingleData Examples.terms))].
Proof.
  split.
  - apply (proj1 (@slug_uniqueness Store.plain Examples.shop)
             Examples.moreTerms Examples.terms).
    vm_compute. reflexivity.
  - apply (proj2 (@slug_uniqueness Store.plain Examples.shop)
             "p2" Examples.renameToTerms "terms" Examples.terms).
    + reflexivity.
    + discriminate.
    + vm_compute. reflexivity.
Defined.

(** C3: the page [p2] holds the empty slug, and
    [updateLegalPage("p1", { slug: '' })] makes no lookup.  On a store without
    constraint the update succeeds and two pages hold the empty slug, after
    which [createLegalPage] with the empty slug inserts a third; on a store
    with a unique constraint the update is refused with the store's error,
    not with 'A legal page with this slug already exists'. *)
Lemma slug_check_skipped :
  let lax := @LegalPageService.updateLegalPage Store.Db
               (@Store.postgrest Store.plain) "p1" Examples.emptySlug
               Examples.shop in
  let again := @LegalPageService.createLegalPage Store.Db
                 (@Store.postgrest Store.plain) Examples.blank (world lax) in
  let strict := @LegalPageService.updateLegalPage Store.Db
                  (@Store.postgrest Store.uniqueSlug) "p1" Examples.emptySlug
                  Examples.shop in
  Store.holdsSlug "" Examples.untitled = true
  /\ Store.isOther "p1" Examples.untitled = true
  /\ (exists row : Row,
        out lax = Returned (mkReply (Some row) None)
        /\ row !! "slug" = Some (VStr ""))
  /\ Store.slugs (Store.rowsOf "legal_pages" (world lax))
     = [Some (VStr ""); Some (VStr "")]
  /\ (exists row : Row, out again = Returned (mkReply (Some row) None))
  /\ Store.slugs (Store.rowsOf "legal_pages" (world again))
     = [Some (VStr ""); Some (VStr ""); Some (VStr "")]
  /\ out strict = Returned (mkReply None (Some (apiError Store.duplicateKey)))
  /\ world strict = Examples.shop
  /\ message (apiError Store.duplicateKey) <> LegalPageService.slugTaken.
Proof.
  cbv zeta.
  split; [vm_compute; reflexivity|].
  split; [vm_compute; reflexivity|].
  split; [eexists; split; vm_compute; reflexivity|].
  split; [vm_compute; reflexivity|].
  split; [eexists; vm_compute; reflexivity|].
  split; [vm_compute; reflexivity|].
  split; [vm_compute; reflexivity|].
  split; [vm_compute; reflexivity|].
  discriminate.
Qed.

Example revenue_by_provider :
  TransactionService.aggregate (Some Examples.payments)
  = [ {| TransactionService.provider := "stripe";
         TransactionService.revenue := 40; TransactionService.count := 2 |};
      {| TransactionService.provider := "unknown";
         TransactionService.revenue := 5; TransactionService.count := 1 |} ].
Proof. vm_compute. reflexivity. Qed.

(** Amounts are added in binary64.  Of the payments 0.10, 0.20 and 0.30 the
    reduce of [getTransactionStats] makes 0.6000000000000001; the entries of
    [getRevenueByProvider] are 0.1 and 0.5, and adding them up gives 0.6. *)
Example revenue_with_cents :
  TransactionService.sumRevenue (Some Examples.withCents)
  = 0.6000000000000001%float
  /\ TransactionService.aggregate (Some Examples.withCents)
     = [ {| TransactionService.provider := "cash";
            TransactionService.revenue := 0.1;
            TransactionService.count := 1 |};
         {| TransactionService.provider := "stripe";
            TransactionService.revenue := 0.5;
            TransactionService.count := 2 |} ]
  /\ (0.1 + 0.5)%float = 0.6%float
  /\ 0.6000000000000001%float <> 0.6%float.
Proof.
  split; [vm_compute; reflexivity|].
  split; [vm_compute; reflexivity|].
  split; [vm_compute; reflexivity|].
  intros E. apply Leibniz.eqb_spec in E. vm_compute in E. discriminate E.
Qed.

(** * More on the pagination hook *)

Section PaginationExtras.
Import Pagination.

Lemma ceil_div_lt (a b p : Z) : 0 < b -> p <= ceil_div a b -> (p - 1) * b < a.
Proof.
  intros Hb Hp. unfold ceil_div in Hp.
  pose proof (Z.div_mod (- a) b ltac:(lia)).
  pose proof (Z.mod_pos_bound (- a) b Hb). nia.
Qed.

(** X1: under the invariant of the hook, the current page is one of
    [pageNumbers], and [pageNumbers] has [min(5, totalPages)] entries. *)
Theorem pageNumbers_show_current (h : Hook) :
  inBounds h ->
  page h ∈ pageNumbers h
  /\ Z.of_nat (length (pageNumbers h)) = Z.min maxVisiblePages (totalPages h).
Proof.
  unfold inBounds, pageNumbers, pushRange, maxVisiblePages. intros Hb.
  change (5 / 2) with 2.
  destruct (Z.leb_spec (totalPages h) 5).
  - split; [apply elem_of_seqZ; lia | rewrite length_seqZ; lia].
  - cbv zeta.
    destruct (Z.ltb_spec
                (Z.min (totalPages h) (Z.max 1 (page h - 2) + 5 - 1)
                 - Z.max 1 (page h - 2)) (5 - 1));
      (split; [apply elem_of_seqZ; lia | rewrite length_seqZ; lia]).
Qed.

(** X2: under the invariant, [prevPage] undoes [nextPage] whenever
    [canGoNext], [nextPage] undoes [prevPage] whenever [canGoPrev]; when
    [canGoNext] is false the page is the last one and [nextPage] changes
    nothing, when [canGoPrev] is false the page is 1 and [prevPage] changes
    nothing. *)
Theorem navigation_round_trip (h : Hook) :
  inBounds h ->
  (canGoNext h = true -> prevPage (nextPage h) = h)
  /\ (canGoPrev h = true -> nextPage (prevPage h) = h)
  /\ (canGoNext h = false -> nextPage h = h /\ page h = totalPages h)
  /\ (canGoPrev h = false -> prevPage h = h /\ page h = 1).
Proof.
  unfold inBounds. intros Hb. destruct h as [p ps t op ops].
  unfold nextPage, prevPage, canGoNext, canGoPrev, withPage, totalPages in *.
  cbn [Pagination.page Pagination.pageSize Pagination.total
       Pagination.optPage Pagination.optPageSize] in *.
  split; [|split; [|split]].
  - intros Hn. rewrite Hn.
    cbn [Pagination.page Pagination.pageSize Pagination.total
         Pagination.optPage Pagination.optPageSize].
    destruct (Z.gtb_spec (p + 1) 1); [|lia]. f_equal; cbn; lia.
  - intros Hn. rewrite Hn.
    cbn [Pagination.page Pagination.pageSize Pagination.total
         Pagination.optPage Pagination.optPageSize].
    destruct (Z.ltb_spec (p - 1) (Z.max 1 (ceil_div t ps))); [|lia].
    f_equal; cbn; lia.
  - intros Hn. rewrite Hn. split; [reflexivity|]. apply Z.ltb_ge in Hn. lia.
  - intros Hn. rewrite Hn. split; [reflexivity|].
    destruct (Z.gtb_spec p 1); [discriminate|lia].
Qed.

(** X3: under the invariant, the navigation helpers are [setPage] at the
    neighbouring, the first and the last page, and [setPage] at the current
    page changes nothing. *)
Theorem navigation_is_setPage (h : Hook) :
  inBounds h ->
  nextPage h = setPage h (page h + 1)
  /\ prevPage h = setPage h (page h - 1)
  /\ firstPage h = setPage h 1
  /\ lastPage h = setPage h (totalPages h)
  /\ setPage h (page h) = h.
Proof.
  unfold inBounds. intros Hb. destruct h as [p ps t op ops].
  unfold nextPage, prevPage, firstPage, lastPage, setPage, canGoNext, canGoPrev,
    withPage, totalPages in *.
  cbn [Pagination.page Pagination.pageSize Pagination.total
       Pagination.optPage Pagination.optPageSize] in *.
  repeat split.
  - destruct (Z.ltb_spec p (Z.max 1 (ceil_div t ps))); f_equal; lia.
  - destruct (Z.gtb_spec p 1); f_equal; lia.
  - f_equal; lia.
  - f_equal; lia.
  - f_equal; lia.
Qed.

(** X4: under the invariant, with a page size of at least 1 and at least
    one row in all, the offset is the index of an existing row:
    [0 <= offset < total]. *)
Theorem offset_within_total (h : Hook) :
  inBounds h -> 1 <= pageSize h -> 1 <= total h ->
  0 <= offset h < total h.
Proof.
  unfold inBounds, offset, totalPages. intros Hb Hps Ht.
  split; [nia|].
  destruct (Z.max_spec 1 (ceil_div (total h) (pageSize h))) as [[? E]|[? E]];
    rewrite E in Hb.
  - apply ceil_div_lt; lia.
  - assert (page h = 1) as -> by lia. lia.
Qed.

End PaginationExtras.

Lemma pageNumbers_show_current_witness :
  let h := MoreExamples.seventh in
  Pagination.page h ∈ Pagination.pageNumbers h
  /\ Z.of_nat (length (Pagination.pageNumbers h))
     = Z.min Pagination.maxVisiblePages (Pagination.totalPages h).
Proof.
  apply (pageNumbers_show_current MoreExamples.seventh).
  vm_compute. split; discriminate.
Defined.

Lemma navigation_round_trip_witness :
  let h := MoreExamples.seventh in
  (Pagination.canGoNext h = true
   -> Pagination.prevPage (Pagination.nextPage h) = h)
  /\ (Pagination.canGoPrev h = true
      -> Pagination.nextPage (Pagination.prevPage h) = h)
  /\ (Pagination.canGoNext h = false
      -> Pagination.nextPage h = h
         /\ Pagination.page h = Pagination.totalPages h)
  /\ (Pagination.canGoPrev h = false
      -> Pagination.prevPage h = h /\ Pagination.page h = 1).
Proof.
  apply (navigation_round_trip MoreExamples.seventh).
  vm_compute. split; discriminate.
Defined.

Lemma navigation_is_setPage_witness :
  let h := MoreExamples.seventh in
  Pagination.nextPage h = Pagination.setPage h (Pagination.page h + 1)
  /\ Pagination.prevPage h = Pagination.setPage h (Pagination.page h - 1)
  /\ Pagination.firstPage h = Pagination.setPage h 1
  /\ Pagination.lastPage h = Pagination.setPage h (Pagination.totalPages h)
  /\ Pagination.setPage h (Pagination.page h) = h.
Proof.
  apply (navigation_is_setPage MoreExamples.seventh).
  vm_compute. split; discriminate.
Defined.

Lemma offset_within_total_witness :
  0 <= Pagination.offset MoreExamples.seventh
    < Pagination.total MoreExamples.seventh.
Proof.
  apply (offset_within_total MoreExamples.seventh).
  - vm_compute. split; discriminate.
  - vm_compute. discriminate.
  - vm_compute. discriminate.
Defined.

(** * The pagination bar *)

Section PaginationBarFacts.
Import PaginationBar.

Lemma marked_numbers (prev n last : Z) (rest : list PageItem) :
  0 <= n ->
  marked (prev + n) last rest ->
  marked prev last ((PageNumber <$> seqZ (prev + 1) n) ++ rest).
Proof.
  intros Hn. revert prev. pattern n. apply natlike_ind; [| |exact Hn].
  - intros prev. now rewrite Z.add_0_r.
  - intros k Hk IH prev H. rewrite seqZ_cons by lia. cbn.
    split; [reflexivity|].
    replace (Z.succ (prev + 1)) with (prev + 1 + 1) by lia.
    replace (Z.pred (Z.succ k)) with k by lia.
    apply IH. now replace (prev + 1 + k) with (prev + Z.succ k) by lia.
Qed.

Ltac window n :=
  match goal with
  | |- context [seqZ ?lo ?len] =>
      assert (len = n) as -> by lia
  end.

(** The first item of the bar is page 1 and the last is the last page. *)
Lemma getPageNumbers_ends (p : Props) :
  1 <= page p <= totalPages p ->
  head (getPageNumbers p) = Some (PageNumber 1)
  /\ last (getPageNumbers p) = Some (PageNumber (totalPages p)).
Proof.
  intros Hb. unfold getPageNumbers, maxVisible, Pagination.pushRange.
  destruct (Z.leb_spec (totalPages p) 5) as [Hsmall|Hbig].
  - split.
    + rewrite seqZ_cons by lia. reflexivity.
    + replace (totalPages p - 1 + 1)
        with (Z.of_nat (S (Z.to_nat (totalPages p - 1)))) by lia.
      rewrite fmap_last, seqZ_S, last_snoc. cbn. do 2 f_equal. lia.
  - cbv zeta. destruct (Z.gtb_spec (totalPages p) 1) as [_|]; [|lia].
    split; [|apply last_snoc].
    destruct (page p >? 3), (page p <? totalPages p - 2); reflexivity.
Qed.

(** The items of the bar show every page from 1 to the last, by its number
    or under an ellipsis; the current page is among them, and there are at
    most 7 of them. *)
Lemma getPageNumbers_marked (p : Props) :
  1 <= page p <= totalPages p ->
  let items := getPageNumbers p in
  marked 0 (totalPages p) items
  /\ PageNumber (page p) ∈ items
  /\ (length items <= 7)%nat.
Proof.
  intros Hb. cbv zeta. unfold getPageNumbers, maxVisible, Pagination.pushRange.
  destruct (Z.leb_spec (totalPages p) 5) as [Hsmall|Hbig].
  - split; [|split].
    + rewrite <- (app_nil_r (_ <$> _)).
      apply (marked_numbers 0); [lia|]. cbn. lia.
    + apply list_elem_of_fmap. exists (page p). split; [reflexivity|].
      apply elem_of_seqZ. lia.
    + rewrite length_fmap, length_seqZ. lia.
  - cbv zeta.
    destruct (Z.gtb_spec (totalPages p) 1) as [_|]; [|lia].
    destruct (Z.gtb_spec (page p) 3) as [Hlate|Hearly];
      destruct (Z.ltb_spec (page p) (totalPages p - 2)) as [Hmid|Hend].
    + split; [|split].
      * cbn. split; [reflexivity|].
        assert (Z.max 2 (page p - 1) = (page p - 2) + 1) as -> by lia.
        window 3. cbn. repeat split; lia.
      * rewrite !elem_of_app, list_elem_of_fmap. left. left. right.
        exists (page p). split; [reflexivity|]. apply elem_of_seqZ. lia.
      * rewrite !length_app, length_fmap, length_seqZ. cbn. lia.
    + split; [|split].
      * cbn.
        assert (Z.max 2 (page p - 1) = (page p - 2) + 1) as -> by lia.
        destruct (Z.eq_dec (page p) (totalPages p)) as [E|E];
          [|destruct (Z.eq_dec (page p) (totalPages p - 1)) as [E'|E']].
        -- window 1. cbn. repeat split; lia.
        -- window 2. cbn. repeat split; lia.
        -- window 3. cbn. repeat split; lia.
      * destruct (Z.eq_dec (page p) (totalPages p)) as [E|E].
        -- rewrite !elem_of_app. right. rewrite E.
           apply list_elem_of_singleton. reflexivity.
        -- rewrite !elem_of_app, list_elem_of_fmap. left. right.
           exists (page p). split; [reflexivity|]. apply elem_of_seqZ. lia.
      * rewrite !length_app, length_fmap, length_seqZ. cbn. lia.
    + split; [|split].
      * cbn. split; [reflexivity|].
        assert (Z.max 2 (page p - 1) = 1 + 1) as -> by lia.
        destruct (Z.eq_dec (page p) 1) as [E|E];
          [|destruct (Z.eq_dec (page p) 2) as [E'|E']].
        -- window 1. cbn. repeat split; lia.
        -- window 2. cbn. repeat split; lia.
        -- window 3. cbn. repeat split; lia.
      * destruct (Z.eq_dec (page p) 1) as [E|E].
        -- rewrite !elem_of_app. left. left. left. rewrite E.
           apply list_elem_of_singleton. reflexivity.
        -- rewrite !elem_of_app, list_elem_of_fmap. left. left. right.
           exists (page p). split; [reflexivity|]. apply elem_of_seqZ. lia.
      * rewrite !length_app, length_fmap, length_seqZ. cbn. lia.
    + lia.
Qed.

(** X5: for a page within [1, totalPages], the items of the bar begin with
    page 1 and end with the last page, each number follows its predecessor
    directly and an ellipsis stands exactly where pages are left out; the
    current page is among the items, of which there are at most 7. *)
Theorem getPageNumbers_marks_gaps (p : Props) :
  1 <= page p <= totalPages p ->
  let items := getPageNumbers p in
  head items = Some (PageNumber 1)
  /\ last items = Some (PageNumber (totalPages p))
  /\ marked 0 (totalPages p) items
  /\ PageNumber (page p) ∈ items
  /\ (length items <= 7)%nat.
Proof.
  intros Hb. cbv zeta.
  destruct (getPageNumbers_ends p Hb) as [Hfirst Hlast].
  destruct (getPageNumbers_marked p Hb) as (Hmarked & Hcurrent & Hlength).
  repeat split; assumption.
Qed.

(** X6: for a page size of at least 1 and a page between 1 and
    [max(1, ceil(total / pageSize))], the bar shows "0 to 0" when there is no
    row, and otherwise a range that begins at the row after the offset, is
    not empty, has at most [pageSize] rows and ends at [total] at the
    latest. *)
Theorem shown_range (p : Props) :
  1 <= pageSize p ->
  1 <= page p ->
  page p <= Z.max 1 (ceil_div (total p) (pageSize p)) ->
  0 <= total p ->
  (total p = 0 -> startItem p = 0 /\ endItem p = 0)
  /\ (1 <= total p ->
      startItem p = (page p - 1) * pageSize p + 1
      /\ 1 <= startItem p <= endItem p
      /\ endItem p <= total p
      /\ endItem p - startItem p + 1 <= pageSize p).
Proof.
  intros Hps Hp Htp Ht. unfold startItem, endItem. split.
  - intros E. rewrite E. cbn. nia.
  - intros Hpos. destruct (Z.eqb_spec (total p) 0); [lia|].
    assert ((page p - 1) * pageSize p < total p).
    { destruct (Z.max_spec 1 (ceil_div (total p) (pageSize p))) as [[? E]|[? E]];
        rewrite E in Htp.
      - apply ceil_div_lt; lia.
      - assert (page p = 1) as -> by lia. lia. }
    nia.
Qed.

End PaginationBarFacts.

Lemma getPageNumbers_marks_gaps_witness :
  let items := PaginationBar.getPageNumbers MoreExamples.seventhBar in
  head items = Some (PaginationBar.PageNumber 1)
  /\ last items = Some (PaginationBar.PageNumber 20)
  /\ PaginationBar.marked 0 20 items
  /\ PaginationBar.PageNumber 7 ∈ items
  /\ (length items <= 7)%nat.
Proof.
  apply (getPageNumbers_marks_gaps MoreExamples.seventhBar).
  vm_compute. split; discriminate.
Defined.

Lemma shown_range_witness :
  let p := MoreExamples.seventhBar in
  (PaginationBar.total p = 0
   -> PaginationBar.startItem p = 0 /\ PaginationBar.endItem p = 0)
  /\ (1 <= PaginationBar.total p ->
      PaginationBar.startItem p
      = (PaginationBar.page p - 1) * PaginationBar.pageSize p + 1
      /\ 1 <= PaginationBar.startItem p <= PaginationBar.endItem p
      /\ PaginationBar.endItem p <= PaginationBar.total p
      /\ PaginationBar.endItem p - PaginationBar.startItem p + 1
         <= PaginationBar.pageSize p).
Proof.
  apply (shown_range MoreExamples.seventhBar); vm_compute; discriminate.
Defined.

Example seventh_of_twenty :
  PaginationBar.getPageNumbers MoreExamples.seventhBar
  = [ PaginationBar.PageNumber 1; PaginationBar.Ellipsis;
      PaginationBar.PageNumber 6; PaginationBar.PageNumber 7;
      PaginationBar.PageNumber 8; PaginationBar.Ellipsis;
      PaginationBar.PageNumber 20 ]
  /\ PaginationBar.startItem MoreExamples.seventhBar = 61
  /\ PaginationBar.endItem MoreExamples.seventhBar = 70.
Proof. repeat split. Qed.

(** * Regular expressions *)

Section RegexFacts.
Import Slug Regex.

Lemma matches_nil s : matches [] s = true <-> s = [].
Proof. destruct s; cbn; split; congruence. Qed.

Lemma matches_One p rest s :
  matches (One p :: rest) s = true
  <-> exists c s', s = c :: s' /\ p c = true /\ matches rest s' = true.
Proof.
  destruct s as [|c s]; cbn.
  - split; [discriminate|]. intros (? & ? & ? & _). discriminate.
  - rewrite andb_true_iff. split.
    + intros [Hc Hs]. now exists c, s.
    + intros (c' & s' & [= -> ->] & Hc & Hs). now split.
Qed.

Lemma matches_Plus p rest s :
  matches (Plus p :: rest) s = true
  <-> exists a s', s = a ++ s' /\ a <> [] /\ Forall (fun c => p c = true) a
                   /\ matches rest s' = true.
Proof.
  induction s as [|c s IH].
  - cbn. split; [discriminate|].
    intros (a & s' & E & Ha & _). destruct a; [contradiction|discriminate].
  - cbn [matches]. rewrite andb_true_iff, orb_true_iff, IH. split.
    + intros [Hc [(a & s' & -> & Ha & Hall & Hs)|Hs]].
      * exists (c :: a), s'. repeat split; [discriminate| |exact Hs].
        now constructor.
      * exists [c], s. repeat split; [discriminate| |exact Hs].
        now repeat constructor.
    + intros (a & s' & E & Ha & Hall & Hs).
      destruct a as [|c' a]; [contradiction|]. injection E as <- ->.
      apply Forall_cons in Hall as [Hc Hall]. split; [exact Hc|].
      destruct a as [|c'' a]; [now right|left].
      exists (c'' :: a), s'. repeat split; [discriminate|exact Hall|exact Hs].
Qed.

Lemma matches_Plus_all p s :
  matches [Plus p] s = match s with [] => false | _ => forallb p s end.
Proof.
  induction s as [|c s IH]; [reflexivity|].
  cbn [matches forallb]. rewrite IH.
  destruct s as [|d s]; cbn; rewrite ?orb_false_r; reflexivity.
Qed.

End RegexFacts.

(** * More on slugs, and the legal page form *)

Section SlugExtras.
Import Slug.
Local Open Scope N_scope.

Ltac units :=
  unfold LegalPageModal.slugChar, slug_unit, keeps, is_word, is_space,
    is_hyphen, is_upper, is_lower, is_digit, between, underscore, hyphen in *;
  repeat rewrite ?orb_true_iff, ?andb_true_iff, ?orb_false_iff,
    ?andb_false_iff, ?N.leb_le, ?N.leb_gt, ?N.eqb_eq, ?N.eqb_neq in *;
  lia.

(** X7: the strings that [generateSlug] returns unchanged are exactly those
    that consist of lowercase letters, digits, underscores and hyphens and
    have no two hyphens in a row. *)
Theorem generateSlug_fixed_points (s : jsstring) :
  generateSlug s = s
  <-> Forall (fun c => is_lower c || is_digit c || (c =? underscore)
                       || (c =? hyphen) = true) s
      /\ double_hyphen s = false.
Proof.
  split.
  - intros E. split.
    + rewrite <- E. apply generateSlug_units.
    + rewrite <- E. unfold generateSlug. apply (hyphens_collapsed _ false).
  - intros [Hu Hd]. unfold generateSlug.
    rewrite (toLowerCase_fixed s Hu), (trim_fixed s Hu),
      (removeSpecial_fixed s Hu), (spaces_fixed false s Hu).
    apply hyphens_fixed; [exact Hd | discriminate].
Qed.

Lemma In_toLowerCase u s :
  is_upper u = false -> is_lower u = false -> u <> 0x307 ->
  u <> 0x130 -> u <> 0x212A ->
  In u (toLowerCase s) <-> In u s.
Proof.
  intros Hup Hlo H307 H130 H212A. unfold toLowerCase. rewrite in_flat_map.
  split.
  - intros (c & Hc & Hu). unfold toLowerCase1 in Hu.
    destruct (is_upper c) eqn:Ec.
    + destruct Hu as [<-|[]]. exfalso. units.
    + destruct (c =? 0x130).
      { destruct Hu as [<-|[<-|[]]]; [discriminate | congruence]. }
      destruct (c =? 0x212A).
      { destruct Hu as [<-|[]]. discriminate. }
      destruct Hu as [<-|[]]. exact Hc.
  - intros Hu. exists u. split; [exact Hu|]. unfold toLowerCase1.
    rewrite Hup.
    destruct (N.eqb_spec u 0x130) as [|_]; [contradiction|].
    destruct (N.eqb_spec u 0x212A) as [|_]; [contradiction|].
    now left.
Qed.

Lemma In_dropWhile u p s : p u = false -> In u (dropWhile p s) <-> In u s.
Proof.
  intros Hu. induction s as [|c s IH]; simpl; [reflexivity|].
  destruct (p c) eqn:Hc; [|reflexivity].
  rewrite IH. split; [now right|]. intros [->|H]; [congruence|exact H].
Qed.

Lemma In_trim u s : is_space u = false -> In u (trim s) <-> In u s.
Proof.
  intros Hu. unfold trim.
  now rewrite <- in_rev, In_dropWhile, <- in_rev, In_dropWhile.
Qed.

Lemma In_replaceRuns u p r b s :
  p u = false -> u <> r -> In u (replaceRuns p r b s) <-> In u s.
Proof.
  intros Hu Hr. revert b. induction s as [|c s IH]; intros b; simpl;
    [reflexivity|].
  destruct (p c) eqn:Hc.
  - destruct b; simpl; rewrite IH; split; try tauto;
      intros [E|H]; try tauto; congruence.
  - simpl. now rewrite IH.
Qed.

Lemma In_generateSlug_underscore title :
  In underscore (generateSlug title) <-> In underscore title.
Proof.
  unfold generateSlug.
  rewrite In_replaceRuns by (reflexivity || discriminate).
  rewrite In_replaceRuns by (reflexivity || discriminate).
  unfold removeSpecial. rewrite filter_In.
  rewrite In_trim by reflexivity.
  rewrite In_toLowerCase by (reflexivity || discriminate).
  split; [tauto|]. now split.
Qed.

Lemma blank_slug s :
  Forall (fun c => slug_unit c = true) s ->
  LegalPageModal.blank s = match s with [] => true | _ => false end.
Proof.
  intros Hu. unfold LegalPageModal.blank. now rewrite (trim_fixed s Hu).
Qed.

(** X8: when the form makes the slug from a non-empty title, the slug is
    [generateSlug(title)], and the form's check of the slug accepts it
    exactly when it is not empty and the title has no underscore. *)
Theorem generated_slug_accepted (formData : LegalPageModal.FormData) :
  let formData' := LegalPageModal.autoSlug true false formData in
  LegalPageModal.title formData <> [] ->
  LegalPageModal.slug formData' = generateSlug (LegalPageModal.title formData)
  /\ (LegalPageModal.slugError (LegalPageModal.newErrors formData') = None
      <-> generateSlug (LegalPageModal.title formData) <> []
          /\ ~ In underscore (LegalPageModal.title formData)).
Proof.
  cbv zeta. intros Ht. unfold LegalPageModal.autoSlug.
  destruct (LegalPageModal.title formData) as [|c t] eqn:Et; [contradiction|].
  cbn [andb negb LegalPageModal.slug]. split; [reflexivity|].
  unfold LegalPageModal.newErrors.
  cbn [LegalPageModal.slugError LegalPageModal.slug].
  pose proof (generateSlug_units (c :: t)) as Hu.
  rewrite <- (In_generateSlug_underscore (c :: t)).
  rewrite (blank_slug _ Hu).
  unfold LegalPageModal.slugFormat. rewrite matches_Plus_all.
  destruct (generateSlug (c :: t)) as [|d s] eqn:Es.
  - split; [discriminate|]. intros [H _]. contradiction.
  - destruct (forallb LegalPageModal.slugChar (d :: s)) eqn:Ef; cbn [negb].
    + split; [|reflexivity]. intros _. split; [discriminate|].
      intros Hin. rewrite forallb_forall in Ef. specialize (Ef _ Hin).
      discriminate.
    + split; [discriminate|]. intros [_ Hno]. exfalso.
      assert (forallb LegalPageModal.slugChar (d :: s) = true); [|congruence].
      apply forallb_forall. intros x Hx.
      rewrite Forall_forall in Hu.
      assert (Hsx : slug_unit x = true) by (apply Hu; now apply list_elem_of_In).
      destruct (N.eqb_spec x underscore) as [->|Hne]; [contradiction|].
      units.
Qed.

(** X9: what the form hands to [onSave] has the slug of the form, which is
    not empty and consists of lowercase letters, digits and hyphens, and the
    title and the content of the form are not blank. *)
Theorem handleSave_checked (isEditing : bool) (formData : LegalPageModal.FormData) :
  match LegalPageModal.handleSave isEditing formData with
  | Some data =>
      LegalPageModal.savedSlug data = LegalPageModal.slug formData
      /\ LegalPageModal.savedSlug data <> []
      /\ Forall (fun c => is_lower c || is_digit c || (c =? hyphen) = true)
           (LegalPageModal.savedSlug data)
      /\ trim (LegalPageModal.title formData) <> []
      /\ trim (LegalPageModal.content formData) <> []
  | None => True
  end.
Proof.
  unfold LegalPageModal.handleSave, LegalPageModal.validateForm,
    LegalPageModal.newErrors.
  cbn [LegalPageModal.titleError LegalPageModal.slugError
       LegalPageModal.contentError].
  unfold LegalPageModal.blank.
  destruct (trim (LegalPageModal.title formData)) eqn:Et; [exact I|].
  destruct (trim (LegalPageModal.slug formData)) eqn:Es; [exact I|].
  destruct (LegalPageModal.slugFormat (LegalPageModal.slug formData)) eqn:Ef;
    [|exact I].
  destruct (trim (LegalPageModal.content formData)) eqn:Ec; [exact I|].
  cbn [negb].
  assert (LegalPageModal.slug formData <> []
          /\ Forall (fun c => is_lower c || is_digit c || (c =? hyphen) = true)
               (LegalPageModal.slug formData)) as [Hne Hall].
  { unfold LegalPageModal.slugFormat in Ef. rewrite matches_Plus_all in Ef.
    destruct (LegalPageModal.slug formData) as [|d s]; [discriminate|].
    split; [discriminate|]. apply Forall_forall. intros x Hx.
    rewrite forallb_forall in Ef. apply Ef. now apply list_elem_of_In. }
  destruct isEditing; cbn [LegalPageModal.savedSlug]; repeat split;
    try assumption; discriminate.
Qed.

End SlugExtras.

Lemma generated_slug_accepted_witness :
  let formData := MoreExamples.draft in
  let formData' := LegalPageModal.autoSlug true false formData in
  LegalPageModal.slug formData'
  = Slug.generateSlug (LegalPageModal.title formData)
  /\ (LegalPageModal.slugError (LegalPageModal.newErrors formData') = None
      <-> Slug.generateSlug (LegalPageModal.title formData) <> []
          /\ ~ In Slug.underscore (LegalPageModal.title formData)).
Proof.
  apply (generated_slug_accepted MoreExamples.draft). discriminate.
Defined.

Example underscore_slug_refused :
  let formData := LegalPageModal.autoSlug true false MoreExamples.draft in
  LegalPageModal.slug formData = Slug.of_string "terms_of-service"
  /\ LegalPageModal.slugError (LegalPageModal.newErrors formData)
     = Some "Slug can only contain lowercase letters, numbers, and hyphens".
Proof. split; vm_compute; reflexivity. Qed.

(** * Validators *)

Section ValidationFacts.
Import Slug Regex.

(** X10: [validateEmail] accepts exactly the strings [local @ domain . rest]
    whose three parts are not empty and hold neither white space nor [@];
    [validators.email] lets through these and the empty string. *)
Theorem validateEmail_shape (email : jsstring) :
  let plain part :=
    part <> [] /\ Forall (fun c => is_space c = false /\ c <> at_sign) part in
  (AuthValidation.validateEmail email = true
   <-> exists local domain rest,
         email = local ++ [at_sign] ++ domain ++ [full_stop] ++ rest
         /\ plain local /\ plain domain /\ plain rest)
  /\ (Validators.email email = None
      <-> email = [] \/ AuthValidation.validateEmail email = true).
Proof.
  cbv zeta.
  assert (Hplain : forall part,
             Forall (fun c => AuthValidation.plainUnit c = true) part
             <-> Forall (fun c => is_space c = false /\ c <> at_sign) part).
  { intros part. apply Forall_iff. intros c.
    unfold AuthValidation.plainUnit, just.
    rewrite negb_true_iff, orb_false_iff, N.eqb_neq.
    split; intros [? ?]; split; auto. }
  split.
  - unfold AuthValidation.validateEmail, AuthValidation.emailRegex.
    rewrite matches_Plus. split.
    + intros (a & s1 & -> & Ha & Hall & H1).
      apply matches_One in H1 as (c1 & s2 & -> & Hc1 & H2).
      apply N.eqb_eq in Hc1 as <-.
      apply matches_Plus in H2 as (b & s3 & -> & Hb & Hbll & H3).
      apply matches_One in H3 as (c2 & s4 & -> & Hc2 & H4).
      apply N.eqb_eq in Hc2 as <-.
      apply matches_Plus in H4 as (c & s5 & -> & Hc & Hcll & H5).
      apply matches_nil in H5 as ->.
      exists a, b, c. rewrite app_nil_r.
      repeat split; try assumption; now apply Hplain.
    + intros (a & b & c & -> & [Ha Hall] & [Hb Hbll] & [Hc Hcll]).
      exists a, ([at_sign] ++ b ++ [full_stop] ++ c).
      repeat split; [exact Ha | now apply Hplain|].
      apply matches_One. exists at_sign, (b ++ [full_stop] ++ c).
      repeat split. apply matches_Plus. exists b, ([full_stop] ++ c).
      repeat split; [exact Hb | now apply Hplain|].
      apply matches_One. exists full_stop, c. repeat split.
      apply matches_Plus. exists c, []. rewrite app_nil_r.
      repeat split; [exact Hc | now apply Hplain].
  - unfold Validators.email, AuthValidation.validateEmail.
    destruct email as [|c s]; [split; [now left|reflexivity]|].
    destruct (matches _ _); split; try reflexivity; try discriminate.
    + now right.
    + intros [?|?]; discriminate.
Qed.

Lemma length_pushIf c e errors :
  length (AuthValidation.pushIf c e errors)
  = (length errors + if c then 1 else 0)%nat.
Proof. destruct c; cbn; [apply length_app | lia]. Qed.

(** X11: the three password checks agree.  [validatePassword] calls a
    password valid exactly when it has at least 8 code units, an uppercase
    letter, a lowercase letter and a digit; the check list of the
    registration form is all met for exactly these passwords, and the form
    sets a password error for exactly the others; [validators.password]
    lets through these and the empty password. *)
Theorem password_checks_agree (password : jsstring) :
  let valid :=
    AuthValidation.valid (AuthValidation.validatePassword password) in
  (valid = true
   <-> (8 <= length password)%nat
       /\ Exists (fun c => is_upper c = true) password
       /\ Exists (fun c => is_lower c = true) password
       /\ Exists (fun c => is_digit c = true) password)
  /\ RegisterPage.isPasswordValid password = valid
  /\ (RegisterPage.passwordError password = None <-> valid = true)
  /\ (Validators.password password = None <-> password = [] \/ valid = true).
Proof.
  cbv zeta.
  assert (Hex : forall p, existsb p password = true
                          <-> Exists (fun c => p c = true) password).
  { intros p. rewrite existsb_exists, Exists_exists. split;
      intros (x & Hx & Hp); exists x; (split; [|exact Hp]);
      now apply list_elem_of_In. }
  split; [|split; [|split]].
  - unfold AuthValidation.validatePassword. cbn [AuthValidation.valid].
    rewrite Nat.eqb_eq, !length_pushIf. cbn [length].
    rewrite <- !Hex.
    destruct (Nat.ltb_spec (length password) 8);
      destruct (existsb is_upper password);
      destruct (existsb is_lower password);
      destruct (existsb is_digit password); cbn; split;
      try lia; try (intros (? & ? & ? & ?); try lia; discriminate);
      intros _; repeat split; lia.
  - unfold RegisterPage.isPasswordValid, RegisterPage.getPasswordRequirements,
      AuthValidation.validatePassword.
    cbn [AuthValidation.valid forallb snd]. rewrite !length_pushIf.
    cbn [length].
    destruct (Nat.ltb_spec (length password) 8);
      destruct (Nat.leb_spec 8 (length password)); try lia;
      destruct (existsb is_upper password);
      destruct (existsb is_lower password);
      destruct (existsb is_digit password); reflexivity.
  - unfold RegisterPage.passwordError.
    destruct password as [|c s] eqn:E; [split; discriminate|].
    rewrite <- E.
    destruct (AuthValidation.valid _) eqn:Ev; cbn [negb];
      [split; reflexivity|].
    split; [|discriminate]. intros Hhead. exfalso.
    unfold AuthValidation.validatePassword in Ev, Hhead.
    cbn [AuthValidation.valid AuthValidation.errors] in Ev, Hhead.
    apply Nat.eqb_neq in Ev. apply Ev.
    now destruct (AuthValidation.pushIf _ _ _).
  - unfold Validators.password, AuthValidation.validatePassword.
    cbn [AuthValidation.valid].
    destruct password as [|c s] eqn:E; [split; [now left|reflexivity]|].
    rewrite <- E. rewrite !length_pushIf. cbn [length].
    set (n := (0 + _ + _ + _ + _)%nat).
    destruct (Nat.ltb_spec 0 n); destruct (Nat.eqb_spec n 0); try lia;
      split; try discriminate; try reflexivity.
    + intros [?|?]; [congruence|discriminate].
    + now right.
Qed.

Import Validators.

Lemma dom_checkRule_empty data errors rule :
  dom (checkRule data errors rule) = (∅ : gset string)
  <-> dom errors = (∅ : gset string)
      /\ truthy (validate rule (data !! field rule)) = None.
Proof.
  unfold checkRule. destruct (truthy _) as [e|].
  - rewrite dom_insert_L. split; [set_solver|]. intros [_ ?]. discriminate.
  - split; [now split | now intros [? _]].
Qed.

Lemma lookup_checkRule data errors rule f :
  checkRule data errors rule !! f
  = match reported data f rule with
    | Some m => Some m
    | None => errors !! f
    end.
Proof.
  unfold checkRule, reported.
  destruct (truthy (validate rule _)) as [e|]; cbn.
  - destruct (decide (field rule = f)) as [->|Hne].
    + now rewrite lookup_insert_eq, bool_decide_eq_true_2.
    + now rewrite lookup_insert_ne, bool_decide_eq_false_2.
  - now destruct (bool_decide _).
Qed.

(** X12: [validateForm] reports a form valid exactly when no rule yields a
    non-empty error, and the error it keeps for a field is that of the last
    rule of the field that fails: the rule's message when it has one, the
    rule's error otherwise. *)
Theorem validateForm_reports (data : Row) (rules : list ValidationRule) :
  let result := validateForm data rules in
  (isValid result = true
   <-> Forall (fun rule => truthy (validate rule (data !! field rule)) = None)
         rules)
  /\ forall f, errors result !! f = last (omap (reported data f) rules).
Proof.
  cbv zeta. unfold validateForm. cbn [isValid errors].
  rewrite bool_decide_eq_true.
  induction rules as [|rule rules IH] using rev_ind.
  - cbn. split; [split; [constructor | set_solver]|]. intros f. apply lookup_empty.
  - rewrite fold_left_app. cbn [fold_left]. destruct IH as [IHv IHe]. split.
    + rewrite dom_checkRule_empty, Forall_app, IHv, Forall_singleton. reflexivity.
    + intros f. rewrite lookup_checkRule, omap_app, IHe.
      change (omap (reported data f) [rule])
        with (match reported data f rule with Some m => [m] | None => [] end).
      destruct (reported data f rule) as [m|].
      * now rewrite last_snoc.
      * now rewrite app_nil_r.
Qed.

End ValidationFacts.

Example emails :
  AuthValidation.validateEmail (Slug.of_string "ada@example.com") = true
  /\ AuthValidation.validateEmail (Slug.of_string "ada@example") = false
  /\ AuthValidation.validateEmail (Slug.of_string "a da@example.com") = false
  /\ AuthValidation.validateEmail (Slug.of_string "ada@@example.com") = false
  /\ AuthValidation.validateEmail (Slug.of_string "ada@example.") = false.
Proof. repeat split. Qed.

(** * The revenue report *)

Section RevenueFacts.
Context {W : Type} `{!Postgrest W}.
Import TransactionService.

Lemma mapGet_mapSet k k' v m :
  mapGet k' (mapSet k v m) = if String.eqb k k' then v else mapGet k' m.
Proof.
  induction m as [|[k0 v0] m IH]; cbn.
  - rewrite String.eqb_sym. now destruct (String.eqb k' k).
  - destruct (String.eqb_spec k0 k) as [->|Hne]; cbn.
    + now destruct (String.eqb k k').
    + rewrite IH. destruct (String.eqb_spec k0 k') as [->|Hne'].
      * destruct (String.eqb_spec k k'); congruence.
      * reflexivity.
Qed.

Lemma keys_mapSet k v m :
  (mapSet k v m).*1 = if bool_decide (k ∈ m.*1) then m.*1 else m.*1 ++ [k].
Proof.
  induction m as [|[k0 v0] m IH]; cbn; [reflexivity|].
  destruct (String.eqb_spec k0 k) as [->|Hne]; cbn.
  - rewrite bool_decide_eq_true_2 by (left). reflexivity.
  - rewrite IH. destruct (decide (k ∈ m.*1)) as [Hin|Hnin].
    + rewrite !bool_decide_eq_true_2; [reflexivity | now right | exact Hin].
    + rewrite !bool_decide_eq_false_2; [reflexivity| |exact Hnin].
      intros [E|Hin]%elem_of_cons; congruence.
Qed.

Lemma counts_mapSet k v m :
  foldr Z.add 0 ((fun e => e.2.2) <$> mapSet k v m)
  = foldr Z.add 0 ((fun e => e.2.2) <$> m) - (mapGet k m).2 + v.2.
Proof.
  induction m as [|[k0 v0] m IH]; cbn; [lia|].
  destruct (String.eqb_spec k0 k) as [->|Hne]; cbn; [lia|].
  rewrite IH. lia.
Qed.

Lemma sumRevenue_snoc rows t :
  sumRevenue (Some (rows ++ [t]))
  = (sumRevenue (Some rows) + amountOf t)%float.
Proof. unfold sumRevenue. now rewrite fold_left_app. Qed.

Lemma paidBy_snoc p rows t :
  paidBy p (rows ++ [t])
  = paidBy p rows ++ (if String.eqb (providerOf t) p then [t] else []).
Proof.
  unfold paidBy. rewrite List.filter_app. cbn. now destruct (String.eqb _ _).
Qed.

Lemma providerMapOf_spec rows :
  let m := providerMapOf rows in
  NoDup m.*1
  /\ (forall p, p ∈ m.*1 <-> exists t, t ∈ rows /\ providerOf t = p)
  /\ forall p, mapGet p m
               = (sumRevenue (Some (paidBy p rows)),
                  Z.of_nat (length (paidBy p rows))).
Proof.
  cbv zeta. induction rows as [|t rows IH] using rev_ind.
  - cbn. split; [constructor|]. split; [|reflexivity].
    intros p. split; [intros []%elem_of_nil | intros (t & []%elem_of_nil & _)].
  - destruct IH as (Hnd & Hkeys & Hget).
    unfold providerMapOf in *. rewrite fold_left_app. cbn [fold_left].
    set (m := fold_left _ rows []) in *. cbv zeta.
    split; [|split].
    + rewrite keys_mapSet. destruct (bool_decide _) eqn:E; [exact Hnd|].
      apply bool_decide_eq_false in E.
      apply NoDup_app. split; [exact Hnd|]. split; [|apply NoDup_singleton].
      intros x Hx ->%list_elem_of_singleton. contradiction.
    + intros p. rewrite keys_mapSet.
      assert (Hin : (exists t0, t0 ∈ rows ++ [t] /\ providerOf t0 = p)
                    <-> p ∈ m.*1 \/ providerOf t = p).
      { rewrite Hkeys. split.
        - intros (t0 & [Ht0| ->%list_elem_of_singleton]%elem_of_app & E);
            [left; now exists t0 | now right].
        - intros [(t0 & Ht0 & E)| E].
          + exists t0. split; [apply elem_of_app; now left | exact E].
          + exists t. split; [apply elem_of_app; right; now left | exact E]. }
      rewrite Hin. destruct (bool_decide _) eqn:E.
      * apply bool_decide_eq_true in E. split; [now left|].
        intros [?| <-]; assumption.
      * rewrite elem_of_app, list_elem_of_singleton. split; intros [?|?]; auto.
    + intros p. rewrite mapGet_mapSet, paidBy_snoc.
      destruct (String.eqb_spec (providerOf t) p) as [<-|Hne].
      * rewrite Hget. cbn [fst snd]. rewrite sumRevenue_snoc, length_app.
        cbn [length]. f_equal. lia.
      * rewrite app_nil_r. apply Hget.
Qed.

Lemma providerMapOf_counts rows :
  foldr Z.add 0 ((fun e => e.2.2) <$> providerMapOf rows)
  = Z.of_nat (length rows).
Proof.
  induction rows as [|t rows IH] using rev_ind; [reflexivity|].
  unfold providerMapOf in *. rewrite fold_left_app. cbn [fold_left].
  set (m := fold_left _ rows []) in *. cbv zeta.
  rewrite counts_mapSet, IH, length_app. cbn [fst snd length]. lia.
Qed.

Lemma mapGet_entry k v m : NoDup m.*1 -> (k, v) ∈ m -> mapGet k m = v.
Proof.
  induction m as [|[k0 v0] m IH]; intros Hnd Hin; [now apply elem_of_nil in Hin|].
  cbn in Hnd. apply NoDup_cons in Hnd as [Hk0 Hnd]. cbn.
  apply elem_of_cons in Hin as [[= <- <-]|Hin].
  - now rewrite String.eqb_refl.
  - destruct (String.eqb_spec k0 k) as [->|_]; [|now apply IH].
    exfalso. apply Hk0. apply list_elem_of_fmap. now exists (k, v).
Qed.

(** X13: [getRevenueByProvider] never rejects and asks once, for the
    provider and the amount of the completed payments.  A reply with a
    result comes from an answer with rows only, and to an answer with
    rows the reply is a result and no error: one entry for each provider
    that occurs among the rows (['unknown'] standing for a missing one), each
    holding the number of that provider's rows and what the reduce of
    [getTransactionStats] makes of those rows: their amounts added from the
    left in binary64, a missing amount counting as 0.  The counts of the
    entries add up to the number of rows. *)
Theorem revenue_by_provider_totals (w : W) :
  let run := getRevenueByProvider w in
  exists reply o,
    out run = Returned reply
    /\ trace run
       = [EvQuery (Builder.eq "status" (VStr "completed")
                     (Builder.from "payments"
                        (Select "payment_provider, amount" false false))) o]
    /\ (forall result, payload reply = Some result ->
          exists rows n, o = Returned (Rows rows n))
    /\ forall rows n, o = Returned (Rows rows n) ->
         exists result,
           reply = mkReply (Some result) None
           /\ NoDup (provider <$> result)
           /\ (forall p, p ∈ provider <$> result
                         <-> exists t, t ∈ rows /\ providerOf t = p)
           /\ Forall (fun entry =>
                        revenue entry
                        = sumRevenue (Some (paidBy (provider entry) rows))
                        /\ count entry
                           = Z.of_nat (length (paidBy (provider entry) rows))
                        /\ 1 <= count entry) result
           /\ foldr Z.add 0 (count <$> result) = Z.of_nat (length rows).
Proof.
  cbv zeta. as_runs getRevenueByProvider w. unfold getRevenueByProvider.
  step. step. step; try step;
    (eexists _, _; split; [reflexivity|]; split; [reflexivity|]);
    (split; [intros result Hp; cbn [payload] in Hp; try discriminate Hp;
             now eexists _, _
            | intros rows0 n0 Eo; try discriminate Eo]).
  injection Eo as <- <-. eexists. split; [reflexivity|].
  unfold aggregate. change (fold_left _ _ []) with (providerMapOf rows).
  destruct (providerMapOf_spec rows) as (Hnd & Hkeys & Hget).
  pose proof (providerMapOf_counts rows) as Hcounts.
  set (m := providerMapOf rows) in *.
  assert (Hkeys' : provider <$> (List.map
                      (fun entry => {| provider := entry.1;
                                       revenue := (entry.2).1;
                                       count := (entry.2).2 |}) m) = m.*1).
  { clear. induction m as [|[k v] m IH]; cbn; [reflexivity|]. now f_equal. }
  rewrite Hkeys'. split; [exact Hnd|]. split; [exact Hkeys|].
  split; [|rewrite <- list_fmap_compose; exact Hcounts].
  apply Forall_forall. intros entry Hin.
  apply list_elem_of_In, in_map_iff in Hin as ([k v] & <- & Hin).
  apply list_elem_of_In in Hin. cbn [provider revenue count fst snd].
  assert (Hk : k ∈ m.*1).
  { apply list_elem_of_fmap. exists (k, v). now split. }
  pose proof (mapGet_entry k v m Hnd Hin) as Ev. rewrite Hget in Ev.
  subst v. cbn [fst snd]. repeat split.
  apply Hkeys in Hk as (t & Ht & Ep).
  assert (Hp : t ∈ paidBy k rows).
  { apply list_elem_of_In, filter_In. split; [now apply list_elem_of_In|].
    now apply String.eqb_eq. }
  destruct (paidBy k rows); [now apply elem_of_nil in Hp | cbn; lia].
Qed.

End RevenueFacts.

(** * The session *)

Section SessionFacts.
Context {W : Type} `{!Postgrest W} `{!Auth W} `{!Timers W}.
Import AuthService AuthSession.

Ltac nobody :=
  cbv beta iota; try step; eexists; split; [reflexivity|]; discriminate.

(** X15: [getCurrentUser] never rejects, and it returns a user only after
    three requests that all succeeded: the session check, which found a
    session, the authenticated user, and that user's profile, whose
    [user_type] is ['admin']; the user returned is that profile and comes
    without error. *)
Theorem getCurrentUser_verifies (w : W) :
  let run := getCurrentUser w in
  exists reply,
    out run = Returned reply
    /\ forall u, payload reply = Some u ->
         u !! "user_type" = Some (VStr "admin")
         /\ error reply = None
         /\ exists found authenticated uid,
              trace run
              = [ EvGetSession (Returned found);
                  EvGetUser (Returned authenticated);
                  EvSingle (profileQuery uid) (Returned (SingleData u)) ]
              /\ is_Some (currentSession found)
              /\ currentUser authenticated = Some {| authId := uid |}.
Proof.
  cbv zeta. as_runs getCurrentUser w. unfold getCurrentUser.
  step. step. apply runs_withTimeout, runs_perform.
  intros [sessionResult|exn] w1 E1; (split; [|nobody]); [|nobody].
  cbv beta iota.
  destruct (sessionFailure sessionResult); [nobody|].
  destruct (currentSession sessionResult) eqn:Esession; [|nobody].
  step. apply runs_withTimeout, runs_perform.
  intros [userResult|exn] w2 E2; (split; [|nobody]); [|nobody].
  cbv beta iota.
  destruct (userFailure userResult); [nobody|].
  destruct (currentUser userResult) as [[uid]|] eqn:Euser; [|nobody].
  step. apply runs_withTimeout, runs_perform.
  intros [[row|refused]|exn] w3 E3; (split; [|nobody]);
    [|nobody|nobody].
  cbv beta iota.
  destruct (decide (row !! "user_type" = Some (VStr "admin"))) as [Hadmin|Hnot].
  - rewrite bool_decide_eq_false_2 by (intros Hne; now apply Hne).
    step. eexists. split; [reflexivity|]. intros u [= <-].
    split; [exact Hadmin|]. split; [reflexivity|].
    eexists _, _, uid. split; [reflexivity|]. rewrite Esession. now split.
  - rewrite bool_decide_eq_true_2 by exact Hnot. nobody.
Qed.

(** X16: when the timer of 8 seconds fires before the session check
    settles, [getCurrentUser] replies with no user and the time-out as error,
    and has asked for nothing but the session. *)
Theorem getCurrentUser_times_out (w : W) :
  firesFirst 8000 w = true ->
  let run := getCurrentUser w in
  out run = Returned (mkReply None (Some (plainError timedOut)))
  /\ trace run = [EvGetSession (authGetSession w).1].
Proof.
  intros Hfires. cbv zeta. unfold getCurrentUser, guarded, tryCatch, mbind,
    Async_bind, bind, withTimeout, perform.
  rewrite Hfires. destruct (authGetSession w) as [o w']. cbn. split; reflexivity.
Qed.

(** X17: without a session, [getCurrentUser] replies with neither a user
    nor an error, and has asked for nothing but the session. *)
Theorem getCurrentUser_without_session (w w' : W) :
  firesFirst 8000 w = false ->
  authGetSession w
  = (Returned {| currentSession := None; sessionFailure := None |}, w') ->
  getCurrentUser w
  = mkRun (Returned (mkReply None None)) w'
      [EvGetSession (Returned {| currentSession := None;
                                 sessionFailure := None |})].
Proof.
  intros Hfires Hsession. unfold getCurrentUser, guarded, tryCatch, mbind,
    Async_bind, bind, withTimeout, perform.
  rewrite Hfires, Hsession. reflexivity.
Qed.

Lemma runs_getCurrentUser (w : W) Φ :
  (forall reply w' tr,
     (forall u, payload reply = Some u ->
                u !! "user_type" = Some (VStr "admin") /\ error reply = None) ->
     Φ (Returned reply) w' tr) ->
  runs getCurrentUser w Φ.
Proof.
  intros H. unfold runs. destruct (getCurrentUser_gated w) as (reply & E & Hu).
  rewrite E. now apply H.
Qed.

(** X18: [getSession] never rejects; the session it returns is the one
    that the session check found, with [expires_at] 0 when absent; and it
    returns a user only together with a session and without error, the user
    being a profile whose [user_type] is ['admin']. *)
Theorem getSession_reports (w : W) :
  let run := getSession w in
  exists reply,
    out run = Returned reply
    /\ (forall s, session reply = Some s ->
          exists found raw tr,
            trace run = EvGetSession (Returned found) :: tr
            /\ sessionFailure found = None
            /\ currentSession found = Some raw
            /\ s = {| accessToken := access_token raw;
                      refreshToken := refresh_token raw;
                      expiresAt := nullish (expires_at raw) 0 |})
    /\ (forall u, user reply = Some u ->
          u !! "user_type" = Some (VStr "admin")
          /\ is_Some (session reply)
          /\ sessionError reply = None).
Proof.
  cbv zeta. as_runs getSession w. unfold getSession.
  step. step. apply runs_perform.
  intros [sessionResult|exn] w1 E1; cbv beta iota.
  2:{ step. eexists. split; [reflexivity|]. split; discriminate. }
  destruct (sessionFailure sessionResult) eqn:Efail.
  { step. eexists. split; [reflexivity|]. split; discriminate. }
  destruct (currentSession sessionResult) as [raw|] eqn:Eraw.
  2:{ step. eexists. split; [reflexivity|]. split; discriminate. }
  step. apply runs_getCurrentUser. intros reply w2 tr Hadmin.
  step. eexists. split; [reflexivity|]. cbn [session user sessionError]. split.
  - intros s [= <-]. eexists sessionResult, raw, _.
    split; [reflexivity|]. now repeat split.
  - intros u Hu. destruct (Hadmin u Hu) as [Ha He]. now repeat split.
Qed.

(** X19: the listener of [onAuthStateChange] never rejects.  It gives
    [callback] a user only on the events SIGNED_IN and TOKEN_REFRESHED with a
    session, and then a profile whose [user_type] is ['admin']; on SIGNED_OUT
    or without a session it gives null and asks for nothing; on any other
    event it does not call [callback] and asks for nothing. *)
Theorem onAuthStateChange_calls_back (event : string) (session : option Session)
  (w : W) :
  let run := onAuthStateChange event session w in
  exists called,
    out run = Returned called
    /\ (forall u, called = Some (Some u) ->
          u !! "user_type" = Some (VStr "admin")
          /\ (event = "SIGNED_IN" \/ event = "TOKEN_REFRESHED")
          /\ is_Some session)
    /\ (event = "SIGNED_OUT" \/ session = None ->
        called = Some None /\ trace run = [])
    /\ (event <> "SIGNED_OUT" -> event <> "SIGNED_IN" ->
        event <> "TOKEN_REFRESHED" -> is_Some session ->
        called = None /\ trace run = []).
Proof.
  cbv zeta. as_runs (onAuthStateChange event session) w.
  unfold onAuthStateChange.
  destruct (decide (event = "SIGNED_OUT")) as [Hout|Hout].
  { rewrite bool_decide_eq_true_2 by exact Hout. cbn [orb].
    step. eexists. split; [reflexivity|]. split; [discriminate|].
    split; [now split|]. intros Hne. contradiction. }
  rewrite bool_decide_eq_false_2 by exact Hout. cbn [orb].
  destruct session as [s|].
  2:{ step. eexists. split; [reflexivity|]. split; [discriminate|].
      split; [now split|]. intros _ _ _ [? [=]]. }
  destruct (decide (event = "SIGNED_IN")) as [Hin|Hin].
  { rewrite bool_decide_eq_true_2 by exact Hin. cbn [orb].
    step. apply runs_getCurrentUser. intros reply w2 tr Hadmin.
    step. eexists. split; [reflexivity|]. split; [|split].
    - intros u [= Hu]. destruct (Hadmin u Hu) as [Ha _].
      split; [exact Ha|]. split; [now left | now eexists].
    - intros [?|[=]]. contradiction.
    - intros _ Hne. contradiction. }
  rewrite bool_decide_eq_false_2 by exact Hin. cbn [orb].
  destruct (decide (event = "TOKEN_REFRESHED")) as [Href|Href].
  { rewrite bool_decide_eq_true_2 by exact Href.
    step. apply runs_getCurrentUser. intros reply w2 tr Hadmin.
    step. eexists. split; [reflexivity|]. split; [|split].
    - intros u [= Hu]. destruct (Hadmin u Hu) as [Ha _].
      split; [exact Ha|]. split; [now right | now eexists].
    - intros [?|[=]]. contradiction.
    - intros _ _ Hne. contradiction. }
  rewrite bool_decide_eq_false_2 by exact Href.
  step. eexists. split; [reflexivity|]. split; [discriminate|].
  split; [|now split]. intros [?|[=]]. contradiction.
Qed.

(** X20: [logout] never rejects, asks for the sign-out and nothing else,
    and replies without error exactly when the sign-out returned without
    error; an error of the sign-out is handed on without its status, and an
    exception of the sign-out becomes the error of the reply. *)
Theorem logout_reports (w : W) :
  let run := logout w in
  exists reply answer,
    out run = Returned reply
    /\ trace run = [EvSignOut answer]
    /\ deleteError reply
       = match answer with
         | Returned None => None
         | Returned (Some error) =>
             Some {| message := auth_message error; code := auth_code error;
                     status := None |}
         | Threw e => Some (plainError (messageOr e "Failed to logout"))
         end.
Proof.
  cbv zeta. as_runs logout w. unfold logout, guardedDelete, signOut.
  step. step. apply runs_perform. intros [[error|]|exn] w1 E1; cbv beta iota;
    step; eexists _, _; repeat split.
Qed.

End SessionFacts.

Lemma getCurrentUser_times_out_witness :
  let run := @AuthService.getCurrentUser Stalled.Line Stalled.postgrest
               Stalled.auth Stalled.timers MoreExamples.stalled in
  out run = Returned (mkReply None (Some (plainError timedOut)))
  /\ trace run
     = [EvGetSession (@authGetSession _ Stalled.auth MoreExamples.stalled).1].
Proof.
  apply (@getCurrentUser_times_out Stalled.Line Stalled.postgrest Stalled.auth
           Stalled.timers MoreExamples.stalled).
  reflexivity.
Defined.

Lemma getCurrentUser_without_session_witness :
  AuthService.getCurrentUser Examples.agreeable
  = mkRun (Returned (mkReply None None)) Examples.agreeable
      [EvGetSession (Returned {| currentSession := None;
                                 sessionFailure := None |})].
Proof.
  apply (getCurrentUser_without_session Examples.agreeable Examples.agreeable);
    reflexivity.
Defined.

(** The customer of [Examples.stormy] has a session: [getSession] hands
    back its tokens together with the refusal. *)
Example session_of_a_customer :
  out (AuthSession.getSession Examples.stormy)
  = Returned
      {| AuthService.session :=
           Some {| AuthService.accessToken := "a";
                   AuthService.refreshToken := "r";
                   AuthService.expiresAt := 0 |};
         AuthService.user := None;
         AuthService.sessionError :=
           Some (plainError AuthService.accessDenied) |}.
Proof. vm_compute. reflexivity. Qed.

(** * The waits of the retry helper *)

Section RetryBudget.
Context {W : Type} `{!Timers W} {T : Type}.
Import ErrorHandler.

Lemma timeouts_app tr tr' : timeouts (tr ++ tr') = timeouts tr ++ timeouts tr'.
Proof. apply omap_app. Qed.

Lemma failing_timeouts (operation : Async W T) (wait : Z -> Z) errors :
  (forall w, timeouts (trace (operation w)) = []) ->
  forall k w tr w',
    failing operation wait k w errors tr w' ->
    timeouts tr = wait <$> seqZ k (Z.of_nat (length errors)).
Proof.
  intros Hquiet. induction errors as [|e errors IH]; intros k w tr w' H.
  - destruct H as [-> _]. reflexivity.
  - destruct H as (Hthrew & tr' & -> & Hrest).
    rewrite timeouts_app, Hquiet. cbn [app length].
    rewrite seqZ_cons by lia. cbn.
    replace (Z.pred (Z.of_nat (S (length errors))))
      with (Z.of_nat (length errors)) by lia.
    f_equal. replace (Z.succ k) with (k + 1) by lia. exact (IH _ _ _ _ Hrest).
Qed.

Lemma sum_waits (delay : Z) (backoff : bool) (n : nat) :
  foldr Z.add 0 (waitTime delay backoff <$> seqZ 0 (Z.of_nat n))
  = if backoff then delay * (2 ^ Z.of_nat n - 1) else delay * Z.of_nat n.
Proof.
  induction n as [|n IH].
  - change (Z.of_nat 0) with 0. change (seqZ 0 0) with (@nil Z).
    destruct backoff; cbn [fmap list_fmap foldr]; rewrite ?Z.pow_0_r; lia.
  - rewrite seqZ_S, fmap_app, foldr_app, Nat2Z.inj_succ.
    cbn [fmap list_fmap foldr].
    rewrite Z.add_0_l, Z.add_0_r.
    assert (Hfold : forall l a, foldr Z.add a l = foldr Z.add 0 l + a).
    { induction l as [|x l IHl]; intros a; cbn; [lia|]. rewrite IHl. lia. }
    rewrite Hfold, IH. unfold waitTime. destruct backoff.
    + rewrite Z.pow_succ_r by lia. lia.
    + lia.
Qed.

(** X21: an operation that throws at every invocation, and arms no timer of
    its own, is given up by [retryOperation] with an exception after the
    waits [delay * 2^k] for [k] from 0 to [maxRetries - 1] with backoff, and
    [maxRetries] waits of [delay] without: [delay * (2^maxRetries - 1)] and
    [delay * maxRetries] in all. *)
Theorem retryOperation_exhausts (operation : Async W T)
  (maxRetries delay : Z) (backoff : bool) (w : W) :
  0 <= maxRetries ->
  (forall w, exists e, out (operation w) = Threw e) ->
  (forall w, timeouts (trace (operation w)) = []) ->
  let run := retryOperation operation maxRetries delay backoff w in
  (exists e, out run = Threw e)
  /\ timeouts (trace run)
     = (fun attempt => if backoff then delay * 2 ^ attempt else delay)
       <$> seqZ 0 maxRetries
  /\ foldr Z.add 0 (timeouts (trace run))
     = if backoff then delay * (2 ^ maxRetries - 1) else delay * maxRetries.
Proof.
  intros Hmax Hthrows Hquiet. cbv zeta. unfold retryOperation.
  destruct (retryFrom_spec operation maxRetries delay backoff
              (Z.to_nat (maxRetries + 1)) 0 (NonError "undefined") w)
    as (errors & tr & w' & Hfail & Hlen & Htr & Hw & Hout); [lia..|].
  destruct (Hthrows w') as [e He]. rewrite He in Hout.
  destruct Hout as [Hn Hout].
  assert (Htimes : timeouts (trace (retryFrom operation maxRetries delay backoff
                      (Z.to_nat (maxRetries + 1)) 0 (NonError "undefined") w))
                   = waitTime delay backoff <$> seqZ 0 maxRetries).
  { rewrite Htr, timeouts_app, Hquiet, app_nil_r.
    rewrite (failing_timeouts _ _ _ Hquiet _ _ _ _ Hfail). f_equal. f_equal. lia. }
  split; [eexists; exact Hout|]. split; [exact Htimes|].
  rewrite Htimes. rewrite <- (Z2Nat.id maxRetries) at 1 by lia.
  rewrite sum_waits. now rewrite Z2Nat.id by lia.
Qed.

End RetryBudget.

Lemma retryOperation_exhausts_witness :
  let run := ErrorHandler.retryOperation Examples.alwaysThrows 3 1000 true
               Examples.agreeable in
  (exists e, out run = Threw e)
  /\ timeouts (trace run)
     = (fun attempt => if true then 1000 * 2 ^ attempt else 1000) <$> seqZ 0 3
  /\ foldr Z.add 0 (timeouts (trace run))
     = if true then 1000 * (2 ^ 3 - 1) else 1000 * 3.
Proof.
  apply (retryOperation_exhausts Examples.alwaysThrows 3 1000 true
           Examples.agreeable).
  - lia.
  - intros w. eexists. reflexivity.
  - intros w. reflexivity.
Defined.

(** * More on the store *)

Section StoreExtras.
Context `{!Store.Behaviour}.
Import Store.

Lemma selected_id t v id r :
  selected (Builder.eq "id" (VStr id) (Builder.from t v)) r
  = bool_decide (r !! "id" = Some (VStr id)).
Proof.
  unfold selected. cbn. rewrite andb_true_r.
  now rewrite (bool_decide_eq_true_2 (VStr id ≠ VNull)) by discriminate.
Qed.

(** On the store, a select through [await] leaves it as it is. *)
Lemma many_select q db :
  isSelect q = true -> many q db = (Returned (answerSelect q (tables db)), db).
Proof. unfold many. now intros ->. Qed.

(** A delete of the rows with a given id. *)
Lemma delete_by_id t id fallback db :
  let run :=
    guardedDelete fallback (
      r ← await (Builder.eq "id" (VStr id) (Builder.from t Delete));
      match r with
      | PgError error => mret (mkDeleteReply (Some (apiError error)))
      | PgData _ _ => mret (mkDeleteReply None)
      end) db in
  exists reply,
    out run = Returned reply
    /\ match deleteError reply with
       | None => removed t id db (world run) /\ withId t id (world run) = []
       | Some e => world run = db
       end.
Proof.
  cbv zeta.
  match goal with |- context [out (?m db)] => as_runs m db end.
  unfold guardedDelete. step. step.
  apply runs_await. intros o w' E. cbn [pgAwait postgrest] in E.
  unfold many in E. change (isSelect _) with false in E. cbv iota in E.
  unfold effect in E.
  cbn [verb Builder.eq Builder.addFilter Builder.from table] in E.
  destruct (integrity t _) as [e|] eqn:Ei; injection E as <- <-;
    cbn [settle handed]; step; eexists; (split; [reflexivity|]);
    cbn [deleteError].
  - reflexivity.
  - split; [split|].
    + intros t' Hne. unfold withTable. cbn. now rewrite lookup_insert_ne.
    + rewrite rowsOf_withTable. apply List.filter_ext. intros r.
      now rewrite selected_id.
    + unfold withId. rewrite rowsOf_withTable.
      erewrite (List.filter_ext (fun r : Row => negb _)
                  (fun r : Row => negb (bool_decide (r !! "id" = Some (VStr id)))))
        by (intros r; now rewrite selected_id).
      clear Ei. induction (rowsOf t db) as [|r rows IH]; [reflexivity|]. cbn.
      destruct (bool_decide (r !! "id" = Some (VStr id))) eqn:Er; cbn;
        [exact IH | now rewrite Er].
Qed.

(** A lookup of the row with a given id. *)
Lemma get_by_id t columns id fallback db :
  guarded fallback (
    r ← awaitSingle
          (Builder.eq "id" (VStr id)
             (Builder.from t (Select columns false false)));
    match r with
    | SingleError error => mret (mkReply None (Some (apiError error)))
    | SingleData data => mret (mkReply (Some data) None)
    end) db
  = let q := Builder.eq "id" (VStr id)
               (Builder.from t (Select columns false false)) in
    match withId t id db with
    | [r] => mkRun (Returned (mkReply (Some (shape columns r)) None)) db
               [EvSingle q (Returned (SingleData (shape columns r)))]
    | _ => mkRun (Returned (mkReply None (Some (apiError notSingle)))) db
             [EvSingle q (Returned (SingleError notSingle))]
    end.
Proof.
  cbv zeta.
  unfold guarded, tryCatch, mbind, Async_bind, bind, awaitSingle, perform.
  cbn [pgSingle postgrest]. rewrite single_select by reflexivity.
  cbn [table Builder.eq Builder.addFilter Builder.from columnsOf verb].
  rewrite (List.filter_ext _ _ (selected_id t _ id)).
  fold (withId t id db).
  destruct (withId t id db) as [|r [|r' rest]]; reflexivity.
Qed.

Lemma deleted_then_missing t columns fallback fallback' :
  deletesById t
    (fun id =>
       guardedDelete fallback (
         r ← await (Builder.eq "id" (VStr id) (Builder.from t Delete));
         match r with
         | PgError error => mret (mkDeleteReply (Some (apiError error)))
         | PgData _ _ => mret (mkDeleteReply None)
         end))
    (fun id =>
       guarded fallback' (
         r ← awaitSingle
               (Builder.eq "id" (VStr id)
                  (Builder.from t (Select columns false false)));
         match r with
         | SingleError error => mret (mkReply None (Some (apiError error)))
         | SingleData data => mret (mkReply (Some data) None)
         end)).
Proof.
  intros id db. cbv zeta.
  destruct (delete_by_id t id fallback db) as (reply & E & Hreply).
  exists reply. split; [exact E|].
  destruct (deleteError reply) as [e|].
  - apply Hreply.
  - destruct Hreply as [Hrem Hgone]. split; [exact Hrem|]. split; [exact Hgone|].
    cbv beta. rewrite get_by_id. cbv zeta. now rewrite Hgone.
Qed.

(** X22: on the store, each of the five delete functions never rejects;
    when it replies without error, the rows of its table that have the given
    id are gone and nothing else has changed, and the get-by-id function of
    the same service then replies with the error of [.single()], PGRST116;
    when it replies with an error, the store is as it was. *)
Theorem deletes_by_id :
  deletesById "businesses" BusinessService.deleteBusiness
    BusinessService.getBusinessById
  /\ deletesById "services" ServiceService.deleteService
       ServiceService.getServiceById
  /\ deletesById "companies" CompanyService.deleteCompany
       CompanyService.getCompanyById
  /\ deletesById "users" UserService.deleteUser UserService.getUserById
  /\ deletesById "legal_pages" LegalPageService.deleteLegalPage
       LegalPageService.getLegalPageById.
Proof. repeat split; apply deleted_then_missing. Qed.

Ltac absent Hc :=
  repeat (rewrite lookup_insert_ne by (intros <-; apply Hc; set_solver));
  apply lookup_empty.

Lemma updateData_supplied input t c :
  c ∉ supplied input -> LegalPageService.updateData input t !! c = None.
Proof.
  intros Hc. unfold LegalPageService.updateData, supplied, present in *.
  destruct (LegalPageService.newTitle input),
    (LegalPageService.newSlug input),
    (LegalPageService.newContent input),
    (LegalPageService.newIsActive input); cbn in *; absent Hc.
Qed.

Lemma updateData_id input t : LegalPageService.updateData input t !! "id" = None.
Proof.
  unfold LegalPageService.updateData.
  destruct (LegalPageService.newTitle input),
    (LegalPageService.newSlug input),
    (LegalPageService.newContent input),
    (LegalPageService.newIsActive input); reflexivity.
Qed.

(** X23: on the store, [updateUserStatus] changes nothing but the columns
    [is_active] and [updated_at] of the rows of [users] with the given id,
    and [updateLegalPage] nothing but, in the rows of [legal_pages] with the
    given id, the columns of the fields that its input supplies and
    [updated_at]; when the update succeeds, these rows hold the values of
    the update. *)
Theorem other_updates_frame (db : Db) (id : string) (isActive : bool)
  (input : LegalPageService.UpdateLegalPageInput) :
  (let run := UserService.updateUserStatus id isActive db in
   let values : Row :=
     <["is_active" := VBool isActive]> (<["updated_at" := VStr (clock db)]> ∅) in
   onlyChanges "users" id ["is_active"; "updated_at"] db (world run)
   /\ forall reply row,
        out run = Returned reply -> payload reply = Some row ->
        writes "users" id values (world run))
  /\ (let run := LegalPageService.updateLegalPage id input db in
      let values := LegalPageService.updateData input (clock db) in
      onlyChanges "legal_pages" id (supplied input) db (world run)
      /\ forall reply row,
           out run = Returned reply -> payload reply = Some row ->
           writes "legal_pages" id values (world run)).
Proof.
  split; cbv zeta.
  - as_runs (UserService.updateUserStatus (W := Db) id isActive) db.
    unfold UserService.updateUserStatus.
    step. step. apply runs_observe. intros t w' E.
    cbn [isoNow pgSingle pgAwait postgrest] in E. injection E as <- <-.
    step. apply runs_perform. intros o w' E.
    cbn [isoNow pgSingle pgAwait postgrest] in E.
    eapply finish_update; [| |exact E].
    + intros c Hc. absent Hc.
    + reflexivity.
  - as_runs (LegalPageService.updateLegalPage (W := Db) id input) db.
    unfold LegalPageService.updateLegalPage. step. cbv zeta.
    assert (Hupdate :
      runs (now ≫= λ updated_at : string,
              awaitSingle
                (Builder.select "*"
                   (Builder.eq "id" (VStr id)
                      (Builder.from "legal_pages"
                         (Update (LegalPageService.updateData input updated_at)))))
              ≫= λ r : PostgrestSingleResponse,
                   match r with
                   | SingleData data => mret (mkReply (Some data) None)
                   | SingleError error =>
                       mret (mkReply None (Some (apiError error)))
                   end) db
        (fun o w' tr =>
           match o with
           | Returned a =>
               onlyChanges "legal_pages" id (supplied input) db w'
               /\ forall (reply : Reply Row) (row : Row),
                    Returned a = Returned reply -> payload reply = Some row ->
                    writes "legal_pages" id
                      (LegalPageService.updateData input (clock db)) w'
           | Threw e =>
               onlyChanges "legal_pages" id (supplied input) db w'
               /\ forall (reply : Reply Row) (row : Row),
                    Returned (mkReply None
                                (Some (plainError
                                         (messageOr e "Failed to update legal page"))))
                    = Returned reply ->
                    payload reply = Some row ->
                    writes "legal_pages" id
                      (LegalPageService.updateData input (clock db)) w'
           end)).
    { step. apply runs_observe. intros t w' E.
      cbn [isoNow pgSingle pgAwait postgrest] in E. injection E as <- <-.
      step. apply runs_perform. intros o w' E.
      cbn [isoNow pgSingle pgAwait postgrest] in E.
      eapply finish_update; [| |exact E].
      - intros c Hc. now apply updateData_supplied.
      - apply updateData_id. }
    destruct (truthy (LegalPageService.newSlug input)) as [s|];
      [|exact Hupdate].
    step. apply runs_perform. intros o w' E.
    cbn [isoNow pgSingle pgAwait postgrest] in E.
    rewrite single_select in E by reflexivity. injection E as <- <-.
    destruct (List.filter _ _) as [|r [|r' rest]]; cbv beta iota.
    + unfold runs in *. destruct (out _); exact Hupdate.
    + step. split; [apply onlyChanges_refl|]. intros ? ? [= <-] [=].
    + unfold runs in *. destruct (out _); exact Hupdate.
Qed.

Ltac select_query :=
  unfold isSelect;
  repeat (cbn [verb Builder.range Builder.order Builder.eq Builder.neq
                 Builder.gte Builder.lte Builder.or Builder.addFilter
                 Builder.from countAll TransactionService.revenueQuery];
          try match goal with
              | |- context [match ?o with Some _ => _ | None => _ end] =>
                  destruct o
              end);
  reflexivity.

(** One step of a run that only selects. *)
Ltac read :=
  lazymatch goal with
  | |- runs (await _) _ _ =>
      let o := fresh "o" in let w' := fresh "w" in let E := fresh "E" in
      apply runs_await; intros o w' E; cbn [pgAwait postgrest] in E;
      rewrite many_select in E by select_query; injection E as <- <-;
      destruct (answerSelect _ _); cbn [settle handed]; cbv beta iota
  | |- runs (awaitSingle _) _ _ =>
      let o := fresh "o" in let w' := fresh "w" in let E := fresh "E" in
      apply runs_perform; intros o w' E; cbn [pgSingle postgrest] in E;
      rewrite single_select in E by select_query; injection E as <- <-;
      destruct (List.filter _ _) as [|? [|? ?]]; cbv beta iota
  | |- _ => step
  end.

Ltac reads m :=
  let db := fresh "db" in
  intros db; pattern (world (m db));
  match goal with
  | |- ?Φ _ => change (runs m db (fun _ w' _ => Φ w'))
  end;
  cbv beta.

Ltac quiet := cbv zeta; repeat read; reflexivity.

(** X24: on the store, the list, get-by-id and stats functions of the six
    services, [getLegalPageBySlug], [getTransactionsByDateRange] and
    [getRevenueByProvider] change nothing. *)
Theorem reads_leave_store
  (businesses : BusinessService.BusinessQueryParams)
  (services : ServiceService.ServiceQueryParams)
  (companies : CompanyService.CompanyQueryParams)
  (users : UserService.UserQueryParams)
  (transactions : TransactionService.TransactionQueryParams)
  (pages : LegalPageService.LegalPageFilters)
  (id slug dateFrom dateTo : string) :
  (readOnly (BusinessService.getBusinesses businesses)
   /\ readOnly (BusinessService.getBusinessById id)
   /\ readOnly BusinessService.getBusinessStats)
  /\ (readOnly (ServiceService.getServices services)
      /\ readOnly (ServiceService.getServiceById id)
      /\ readOnly ServiceService.getServiceStats)
  /\ (readOnly (CompanyService.getCompanies companies)
      /\ readOnly (CompanyService.getCompanyById id)
      /\ readOnly CompanyService.getCompanyStats)
  /\ (readOnly (UserService.getUsers users)
      /\ readOnly (UserService.getUserById id)
      /\ readOnly UserService.getUserStats)
  /\ (readOnly (TransactionService.getTransactions transactions)
      /\ readOnly (TransactionService.getTransactionById id)
      /\ readOnly TransactionService.getTransactionStats
      /\ readOnly (TransactionService.getTransactionsByDateRange dateFrom dateTo)
      /\ readOnly TransactionService.getRevenueByProvider)
  /\ (readOnly (LegalPageService.getLegalPages pages)
      /\ readOnly (LegalPageService.getLegalPageById id)
      /\ readOnly (LegalPageService.getLegalPageBySlug slug)).
Proof.
  repeat split.
  - reads (BusinessService.getBusinesses (W := Db) businesses).
    unfold BusinessService.getBusinesses. quiet.
  - reads (BusinessService.getBusinessById (W := Db) id).
    unfold BusinessService.getBusinessById. quiet.
  - reads (BusinessService.getBusinessStats (W := Db)).
    unfold BusinessService.getBusinessStats. quiet.
  - reads (ServiceService.getServices (W := Db) services).
    unfold ServiceService.getServices. quiet.
  - reads (ServiceService.getServiceById (W := Db) id).
    unfold ServiceService.getServiceById. quiet.
  - reads (ServiceService.getServiceStats (W := Db)).
    unfold ServiceService.getServiceStats. quiet.
  - reads (CompanyService.getCompanies (W := Db) companies).
    unfold CompanyService.getCompanies. quiet.
  - reads (CompanyService.getCompanyById (W := Db) id).
    unfold CompanyService.getCompanyById. quiet.
  - reads (CompanyService.getCompanyStats (W := Db)).
    unfold CompanyService.getCompanyStats. quiet.
  - reads (UserService.getUsers (W := Db) users).
    unfold UserService.getUsers. quiet.
  - reads (UserService.getUserById (W := Db) id).
    unfold UserService.getUserById. quiet.
  - reads (UserService.getUserStats (W := Db)).
    unfold UserService.getUserStats. quiet.
  - reads (TransactionService.getTransactions (W := Db) transactions).
    unfold TransactionService.getTransactions. quiet.
  - reads (TransactionService.getTransactionById (W := Db) id).
    unfold TransactionService.getTransactionById. quiet.
  - reads (TransactionService.getTransactionStats (W := Db)).
    unfold TransactionService.getTransactionStats. quiet.
  - reads (TransactionService.getTransactionsByDateRange (W := Db)
             dateFrom dateTo).
    unfold TransactionService.getTransactionsByDateRange,
      TransactionService.getTransactions. quiet.
  - reads (TransactionService.getRevenueByProvider (W := Db)).
    unfold TransactionService.getRevenueByProvider. quiet.
  - reads (LegalPageService.getLegalPages (W := Db) pages).
    unfold LegalPageService.getLegalPages. quiet.
  - reads (LegalPageService.getLegalPageById (W := Db) id).
    unfold LegalPageService.getLegalPageById. quiet.
  - reads (LegalPageService.getLegalPageBySlug (W := Db) slug).
    unfold LegalPageService.getLegalPageBySlug. quiet.
Qed.

Import LegalPageService.

Lemma filter_holdsSlug_snoc s rows r :
  List.filter (holdsSlug s) rows = [] ->
  r !! "slug" = Some (VStr s) ->
  List.filter (holdsSlug s) (rows ++ [r]) = [r].
Proof.
  intros Hnone Hr. rewrite List.filter_app, Hnone. cbn.
  unfold holdsSlug. now rewrite bool_decide_eq_true_2.
Qed.

(** X25: on the store, when no legal page holds the slug of the input, the
    row that the store makes of the input holds it and the store accepts that
    row, [createLegalPage] appends the row and returns it;
    [getLegalPageBySlug] with that slug then returns the same page, and a
    second [createLegalPage] with the same input is refused with 'A legal
    page with this slug already exists' and changes nothing. *)
Theorem create_then_lookup (db : Db) (input : CreateLegalPageInput) :
  let rows := rowsOf "legal_pages" db in
  let r := defaults "legal_pages" rows (insertData input) in
  List.filter (holdsSlug (slug input)) rows = [] ->
  r !! "slug" = Some (VStr (slug input)) ->
  integrity "legal_pages" (rows ++ [r]) = None ->
  let run := createLegalPage input db in
  out run = Returned (mkReply (Some (shape "*" r)) None)
  /\ world run = withTable db "legal_pages" (rows ++ [r])
  /\ out (getLegalPageBySlug (slug input) (world run))
     = Returned (mkReply (Some (shape "*" r)) None)
  /\ createLegalPage input (world run)
     = mkRun (Returned (mkReply None (Some (plainError slugTaken)))) (world run)
         [EvSingle (slugLookup (slug input))
            (Returned (SingleData (shape "id" r)))].
Proof.
  intros rows r Hnone Hslug Hok run.
  assert (Hrun : out run = Returned (mkReply (Some (shape "*" r)) None)
                 /\ world run = withTable db "legal_pages" (rows ++ [r])).
  { subst run. as_runs (createLegalPage (W := Db) input) db.
    unfold createLegalPage. step. step. apply runs_perform. intros o w' E.
    cbn [pgSingle postgrest] in E. rewrite single_select in E by reflexivity.
    rewrite (List.filter_ext _ _ (selected_slugLookup (slug input))) in E.
    change (table (slugLookup (slug input))) with "legal_pages" in E.
    fold rows in E. rewrite Hnone in E. injection E as <- <-. cbv beta iota.
    step. apply runs_perform. intros o w' E.
    cbn [pgSingle postgrest] in E. unfold single, effect in E.
    cbn [verb table Builder.select Builder.from isSelect] in E.
    fold rows in E. fold r in E. rewrite Hok in E. injection E as <- <-.
    cbv beta iota. step. now split. }
  destruct Hrun as [Hout Hworld]. split; [exact Hout|]. split; [exact Hworld|].
  rewrite Hworld.
  assert (Hone : List.filter (holdsSlug (slug input))
                   (rowsOf "legal_pages"
                      (withTable db "legal_pages" (rows ++ [r]))) = [r]).
  { rewrite rowsOf_withTable. now apply filter_holdsSlug_snoc. }
  split.
  - unfold getLegalPageBySlug, guarded, tryCatch, mbind, Async_bind, bind,
      awaitSingle, perform.
    cbn [pgSingle postgrest]. rewrite single_select by reflexivity.
    cbn [table Builder.eq Builder.addFilter Builder.from columnsOf verb].
    erewrite (List.filter_ext _ (holdsSlug (slug input)));
      [now rewrite Hone|].
    intros x. unfold selected, holdsSlug. cbn. rewrite andb_true_r.
    now rewrite bool_decide_eq_true_2 by discriminate.
  - apply createLegalPage_taken.
    cbn [pgSingle postgrest]. rewrite single_select by reflexivity.
    rewrite (List.filter_ext _ _ (selected_slugLookup (slug input))).
    change (table (slugLookup (slug input))) with "legal_pages".
    now rewrite Hone.
Qed.

End StoreExtras.

Lemma create_then_lookup_witness :
  let db := Examples.shop in
  let input := MoreExamples.privacy in
  let rows := Store.rowsOf "legal_pages" db in
  let r := @Store.defaults Store.plain "legal_pages" rows
             (LegalPageService.insertData input) in
  let run := @LegalPageService.createLegalPage Store.Db
               (@Store.postgrest Store.plain) input db in
  out run = Returned (mkReply (Some (@Store.shape Store.plain "*" r)) None)
  /\ world run = Store.withTable db "legal_pages" (rows ++ [r])
  /\ out (@LegalPageService.getLegalPageBySlug Store.Db
            (@Store.postgrest Store.plain) (LegalPageService.slug input)
            (world run))
     = Returned (mkReply (Some (@Store.shape Store.plain "*" r)) None)
  /\ @LegalPageService.createLegalPage Store.Db (@Store.postgrest Store.plain)
       input (world run)
     = mkRun (Returned (mkReply None
                          (Some (plainError LegalPageService.slugTaken))))
         (world run)
         [EvSingle (LegalPageService.slugLookup (LegalPageService.slug input))
            (Returned (SingleData (@Store.shape Store.plain "id" r)))].
Proof.
  apply (@create_then_lookup Store.plain Examples.shop MoreExamples.privacy).
  - vm_compute. reflexivity.
  - vm_compute. reflexivity.
  - reflexivity.
Defined.

(** * Errors shown to the administrator, and the authentication hook *)

Section ApiErrorFacts.
Import ApiErrors.

(** X26: whatever the error and the context, [handleApiError] shows
    exactly one toast: a warning for the status 429 and an error otherwise;
    and it arms the redirect to the login page, after 2 seconds, for the
    status 401 and for no other. *)
Theorem handleApiError_effects (error : ApiError) (context : option string) :
  let effects := handleApiError error context in
  (exists toast,
     toasts effects = [toast]
     /\ (Toast.color toast = Toast.Warning <-> status error = Some 429)
     /\ (Toast.color toast = Toast.Danger <-> status error <> Some 429))
  /\ (NavigateAfter 2000 "/login" ∈ effects <-> status error = Some 401)
  /\ forall ms href, NavigateAfter ms href ∈ effects ->
                     ms = 2000 /\ href = "/login".
Proof.
  cbv zeta. unfold handleApiError, statusIn.
  destruct (status error) as [s|] eqn:Es.
  2:{ destruct (truthy (Some (message error))); cbn;
      (split; [eexists; split; [reflexivity|]; split; split; try discriminate;
               intros; reflexivity|]);
      (split; [split; [|discriminate];
               intros [=]%list_elem_of_singleton
              | intros ms href [=]%list_elem_of_singleton]). }
  repeat match goal with
         | |- context [bool_decide (s ∈ ?l)] =>
             let Hin := fresh "Hin" in
             destruct (decide (s ∈ l)) as [Hin|Hin];
             [rewrite (bool_decide_eq_true_2 _ Hin)
             |rewrite (bool_decide_eq_false_2 _ Hin)];
             rewrite ?elem_of_cons, ?elem_of_nil in Hin
         end.
  all: try (destruct (truthy (Some (message error)))).
  all: cbn [toasts omap list_omap Toast.showError Toast.showWarning Toast.make
            Toast.unauthorized Toast.color].
  all: split;
    [eexists; split; [reflexivity|]; cbn [Toast.color];
     split; split; intros Hq;
     first [ discriminate Hq | reflexivity | f_equal; lia
           | injection Hq as ->; exfalso; lia
           | intros [= ->]; lia
           | exfalso; apply Hq; f_equal; lia ]
    |].
  all: split;
    [split;
     [intros Hin';
      repeat (apply elem_of_cons in Hin' as [Hin'|Hin']; try discriminate);
      try (now apply elem_of_nil in Hin'); f_equal; lia
     |intros Hq;
      first [ injection Hq as ->; exfalso; lia | right; left; reflexivity ]]
    |intros ms href Hin';
     repeat (apply elem_of_cons in Hin' as [Hin'|Hin']; try discriminate);
     try (now apply elem_of_nil in Hin');
     try (injection Hin' as -> ->; now split)].
Qed.

End ApiErrorFacts.

Section UseAuthFacts.
Context {W : Type} `{!Postgrest W} `{!Auth W} `{!Timers W}.

Ltac turned_away H :=
  cbn [app]; apply H; reflexivity.

(** What [login] replies: an admin profile without error, or an error
    without user. *)
Lemma runs_login (email password : string) (w : W) Φ :
  (forall reply w' tr,
     match AuthService.sessionError reply with
     | None =>
         exists u, AuthService.user reply = Some u
                   /\ u !! "user_type" = Some (VStr "admin")
     | Some _ => AuthService.user reply = None
     end ->
     Φ (Returned reply) w' tr) ->
  runs (AuthService.login email password) w Φ.
Proof.
  intros H. unfold AuthService.login, AuthService.signOut.
  step. step. apply runs_perform. intros [authData|exn] w1 E1; cbv beta iota.
  2:{ step. turned_away H. }
  destruct (authError authData) as [authError|] eqn:Eerr; [step; turned_away H|].
  destruct (authUser authData) as [[uid]|] eqn:Euser; [|step; turned_away H].
  step. step; cbn [authId].
  - destruct (decide (row !! "user_type" = Some (VStr "admin"))) as [Hadmin|Hnot].
    + rewrite bool_decide_eq_false_2 by (intros Hne; now apply Hne).
      step. apply H. cbn. now exists row.
    + rewrite bool_decide_eq_true_2 by exact Hnot.
      step. apply runs_perform. intros [e|exn] w2 E2; cbv beta iota;
        step; turned_away H.
  - step. apply runs_perform. intros [e|exn'] w2 E2; cbv beta iota;
      step; turned_away H.
  - step. turned_away H.
Qed.

(** X27: the callbacks of [useAuth] never reject and end with [loading]
    false.  [login] returns true only with an admin profile as user and no
    error; when it returns false the user is the one before and an error is
    set.  [logout] leaves no user, whether or not the sign-out succeeded.
    [register] never changes the user, and returns false exactly when it
    sets an error. *)
Theorem useAuth_callbacks (s : UseAuth.State) (email password : string)
  (input : AuthService.CreateUserInput) (w : W) :
  (exists ok s',
     out (UseAuth.login email password s w) = Returned (ok, s')
     /\ UseAuth.loading s' = false
     /\ if ok then
          (exists u, UseAuth.user s' = Some u
                     /\ u !! "user_type" = Some (VStr "admin"))
          /\ UseAuth.error s' = None
        else
          UseAuth.user s' = UseAuth.user s /\ is_Some (UseAuth.error s'))
  /\ (exists s',
        out (UseAuth.logout s w) = Returned s'
        /\ UseAuth.user s' = None
        /\ UseAuth.isAuthenticated s' = false
        /\ UseAuth.loading s' = false)
  /\ (exists ok s',
        out (UseAuth.register input s w) = Returned (ok, s')
        /\ UseAuth.user s' = UseAuth.user s
        /\ UseAuth.loading s' = false
        /\ (ok = false <-> is_Some (UseAuth.error s'))).
Proof.
  split; [|split].
  - as_runs (UseAuth.login email password s) w. unfold UseAuth.login. cbv zeta.
    step. step. apply runs_login. intros reply w' tr Hreply.
    destruct (AuthService.sessionError reply) as [e|].
    + step. eexists false, _. split; [reflexivity|]. cbn. now repeat split.
    + step. eexists true, _. split; [reflexivity|]. cbn. now repeat split.
  - as_runs (UseAuth.logout s) w. unfold UseAuth.logout. cbv zeta.
    step. step. step.
    unfold AuthService.logout, guardedDelete, AuthService.signOut.
    step. step. apply runs_perform. intros [[e|]|exn] w1 E1; cbv beta iota;
      step; step; step; eexists; (split; [reflexivity|]); now repeat split.
  - as_runs (UseAuth.register input s) w. unfold UseAuth.register. cbv zeta.
    step. step.
    assert (Hregister : forall Φ,
              (forall reply w' tr, Φ (Returned reply) w' tr) ->
              runs (AuthService.register input) w Φ).
    { intros Φ HΦ. unfold runs.
      destruct (register_asks input w) as (reply & E & _). rewrite E. apply HΦ. }
    apply Hregister. intros [p [e|]] w' tr; step;
      eexists _, _; (split; [reflexivity|]); cbn; repeat split;
      try discriminate; try (intros [? [=]]); eauto.
Qed.

End UseAuthFacts.

(** * More on login and on the date range *)

Section LoginFailures.
Context {W : Type} `{!Postgrest W} `{!Auth W} `{!Timers W}.
Import AuthService.

Ltac elsewhere :=
  cbn [app]; split;
  [ let Etr := fresh "Etr" in intros ? ? ? ? Etr; discriminate Etr
  | let Etr := fresh "Etr" in intros ? ? ? ? Etr; discriminate Etr ].

(** X28: when the sign-in succeeded and the store refuses the profile,
    [login] asks for the sign-out and, if that returns, replies with no
    user, no session and the error 'Failed to verify user profile.' with
    the store's code; when the request for the profile throws, [login] asks
    for nothing more, so for no sign-out, and replies with the exception's
    message. *)
Theorem login_profile_failures (email password : string) (w : W) :
  let run := login email password w in
  (forall authData uid refusal tr,
     trace run = EvSignIn email password (Returned authData)
                 :: EvSingle (profileQuery uid) (Returned (SingleError refusal))
                 :: tr ->
     exists o,
       tr = [EvSignOut o]
       /\ forall e, o = Returned e ->
            out run
            = Returned (denied {| message := "Failed to verify user profile.";
                                  code := Some (pg_code refusal);
                                  status := None |}))
  /\ (forall authData uid e tr,
        trace run = EvSignIn email password (Returned authData)
                    :: EvSingle (profileQuery uid) (Threw e) :: tr ->
        tr = []
        /\ out run
           = Returned (denied (plainError
                                 (messageOr e "An unexpected error occurred")))).
Proof.
  cbv zeta. as_runs (login email password) w. unfold login, signOut.
  step. step. apply runs_perform. intros [authData|exn] w1 E1; cbv beta iota.
  2:{ step. elsewhere. }
  destruct (authError authData) as [authError|] eqn:Eerr; [step; elsewhere|].
  destruct (authUser authData) as [[uid]|] eqn:Euser; [|step; elsewhere].
  step. step; cbn [authId].
  - destruct (bool_decide _).
    + step. apply runs_perform. intros [e|exn] w2 E2; cbv beta iota;
        step; elsewhere.
    + step. elsewhere.
  - step. apply runs_perform. intros [e|exn'] w2 E2; cbv beta iota; step;
      cbn [app]; (split; [|intros ? ? ? ? Etr; discriminate Etr]);
      intros authData0 uid0 refusal tr Etr; injection Etr as _ _ <- <-;
      eexists; (split; [reflexivity|]); intros e0 Ee; [reflexivity|discriminate Ee].
  - step. cbn [app]. split; [intros ? ? ? ? Etr; discriminate Etr|].
    intros authData0 uid0 e tr Etr. injection Etr as _ _ <- <-. now split.
Qed.

End LoginFailures.

Example login_keeps_session_when_profile_request_throws :
  let run := AuthService.login "eve@example.com" "Passw0rd" MoreExamples.severed in
  out run = Returned (AuthService.denied (plainError "Failed to fetch"))
  /\ trace run
     = [ EvSignIn "eve@example.com" "Passw0rd"
           (Scripted.onSignIn MoreExamples.severed);
         EvSingle (AuthService.profileQuery "u9")
           (Threw (ErrorObject "Failed to fetch")) ].
Proof. split; vm_compute; reflexivity. Qed.

Section DateRange.
Context {W : Type} `{!Postgrest W}.
Import TransactionService.

(** X29: [getTransactionsByDateRange] asks once, for the rows 0 to 999 of
    the payments, newest first, between the two dates, an empty date being
    no bound; a reply with a payload is page 1 of pages of 1000, and when
    the store counts more than 1000 rows it reports more than one page: the
    rows beyond the first 1000 are not fetched. *)
Theorem date_range_is_one_page (dateFrom dateTo : string) (w : W) :
  let run := getTransactionsByDateRange dateFrom dateTo w in
  exists q o,
    trace run = [EvQuery q o]
    /\ table q = "payments"
    /\ window q = Some (0, 999)
    /\ ordering q = Some ("created_at", false)
    /\ filters q
       = match truthy (Some dateFrom) with
         | Some d => [FGte "created_at" (VStr d)]
         | None => []
         end
         ++ match truthy (Some dateTo) with
            | Some d => [FLte "created_at" (VStr d)]
            | None => []
            end
    /\ forall reply result,
         out run = Returned reply -> payload reply = Some result ->
         exists rows n,
           o = Returned (Rows rows n)
           /\ pgRows result = Some rows
           /\ pgPage result = 1
           /\ pgPageSize result = 1000
           /\ pgTotal result = nullish n 0
           /\ pgTotalPages result = ceil_div (nullish n 0) 1000
           /\ (1000 < nullish n 0 -> 2 <= pgTotalPages result).
Proof.
  cbv zeta. as_runs (getTransactionsByDateRange dateFrom dateTo) w.
  unfold getTransactionsByDateRange, getTransactions. cbv zeta.
  cbn [filter paging status paymentProvider TransactionService.dateFrom
       TransactionService.dateTo search page pageSize sortBy sortOrder
       nullish default isAsc].
  destruct dateFrom as [|a1 s1], dateTo as [|a2 s2]; cbn [truthy];
    repeat step;
    (eexists _, _; do 5 (split; [reflexivity|]));
    intros reply result [= <-] Hp; cbn [payload] in Hp; try discriminate Hp;
    injection Hp as <-; cbn [pgRows pgPage pgPageSize pgTotal pgTotalPages];
    (eexists _, _; do 6 (split; [reflexivity|]));
    intros Hmany;
    match goal with
    | |- _ <= ceil_div ?a ?b =>
        pose proof (ceil_div_spec a b ltac:(lia)); lia
    end.
Qed.

End DateRange.
